(** * Saturn dataset scripts: normalizer and inspector

    A shallow embedding of the two pieces of logic in [src/backend]:

    - [serialize_item] of [download_final_datasets.py], the normalizer that
      turns dataset rows into JSON-serializable values;
    - [inspect_dataset] and the batch loop of [inspect_datasets.py], the
      inspector that prints summary statistics and a preview;
    - the body of [download_final_datasets.py], which samples, normalizes
      and writes three datasets, and the example loop of
      [download_datasets.py].

    Modelling choices:

    - a Python string is a sequence of Unicode code points, so a [pystr] is
      a list of code points and the slice [s[:n]] is [firstn n s];
    - ints are unbounded ([Z]); floats are IEEE binary64 values
      ([spec_float]), [int / int] is the correctly rounded quotient and
      [.1f] rounds the exact binary value to one decimal, ties to even;
    - a dict is an association list in insertion order;
    - printing is an output monad: the list of the texts printed so far,
      one per [print] call, together with a result or the exception raised;
    - what only the interpreter knows ([repr] of a string, the text of a
      float, [json.dumps], the message of an exception) is a parameter,
      the class [Interp]; the theorems hold for every instance.

    The definitions come first (modules [PyStr], [Normalizer], [Inspector],
    [Downloader]), the properties after them. *)

From Stdlib Require Import ZArith NArith List Bool Lia String Ascii.
From Stdlib Require Import Decimal DecimalN Floats.SpecFloat.
From Stdlib Require Import Sorting.Sorted Sorting.Permutation.
Import ListNotations.

Set Warnings "-register-all".
Local Open Scope Z_scope.

(** ** Python strings *)

Module PyStr.

Definition char := N.
Definition pystr := list char.

(** An ASCII literal as a Python string. *)
Definition lit (s : string) : pystr :=
  List.map N_of_ascii (list_ascii_of_string s).

Definition pystr_eqb (a b : pystr) : bool :=
  if list_eq_dec N.eq_dec a b then true else false.

(** ['='*80] and friends. *)
Definition repeat_str (s : pystr) (n : nat) : pystr :=
  List.concat (List.repeat s n).

(** [sep.join(parts)]. *)
Fixpoint join (sep : pystr) (parts : list pystr) : pystr :=
  match parts with
  | [] => []
  | [p] => p
  | p :: rest => p ++ sep ++ join sep rest
  end.

Fixpoint uint_chars (u : Decimal.uint) : pystr :=
  match u with
  | Nil => []
  | D0 u => 48%N :: uint_chars u
  | D1 u => 49%N :: uint_chars u
  | D2 u => 50%N :: uint_chars u
  | D3 u => 51%N :: uint_chars u
  | D4 u => 52%N :: uint_chars u
  | D5 u => 53%N :: uint_chars u
  | D6 u => 54%N :: uint_chars u
  | D7 u => 55%N :: uint_chars u
  | D8 u => 56%N :: uint_chars u
  | D9 u => 57%N :: uint_chars u
  end.

(** Decimal digits of a natural number, ["0"] for zero. *)
Definition digits (n : N) : pystr := uint_chars (N.to_uint n).

(** [str(z)] for an int. *)
Definition str_int (z : Z) : pystr :=
  if z <? 0 then 45%N :: digits (Z.abs_N z) else digits (Z.abs_N z).

(** ["%0<w>d" % n] for a non-negative [n]. *)
Definition zero_pad (w : nat) (n : N) : pystr :=
  let d := digits n in
  List.repeat 48%N (w - List.length d) ++ d.

(** Insert a comma after every third digit of a reversed digit string. *)
Fixpoint commas_rev (r : pystr) : pystr :=
  match r with
  | a :: b :: c :: ((_ :: _) as rest) => a :: b :: c :: 44%N :: commas_rev rest
  | _ => r
  end.

(** [format(z, ',')]. *)
Definition fmt_comma (z : Z) : pystr :=
  let body := List.rev (commas_rev (List.rev (digits (Z.abs_N z)))) in
  if z <? 0 then 45%N :: body else body.

(** [s.endswith(suffix)] as a proposition. *)
Definition ends_with (suffix s : pystr) : Prop :=
  exists prefix, s = prefix ++ suffix.

End PyStr.
Import PyStr.

(** ** The normalizer ([download_final_datasets.py]) *)

Module Normalizer.

(** A [datetime.datetime]; [utcoffset] is [None] for a naive value and
    otherwise the offset in microseconds (strictly between -24h and 24h). *)
Record datetime := {
  year : N; month : N; day : N;
  hour : N; minute : N; second : N; microsecond : N;
  utcoffset : option Z
}.

(** The objects a dataset row is made of.  [OTuple] is a [tuple], a
    sequence that is not a [list]; [OOther] stands for an object of any
    other type the normalizer does not recognise (bytes, Decimal, ...),
    identified by an opaque tag.  Dict entries keep insertion order. *)
Inductive pyobj :=
| ONone
| OBool (b : bool)
| OInt (z : Z)
| OFloat (f : spec_float)
| OStr (s : pystr)
| ODatetime (d : datetime)
| OOther (tag : N)
| OTuple (items : list pyobj)
| OList (items : list pyobj)
| ODict (entries : list (pyobj * pyobj)).

(** [datetime._format_offset]. *)
Definition format_offset (off : option Z) : pystr :=
  match off with
  | None => []
  | Some o =>
      let sign := if o <? 0 then lit "-" else lit "+" in
      let a := Z.abs_N o in
      let hh := (a / 3600000000)%N in
      let r1 := (a mod 3600000000)%N in
      let mm := (r1 / 60000000)%N in
      let r2 := (r1 mod 60000000)%N in
      let ss := (r2 / 1000000)%N in
      let us := (r2 mod 1000000)%N in
      sign ++ zero_pad 2 hh ++ lit ":" ++ zero_pad 2 mm
        ++ (if (r2 =? 0)%N then []
            else lit ":" ++ zero_pad 2 ss
                   ++ (if (us =? 0)%N then [] else lit "." ++ zero_pad 6 us))
  end.

(** [datetime.isoformat()] with the default separator and timespec. *)
Definition isoformat (d : datetime) : pystr :=
  zero_pad 4 (year d) ++ lit "-" ++ zero_pad 2 (month d) ++ lit "-"
    ++ zero_pad 2 (day d) ++ lit "T"
    ++ zero_pad 2 (hour d) ++ lit ":" ++ zero_pad 2 (minute d) ++ lit ":"
    ++ zero_pad 2 (second d)
    ++ (if (microsecond d =? 0)%N then []
        else lit "." ++ zero_pad 6 (microsecond d))
    ++ format_offset (utcoffset d).

(** [serialize_item]: the [isinstance] chain of the source, in its order.
    A tuple is neither a [datetime], a [dict] nor a [list]: it falls to the
    last branch and is returned as it is. *)
Fixpoint serialize_item (obj : pyobj) : pyobj :=
  match obj with
  | ODatetime d => OStr (isoformat d)
  | ODict entries =>
      ODict (List.map (fun kv => match kv with
                                 | (k, v) => (k, serialize_item v)
                                 end) entries)
  | OList items => OList (List.map serialize_item items)
  | _ => obj
  end.

(** Nesting depth: 0 for a leaf, one more than the deepest element for a
    list, a tuple or a dict. *)
Fixpoint depth (obj : pyobj) : nat :=
  match obj with
  | OTuple items | OList items =>
      S (List.fold_right (fun x acc => Nat.max (depth x) acc) 0%nat items)
  | ODict entries =>
      S (List.fold_right (fun kv acc => match kv with
                                        | (_, v) => Nat.max (depth v) acc
                                        end) 0%nat entries)
  | _ => 0%nat
  end.

Definition is_str (obj : pyobj) : bool :=
  match obj with OStr _ => true | _ => false end.

(** Values made of JSON types only: mapping with string keys, sequence
    (list or tuple), string, number, boolean, null. *)
Fixpoint json_native (obj : pyobj) : bool :=
  match obj with
  | ODatetime _ | OOther _ => false
  | OTuple items | OList items => List.forallb json_native items
  | ODict entries =>
      List.forallb (fun kv => match kv with
                              | (k, v) => is_str k && json_native v
                              end) entries
  | _ => true
  end.

(** The inputs of the data model: string-keyed dicts, lists, strings,
    numbers, booleans, null and timestamps, nested.  A tuple belongs to
    them only when it holds JSON types already. *)
Fixpoint record_value (obj : pyobj) : bool :=
  match obj with
  | OOther _ => false
  | OTuple items => List.forallb json_native items
  | OList items => List.forallb record_value items
  | ODict entries =>
      List.forallb (fun kv => match kv with
                              | (k, v) => is_str k && record_value v
                              end) entries
  | _ => true
  end.


Fixpoint mapM_opt {A B : Type} (f : A -> option B) (l : list A) : option (list B) :=
  match l with
  | [] => Some []
  | x :: r =>
      match f x with
      | None => None
      | Some y => option_map (cons y) (mapM_opt f r)
      end
  end.

(** What an interpreter charges to the recursion limit besides the calls
    of [serialize_item] themselves, each of which takes one level:
    - [comprehension_frame]: the body of a comprehension runs in a frame of
      its own (CPython up to 3.11; 3.12 and later inline it);
    - [isinstance_level]: a call of [isinstance] takes a level while it
      runs (CPython 3.11 until the call site is specialised);
    - [method_level]: so does a call of the C methods [isoformat] and
      [items] (CPython 3.11).
    CPython 3.12 and later count C calls against a limit of their own. *)
Record accounting := {
  comprehension_frame : bool;
  isinstance_level : bool;
  method_level : bool
}.

Definition level (counted : bool) : nat := if counted then 1%nat else 0%nat.

(** CPython 3.11 before any specialisation: everything is charged. *)
Definition cpython_311 : accounting :=
  {| comprehension_frame := true; isinstance_level := true;
     method_level := true |}.

(** [serialize_item] under the interpreter's recursion limit.  [frames] is
    the number of levels still free when [serialize_item] is called; the
    call takes one, the [isinstance] tests, [isoformat] and [items] need
    [level] more while they run, and the comprehension passes on what is
    left after its own frame.  [None] is [RecursionError]. *)
Fixpoint serialize_item_frames (py : accounting) (frames : nat) (obj : pyobj)
  : option pyobj :=
  match frames with
  | O => None
  | S inner =>
      if (inner <? level (isinstance_level py))%nat then None
      else
        match obj with
        | ODatetime d =>
            if (inner <? level (method_level py))%nat then None
            else Some (OStr (isoformat d))
        | ODict entries =>
            if (inner <? level (method_level py))%nat then None
            else if comprehension_frame py then
              match inner with
              | O => None
              | S body =>
                  option_map ODict
                    (mapM_opt (fun kv => match kv with
                                         | (k, v) =>
                                             option_map (pair k)
                                               (serialize_item_frames py body v)
                                         end) entries)
              end
            else
              option_map ODict
                (mapM_opt (fun kv => match kv with
                                     | (k, v) =>
                                         option_map (pair k)
                                           (serialize_item_frames py inner v)
                                     end) entries)
        | OList items =>
            if comprehension_frame py then
              match inner with
              | O => None
              | S body =>
                  option_map OList (mapM_opt (serialize_item_frames py body) items)
              end
            else option_map OList (mapM_opt (serialize_item_frames py inner) items)
        | _ => Some obj
        end
  end.

(** [n] lists around [leaf]: [[[... leaf ...]]]. *)
Fixpoint nested (n : nat) (leaf : pyobj) : pyobj :=
  match n with
  | O => leaf
  | S m => OList [nested m leaf]
  end.

Definition sample_timestamp : datetime :=
  {| year := 2024; month := 1; day := 15; hour := 10; minute := 30;
     second := 0; microsecond := 0; utcoffset := None |}.

(** A WildChat-like row: a timestamp with a UTC offset and a nested
    conversation. *)
Definition sample_row : pyobj :=
  ODict [(OStr (lit "timestamp"),
          ODatetime {| year := 2024; month := 1; day := 15;
                       hour := 10; minute := 30; second := 0;
                       microsecond := 0; utcoffset := Some 0 |});
         (OStr (lit "conversation"),
          OList [ODict [(OStr (lit "role"), OStr (lit "user"));
                        (OStr (lit "turn"), OInt 1);
                        (OStr (lit "redacted"), OBool false);
                        (OStr (lit "score"), ONone)]])].


(** What is found in [obj] by following [path]: each step is a position
    in a list, or among the entries of a dict, whose value is taken.  The
    empty path is [obj] itself.  Dict keys and the elements of tuples are
    not reached. *)
Fixpoint at_path (path : list nat) (obj : pyobj) : option pyobj :=
  match path with
  | [] => Some obj
  | i :: rest =>
      match obj with
      | OList items =>
          match List.nth_error items i with
          | Some x => at_path rest x
          | None => None
          end
      | ODict entries =>
          match List.nth_error entries i with
          | Some (_, v) => at_path rest v
          | None => None
          end
      | _ => None
      end
  end.

End Normalizer.

(** ** The inspector ([inspect_datasets.py]) *)

Module Inspector.

(** What [json.load] returns.  Dict entries keep the order of the file. *)
Inductive value :=
| VNone
| VBool (b : bool)
| VInt (z : Z)
| VFloat (f : spec_float)
| VStr (s : pystr)
| VList (items : list value)
| VDict (entries : list (pystr * value)).

(** The exceptions the script can meet, named by their cause; in Python
    all of them are subclasses of [Exception]. *)
Inductive exn :=
| LoadFailure (msg : pystr)              (* raised by [open] or [json.load] *)
| NoLen (v : value)                      (* TypeError: [len(v)] *)
| NoAttribute (v : value) (attr : string) (* AttributeError: [v.attr] *)
| NotSubscriptable (v : value)           (* TypeError: [v[0]] *)
| NotSliceable (v : value)               (* [v[:n]] on a non-sequence *)
| IndexError                             (* [v[0]] on an empty sequence *)
| KeyError (key : value)                 (* [d[key]] on a dict without [key] *)
| NotIterable (v : value)                (* TypeError: [for _ in v] *)
| Unhashable (v : value)                 (* TypeError: list or dict as a key *)
| EmptySequence                          (* ValueError: [min([])] *)
| ZeroDivision
| Overflow.                              (* OverflowError: int / int *)

Definition res (A : Type) : Type := (exn + A)%type.

Definition res_bind {A B : Type} (r : res A) (f : A -> res B) : res B :=
  match r with
  | inl e => inl e
  | inr a => f a
  end.

Fixpoint res_map {A B : Type} (f : A -> res B) (l : list A) : res (list B) :=
  match l with
  | [] => inr []
  | x :: r =>
      res_bind (f x) (fun y => res_bind (res_map f r) (fun ys => inr (y :: ys)))
  end.

(** What the interpreter and [json] supply: the text of a float, the
    [repr] of a string, [json.dumps(v, indent=2)] and [str(e)]. *)
Class Interp := {
  float_repr : spec_float -> pystr;
  str_repr : pystr -> pystr;
  json_dumps : value -> pystr;
  exn_str : exn -> pystr
}.

(** *** Built-in operations *)

(** [bool(v)]. *)
Definition truthy (v : value) : bool :=
  match v with
  | VNone => false
  | VBool b => b
  | VInt z => negb (z =? 0)
  | VFloat (S754_zero _) => false
  | VFloat _ => true
  | VStr s => match s with [] => false | _ => true end
  | VList l => match l with [] => false | _ => true end
  | VDict d => match d with [] => false | _ => true end
  end.

(** [len(v)]. *)
Definition py_len (v : value) : res Z :=
  match v with
  | VStr s => inr (Z.of_nat (List.length s))
  | VList l => inr (Z.of_nat (List.length l))
  | VDict d => inr (Z.of_nat (List.length d))
  | _ => inl (NoLen v)
  end.

(** [v[0]]. *)
Definition getitem0 (v : value) : res value :=
  match v with
  | VList (x :: _) => inr x
  | VStr (c :: _) => inr (VStr [c])
  | VList [] | VStr [] => inl IndexError
  | VDict _ => inl (KeyError (VInt 0))
  | _ => inl (NotSubscriptable v)
  end.

(** [for x in v]. *)
Definition py_iter (v : value) : res (list value) :=
  match v with
  | VList l => inr l
  | VStr s => inr (List.map (fun c => VStr [c]) s)
  | VDict d => inr (List.map (fun kv => VStr (fst kv)) d)
  | _ => inl (NotIterable v)
  end.

Fixpoint lookup (k : pystr) (d : list (pystr * value)) : option value :=
  match d with
  | [] => None
  | (k', v) :: r => if pystr_eqb k k' then Some v else lookup k r
  end.

(** [k in d] for a dict. *)
Definition has_key (k : pystr) (d : list (pystr * value)) : bool :=
  match lookup k d with Some _ => true | None => false end.

(** [v.get(k, default)]. *)
Definition py_get (v : value) (k : pystr) (default : value) : res value :=
  match v with
  | VDict d => inr (match lookup k d with Some x => x | None => default end)
  | _ => inl (NoAttribute v "get")
  end.

(** [v[:n]]. *)
Definition py_slice (n : nat) (v : value) : res value :=
  match v with
  | VList l => inr (VList (List.firstn n l))
  | VStr s => inr (VStr (List.firstn n s))
  | _ => inl (NotSliceable v)
  end.

(** [min(l)] and [max(l)]. *)
Definition py_min (l : list Z) : res Z :=
  match l with
  | [] => inl EmptySequence
  | x :: r => inr (List.fold_left Z.min r x)
  end.

Definition py_max (l : list Z) : res Z :=
  match l with
  | [] => inl EmptySequence
  | x :: r => inr (List.fold_left Z.max r x)
  end.

(** [sum(l)]. *)
Definition py_sum (l : list Z) : Z := List.fold_left Z.add l 0.

(** *** Floats: [int / int] and the [.1f] format *)

(** [a / b] on ints: the quotient rounded to the nearest binary64 value,
    ties to even; [OverflowError] when that value is not finite, which is
    when [|a / b|] reaches the midpoint [2^1024 - 2^970] between the largest
    double and [2^1024]. *)
Definition py_truediv (a b : Z) : res spec_float :=
  if b =? 0 then inl ZeroDivision
  else if a =? 0 then inr (S754_zero (b <? 0))
  else if (2 ^ 1024 - 2 ^ 970) * Z.abs b <=? Z.abs a then inl Overflow
  else inr (SFdiv 53 1024
              (S754_finite (a <? 0) (Z.to_pos (Z.abs a)) 0)
              (S754_finite (b <? 0) (Z.to_pos (Z.abs b)) 0)).

(** [n * 2^e] rounded to the nearest integer, ties to even. *)
Definition round_half_even (n e : Z) : Z :=
  if 0 <=? e then n * 2 ^ e
  else
    let d := 2 ^ (- e) in
    let q := n / d in
    let r := n mod d in
    if 2 * r <? d then q
    else if d <? 2 * r then q + 1
    else if Z.even q then q else q + 1.

(** [format(f, '.1f')]: the exact value of the double, rounded to one
    decimal, ties to even. *)
Definition fmt_f1 (f : spec_float) : pystr :=
  match f with
  | S754_nan => lit "nan"
  | S754_infinity s => if s then lit "-inf" else lit "inf"
  | S754_zero s => if s then lit "-0.0" else lit "0.0"
  | S754_finite s m e =>
      let tenths := round_half_even (10 * Zpos m) e in
      (if s then lit "-" else [])
        ++ digits (Z.to_N (tenths / 10)) ++ lit "."
        ++ digits (Z.to_N (tenths mod 10))
  end.

(** *** [collections.Counter] *)

(** Dict keys are compared by value: [True], [1] and [1.0] are one key.
    A [key] is the canonical form of a hashable value; numbers are kept as
    an odd mantissa and a binary exponent. *)
Inductive key :=
| KNone
| KStr (s : pystr)
| KNum (m e : Z)
| KNan
| KInf (neg : bool).

Fixpoint strip_twos (p : positive) (e : Z) : positive * Z :=
  match p with
  | xO p' => strip_twos p' (e + 1)
  | _ => (p, e)
  end.

Definition num_key (m e : Z) : key :=
  match m with
  | Z0 => KNum 0 0
  | Zpos p => let (p', e') := strip_twos p e in KNum (Zpos p') e'
  | Zneg p => let (p', e') := strip_twos p e in KNum (Zneg p') e'
  end.

(** [hash(v)], which fails on lists and dicts. *)
Definition hash_key (v : value) : res key :=
  match v with
  | VNone => inr KNone
  | VBool b => inr (num_key (if b then 1 else 0) 0)
  | VInt z => inr (num_key z 0)
  | VFloat (S754_zero _) => inr (num_key 0 0)
  | VFloat (S754_infinity s) => inr (KInf s)
  | VFloat S754_nan => inr KNan
  | VFloat (S754_finite s m e) => inr (num_key (if s then Zneg m else Zpos m) e)
  | VStr s => inr (KStr s)
  | VList _ | VDict _ => inl (Unhashable v)
  end.

Definition key_eq_dec (a b : key) : {a = b} + {a <> b}.
Proof.
  decide equality; try apply Z.eq_dec; try apply Bool.bool_dec.
  apply (list_eq_dec N.eq_dec).
Defined.

Definition key_eqb (a b : key) : bool :=
  if key_eq_dec a b then true else false.

(** One entry of a counter: the key as first met, and its count. *)
Record entry := { e_key : key; e_val : value; e_count : Z }.

(** [c[v] += 1]: an existing key keeps its place and its first
    representative; a new key goes last. *)
Fixpoint counter_add (k : key) (v : value) (c : list entry) : list entry :=
  match c with
  | [] => [{| e_key := k; e_val := v; e_count := 1 |}]
  | x :: r =>
      if key_eqb k (e_key x)
      then {| e_key := e_key x; e_val := e_val x; e_count := e_count x + 1 |} :: r
      else x :: counter_add k v r
  end.

(** [Counter(l)]. *)
Definition counter (l : list value) : res (list entry) :=
  res_bind (res_map (fun v => res_bind (hash_key v) (fun k => inr (k, v))) l)
    (fun kvs =>
       inr (List.fold_left (fun c kv => counter_add (fst kv) (snd kv) c) kvs [])).

(** [sorted(c.items(), key=itemgetter(1), reverse=True)]: a stable sort,
    so equal counts keep their order. *)
Fixpoint insert_desc (x : entry) (l : list entry) : list entry :=
  match l with
  | [] => [x]
  | y :: r =>
      if e_count y <=? e_count x then x :: l else y :: insert_desc x r
  end.

Definition sort_desc (c : list entry) : list entry :=
  List.fold_right insert_desc [] c.

(** [c.most_common(n)]. *)
Definition most_common (n : nat) (c : list entry) : list entry :=
  List.firstn n (sort_desc c).

(** *** What a counter and a ranking are *)

(** Position of the first occurrence of [k] in [ks]; the length of [ks]
    when there is none. *)
Fixpoint first_index (k : key) (ks : list key) : nat :=
  match ks with
  | [] => 0%nat
  | k' :: r => if key_eqb k k' then 0%nat else S (first_index k r)
  end.

(** How many times [k] occurs in [ks]. *)
Definition occurrences (k : key) (ks : list key) : Z :=
  Z.of_nat (List.count_occ key_eq_dec ks k).

(** [x] comes before [y] in the ranking: a larger count, or the same count
    and a key met earlier. *)
Definition ranked_before (ks : list key) (x y : entry) : Prop :=
  e_count y < e_count x
  \/ (e_count x = e_count y
      /\ (first_index (e_key x) ks < first_index (e_key y) ks)%nat).

(** The counter after the keyed values [kvs] have been added in order. *)
Definition counter_of (kvs : list (key * value)) : list entry :=
  List.fold_left (fun c kv => counter_add (fst kv) (snd kv) c) kvs [].

Definition bump (k : key) (x : entry) : entry :=
  if key_eqb k (e_key x)
  then {| e_key := e_key x; e_val := e_val x; e_count := e_count x + 1 |}
  else x.

(** [c] counts [kvs]: its keys are the keys met, each with the number of
    times it was met and the first value met with it, and the entries are
    in the order in which their keys were first met. *)
Record counts (kvs : list (key * value)) (c : list entry) : Prop := {
  counts_keys :
    forall k, In k (List.map e_key c) <-> In k (List.map fst kvs);
  counts_entries :
    forall x, In x c ->
      e_count x = occurrences (e_key x) (List.map fst kvs)
      /\ List.nth_error (List.map snd kvs)
           (first_index (e_key x) (List.map fst kvs)) = Some (e_val x);
  counts_order :
    StronglySorted lt
      (List.map (fun x => first_index (e_key x) (List.map fst kvs)) c)
}.

(** The order of a stable descending sort by count, for entries at
    positions [pos]. *)
Definition before (pos : entry -> nat) (x y : entry) : Prop :=
  e_count y < e_count x
  \/ (e_count x = e_count y /\ (pos x < pos y)%nat).

(** *** Printing: output so far, then a result or an exception *)

Definition M (A : Type) : Type := (list pystr * res A)%type.

Definition ret {A : Type} (a : A) : M A := ([], inr a).

Definition bind {A B : Type} (m : M A) (f : A -> M B) : M B :=
  match m with
  | (o, inl e) => (o, inl e)
  | (o, inr a) => let (o', r) := f a in (o ++ o', r)
  end.

(** [print(s)]: one entry of the output per call. *)
Definition print (s : pystr) : M unit := ([s], inr tt).

(** An expression, evaluated before anything is printed. *)
Definition eval {A : Type} (r : res A) : M A := ([], r).

Declare Scope py_scope.
Delimit Scope py_scope with py.
Notation "x <- c ;; k" := (bind c (fun x => k))
  (at level 61, c at next level, right associativity) : py_scope.
Notation "c ;; k" := (bind c (fun _ => k))
  (at level 61, right associativity) : py_scope.

(** [try: body / except Exception as e: handler(e)]. *)
Definition try_except {A : Type} (body : M A) (handler : exn -> M A) : M A :=
  match body with
  | (out, inl e) => let (out', r) := handler e in (out ++ out', r)
  | (out, inr a) => (out, inr a)
  end.

(** [for x in l: body]. *)
Fixpoint for_each {A : Type} (l : list A) (body : A -> M unit) : M unit :=
  match l with
  | [] => ret tt
  | x :: r => bind (body x) (fun _ => for_each r body)
  end.

Definition nl : pystr := [10%N].
Definition rule : pystr := repeat_str (lit "=") 80.

Section WithInterp.
Context {I : Interp}.

(** [repr(v)]. *)
Fixpoint py_repr (v : value) : pystr :=
  match v with
  | VNone => lit "None"
  | VBool true => lit "True"
  | VBool false => lit "False"
  | VInt z => str_int z
  | VFloat f => float_repr f
  | VStr s => str_repr s
  | VList l => lit "[" ++ join (lit ", ") (List.map py_repr l) ++ lit "]"
  | VDict d =>
      lit "{"
        ++ join (lit ", ")
             (List.map (fun kv => match kv with
                                  | (k, x) => str_repr k ++ lit ": " ++ py_repr x
                                  end) d)
        ++ lit "}"
  end.

(** [str(v)], which is what an f-string field without a format prints. *)
Definition py_str (v : value) : pystr :=
  match v with
  | VStr s => s
  | _ => py_repr v
  end.

Local Open Scope py_scope.

(** [list(first_item.keys())] inside an f-string: the [repr] of a list of
    strings. *)
Definition repr_keys (d : list (pystr * value)) : pystr :=
  py_repr (VList (List.map (fun kv => VStr (fst kv)) d)).

(** Lines 32-37: the turn statistics. *)
Definition conversation_stats (data : value) : M unit :=
  items <- eval (py_iter data) ;;
  lengths <- eval (res_map (fun item =>
                              res_bind (py_get item (lit "conversation") (VList []))
                                py_len) items) ;;
  print (nl ++ lit "Conversation turn statistics:") ;;
  lo <- eval (py_min lengths) ;;
  print (lit "  Min turns: " ++ str_int lo) ;;
  hi <- eval (py_max lengths) ;;
  print (lit "  Max turns: " ++ str_int hi) ;;
  avg <- eval (py_truediv (py_sum lengths) (Z.of_nat (List.length lengths))) ;;
  print (lit "  Avg turns: " ++ fmt_f1 avg).

(** Line 45: one row of the language table. *)
Definition language_row (data : value) (x : entry) : M unit :=
  total <- eval (py_len data) ;;
  pct <- eval (py_truediv (100 * e_count x) total) ;;
  print (lit "  " ++ py_str (e_val x) ++ lit ": " ++ fmt_comma (e_count x)
           ++ lit " (" ++ fmt_f1 pct ++ lit "%)").

(** Lines 40-45: the language table. *)
Definition language_stats (data : value) : M unit :=
  items <- eval (py_iter data) ;;
  found <- eval (res_map (fun item => py_get item (lit "language") VNone) items) ;;
  lang_counts <- eval (counter (List.filter truthy found)) ;;
  print (nl ++ lit "Top 5 languages:") ;;
  for_each (most_common 5 lang_counts) (language_row data).

(** Lines 51-54: one turn of a [conversation]. *)
Definition conversation_line (turn : value) : M unit :=
  role <- eval (res_bind (py_get turn (lit "speaker_role") (VStr (lit "unknown")))
                  (py_get turn (lit "role"))) ;;
  content <- eval (res_bind
                     (res_bind (py_get turn (lit "utterance") (VStr []))
                        (py_get turn (lit "content")))
                     (py_slice 100)) ;;
  print (lit "  [" ++ py_str role ++ lit "]: " ++ py_str content ++ lit "...").

(** Lines 57-60: one element of [messages]. *)
Definition message_line (msg : value) : M unit :=
  role <- eval (py_get msg (lit "role") (VStr (lit "unknown"))) ;;
  content <- eval (res_bind (py_get msg (lit "content") (VStr [])) (py_slice 100)) ;;
  print (lit "  [" ++ py_str role ++ lit "]: " ++ py_str content ++ lit "...").

(** Lines 49-64: the example, on the entries [d] of the first record. *)
Definition preview (d : list (pystr * value)) : M unit :=
  match lookup (lit "conversation") d with
  | Some c =>
      conv <- eval (py_slice 3 c) ;;
      turns <- eval (py_iter conv) ;;
      for_each turns conversation_line
  | None =>
      match lookup (lit "messages") d with
      | Some m =>
          msgs <- eval (py_slice 2 m) ;;
          elems <- eval (py_iter msgs) ;;
          for_each elems message_line
      | None =>
          match lookup (lit "chosen") d with
          | Some ch =>
              text <- eval (py_slice 150 ch) ;;
              print (lit "  [chosen]: " ++ py_str text ++ lit "...")
          | None =>
              print (lit "  Structure: "
                       ++ List.firstn 300 (json_dumps (VDict d)) ++ lit "...")
          end
      end
  end.

(** Lines 21-64: [inspect_dataset] once the file is loaded. *)
Definition summarize (data : value) : M unit :=
  count <- eval (py_len data) ;;
  print (lit "Total items: " ++ fmt_comma count) ;;
  if negb (truthy data) then print (lit "Empty dataset!")
  else
    first_item <- eval (getitem0 data) ;;
    match first_item with
    | VDict d =>
        print (nl ++ lit "Fields: " ++ repr_keys d) ;;
        (if has_key (lit "conversation") d then conversation_stats data else ret tt) ;;
        (if has_key (lit "language") d then language_stats data else ret tt) ;;
        print (nl ++ [128221%N] ++ lit " Example conversation:") ;;
        preview d
    | _ => eval (inl (NoAttribute first_item "keys"))
    end.

(** [inspect_dataset(file_path)]; [name] is [file_path.name] and [loaded]
    is what opening and parsing the file gives. *)
Definition inspect_dataset (name : pystr) (loaded : res value) : M unit :=
  print (nl ++ rule) ;;
  print ([128202%N] ++ lit " " ++ name) ;;
  print rule ;;
  data <- eval loaded ;;
  summarize data.

(** Lines 74-78: one round of the loop. *)
Definition inspect_guarded (file : pystr * res value) : M unit :=
  try_except (inspect_dataset (fst file) (snd file))
    (fun e => print (nl ++ [10060%N] ++ lit " Error inspecting " ++ fst file
                       ++ lit ": " ++ exn_str e)).

(** Lines 67-82, the script: [files] are the [*.json] files of the
    directory in sorted order, each with what loading it gives. *)
Definition main (files : list (pystr * res value)) : M unit :=
  print rule ;;
  print ([128269%N] ++ lit " AI CONVERSATION DATASETS INSPECTION") ;;
  print rule ;;
  print (nl ++ lit "Found " ++ str_int (Z.of_nat (List.length files))
           ++ lit " datasets") ;;
  for_each files inspect_guarded ;;
  print (nl ++ rule) ;;
  print ([9989%N] ++ lit " Inspection complete!") ;;
  print rule.

(** *** Vocabulary of the report *)

(** The value under [k1] when the key is there, else the value under [k2]
    when that key is there, else [dflt]: what
    [t.get(k1, t.get(k2, dflt))] returns. *)
Definition first_present (t : list (pystr * value)) (k1 k2 : pystr)
           (dflt : value) : value :=
  match lookup k1 t with
  | Some v => v
  | None => match lookup k2 t with
            | Some v => v
            | None => dflt
            end
  end.

(** The line printed for a role and an already sliced content. *)
Definition labelled (role content : value) : pystr :=
  lit "  [" ++ py_str role ++ lit "]: " ++ py_str content ++ lit "...".

Definition banner (n : nat) : list pystr :=
  [rule;
   [128269%N] ++ lit " AI CONVERSATION DATASETS INSPECTION";
   rule;
   nl ++ lit "Found " ++ str_int (Z.of_nat n) ++ lit " datasets"].

Definition footer : list pystr :=
  [nl ++ rule; [9989%N] ++ lit " Inspection complete!"; rule].

Definition error_line (name : pystr) (e : exn) : pystr :=
  nl ++ [10060%N] ++ lit " Error inspecting " ++ name ++ lit ": " ++ exn_str e.

(** What the loop prints for a list of files. *)
Definition reports (files : list (pystr * res value)) : list pystr :=
  List.flat_map (fun file => fst (inspect_guarded file)) files.

(** [len(item.get('conversation', []))] when it has a value: 0 for a record
    without the field, the length of a list, string or dict otherwise. *)
Definition turn_count (item : value) : option Z :=
  match item with
  | VDict t =>
      match lookup (lit "conversation") t with
      | None => Some 0
      | Some (VList l) => Some (Z.of_nat (List.length l))
      | Some (VStr s) => Some (Z.of_nat (List.length s))
      | Some (VDict d) => Some (Z.of_nat (List.length d))
      | Some _ => None
      end
  | _ => None
  end.

(** The four lines of the turn statistics. *)
Definition stats_lines (lo hi : Z) (mean : spec_float) : list pystr :=
  [nl ++ lit "Conversation turn statistics:";
   lit "  Min turns: " ++ str_int lo;
   lit "  Max turns: " ++ str_int hi;
   lit "  Avg turns: " ++ fmt_f1 mean].

(** The percentage column: [100 * count / total] with one decimal. *)
Definition percent (count total : Z) : pystr :=
  match py_truediv (100 * count) total with
  | inr f => fmt_f1 f
  | inl _ => []
  end.

(** One row of the table, for a dataset of [total] records. *)
Definition language_line (total : Z) (x : entry) : pystr :=
  lit "  " ++ py_str (e_val x) ++ lit ": " ++ fmt_comma (e_count x)
    ++ lit " (" ++ percent (e_count x) total ++ lit "%)".

End WithInterp.

(** *** Datasets the report accepts *)

(** Values with a slice [v[:n]]: lists and strings. *)
Definition sliceable (v : value) : bool :=
  match v with
  | VList _ | VStr _ => true
  | _ => false
  end.

(** Values that can be dict keys: everything but lists and dicts. *)
Definition hashable (v : value) : bool :=
  match v with
  | VList _ | VDict _ => false
  | _ => true
  end.

(** A turn of a [conversation] that can be shown: a dict whose content
    (under [content], else under [utterance], else empty) has a slice. *)
Definition turn_ok (turn : value) : bool :=
  match turn with
  | VDict t =>
      sliceable (first_present t (lit "content") (lit "utterance") (VStr []))
  | _ => false
  end.

(** The same for an element of [messages]. *)
Definition message_ok (msg : value) : bool :=
  match msg with
  | VDict t =>
      sliceable (match lookup (lit "content") t with
                 | Some c => c
                 | None => VStr []
                 end)
  | _ => false
  end.

(** A [conversation] or [messages] value whose first [n] elements can be
    shown: a list of such elements, or the empty string. *)
Definition elements_ok (ok : value -> bool) (n : nat) (c : value) : bool :=
  match c with
  | VList l => List.forallb ok (List.firstn n l)
  | VStr [] => true
  | _ => false
  end.

(** A first record whose example can be shown. *)
Definition preview_ok (d : list (pystr * value)) : bool :=
  match lookup (lit "conversation") d with
  | Some c => elements_ok turn_ok 3 c
  | None =>
      match lookup (lit "messages") d with
      | Some m => elements_ok message_ok 2 m
      | None =>
          match lookup (lit "chosen") d with
          | Some ch => sliceable ch
          | None => true
          end
      end
  end.

(** The sum of the turn counts of the records that have one. *)
Definition turns_total (items : list value) : Z :=
  List.fold_right (fun item acc => match turn_count item with
                                   | Some n => n + acc
                                   | None => acc
                                   end) 0 items.

(** Records whose turn statistics can be computed: each has a turn count,
    and the mean is below the largest double. *)
Definition stats_ok (items : list value) : bool :=
  List.forallb (fun item => match turn_count item with
                            | Some _ => true
                            | None => false
                            end) items
  && (turns_total items <? (2 ^ 1024 - 2 ^ 970) * Z.of_nat (List.length items)).

(** A record whose [language] can be counted: a dict whose language, when
    there is one and it is truthy, is hashable. *)
Definition language_ok (item : value) : bool :=
  match item with
  | VDict t =>
      match lookup (lit "language") t with
      | Some v => negb (truthy v) || hashable v
      | None => true
      end
  | _ => false
  end.

(** The documents [summarize] accepts: the empty ones, and the lists whose
    first record is a dict, with statistics, language table and example
    computable where the first record asks for them. *)
Definition dataset_ok (data : value) : bool :=
  match data with
  | VList [] | VDict [] | VStr [] => true
  | VList (VDict first :: rest) =>
      (if has_key (lit "conversation") first
       then stats_ok (VDict first :: rest) else true)
      && (if has_key (lit "language") first
          then List.forallb language_ok (VDict first :: rest) else true)
      && preview_ok first
  | _ => false
  end.

Definition is_dict (v : value) : bool :=
  match v with
  | VDict _ => true
  | _ => false
  end.

(** [item.get('language')] on a dict (null for anything else). *)
Definition language_value (item : value) : value :=
  match item with
  | VDict t => match lookup (lit "language") t with
               | Some v => v
               | None => VNone
               end
  | _ => VNone
  end.

(** The turn count of a record, 0 when it has none. *)
Definition turn_count_or_zero (item : value) : Z :=
  match turn_count item with
  | Some n => n
  | None => 0
  end.


(** *** Printing to a terminal

    [print] encodes its text for [sys.stdout] and raises
    [UnicodeEncodeError] when the encoding has no code for one of the
    characters (under UTF-8, a lone surrogate, which [json.load] does
    return for an escape like [\ud800]).  [inspect_dataset] has no
    handler of its own, so on such a stream a run of [preview] or
    [summarize] is the run above cut at the first text that cannot be
    encoded. *)
Inductive outcome (A : Type) :=
| Returns (a : A)
| Raises (e : exn)
| EncodeFails (text : pystr).
Arguments Returns {A} a.
Arguments Raises {A} e.
Arguments EncodeFails {A} text.

(** The texts printed before the first one that cannot be encoded, and
    that one if there is one. *)
Fixpoint shown (encodable : pystr -> bool) (texts : list pystr)
  : list pystr * option pystr :=
  match texts with
  | [] => ([], None)
  | t :: more =>
      if encodable t
      then let (before, bad) := shown encodable more in (t :: before, bad)
      else ([], Some t)
  end.

Definition on_stdout {A : Type} (encodable : pystr -> bool) (m : M A)
  : list pystr * outcome A :=
  match shown encodable (fst m) with
  | (before, Some bad) => (before, EncodeFails bad)
  | (before, None) =>
      (before, match snd m with
               | inl e => Raises e
               | inr a => Returns a
               end)
  end.

(** UTF-8: every code point but the surrogates. *)
Definition utf8_encodable (s : pystr) : bool :=
  List.forallb (fun c => (c <? 55296)%N || (57343 <? c)%N) s.

(** *** An interpreter to run examples with

    Exact on the data the examples use: printable ASCII strings without
    quotes or backslashes, and no finite non-zero floats.  Messages are
    worded as CPython 3.11 words them. *)

Definition type_name (v : value) : pystr :=
  match v with
  | VNone => lit "NoneType"
  | VBool _ => lit "bool"
  | VInt _ => lit "int"
  | VFloat _ => lit "float"
  | VStr _ => lit "str"
  | VList _ => lit "list"
  | VDict _ => lit "dict"
  end.

Definition quote (s : pystr) : pystr := lit "'" ++ s ++ lit "'".

Definition sample_float_repr (f : spec_float) : pystr :=
  match f with
  | S754_zero s => if s then lit "-0.0" else lit "0.0"
  | S754_infinity s => if s then lit "-inf" else lit "inf"
  | S754_nan => lit "nan"
  | S754_finite _ _ _ => lit "<float>"
  end.

Definition sample_json_float (f : spec_float) : pystr :=
  match f with
  | S754_infinity s => if s then lit "-Infinity" else lit "Infinity"
  | S754_nan => lit "NaN"
  | _ => sample_float_repr f
  end.

Definition dquote (s : pystr) : pystr := [34%N] ++ s ++ [34%N].

Fixpoint sample_dumps (level : nat) (v : value) : pystr :=
  let pad := repeat_str (lit "  ") (S level) in
  let close := nl ++ repeat_str (lit "  ") level in
  match v with
  | VNone => lit "null"
  | VBool true => lit "true"
  | VBool false => lit "false"
  | VInt z => str_int z
  | VFloat f => sample_json_float f
  | VStr s => dquote s
  | VList [] => lit "[]"
  | VList l =>
      lit "[" ++ nl
        ++ join (lit "," ++ nl)
             (List.map (fun x => pad ++ sample_dumps (S level) x) l)
        ++ close ++ lit "]"
  | VDict [] => lit "{}"
  | VDict d =>
      lit "{" ++ nl
        ++ join (lit "," ++ nl)
             (List.map (fun kv => match kv with
                                  | (k, x) =>
                                      pad ++ dquote k ++ lit ": "
                                        ++ sample_dumps (S level) x
                                  end) d)
        ++ close ++ lit "}"
  end.

Definition sample_exn_str (e : exn) : pystr :=
  match e with
  | LoadFailure msg => msg
  | NoLen v => lit "object of type " ++ quote (type_name v) ++ lit " has no len()"
  | NoAttribute v attr =>
      quote (type_name v) ++ lit " object has no attribute " ++ quote (lit attr)
  | NotSubscriptable v => quote (type_name v) ++ lit " object is not subscriptable"
  | NotSliceable (VDict _) => lit "unhashable type: 'slice'"
  | NotSliceable v => quote (type_name v) ++ lit " object is not subscriptable"
  | IndexError => lit "list index out of range"
  | KeyError (VStr s) => quote s
  | KeyError (VInt z) => str_int z
  | KeyError _ => lit "<key>"
  | NotIterable v => quote (type_name v) ++ lit " object is not iterable"
  | Unhashable v => lit "unhashable type: " ++ quote (type_name v)
  | EmptySequence => lit "min() arg is an empty sequence"
  | ZeroDivision => lit "division by zero"
  | Overflow => lit "integer division result too large for a float"
  end.

Definition sample_interp : Interp := {|
  float_repr := sample_float_repr;
  str_repr := quote;
  json_dumps := sample_dumps 0;
  exn_str := sample_exn_str
|}.

(** *** Sample datasets *)

Definition sample_turn : value :=
  VDict [(lit "role", VStr (lit "user")); (lit "content", VStr (lit "hi"))].

(** A record whose [conversation] has [n] turns. *)
Definition chat_record (n : nat) : value :=
  VDict [(lit "conversation", VList (List.repeat sample_turn n))].

(** Three records with 2, 5 and 3 turns. *)
Definition three_chats : value :=
  VList [chat_record 2; chat_record 5; chat_record 3].

(** A turn whose [role] is null, with both fallback keys present. *)
Definition null_role_turn : list (pystr * value) :=
  [(lit "role", VNone);
   (lit "speaker_role", VStr (lit "assistant"));
   (lit "content", VStr (lit "hello"));
   (lit "utterance", VStr (lit "other"))].

(** A first record with four turns and the other known fields as well. *)
Definition four_turn_record : list (pystr * value) :=
  [(lit "messages", VList [sample_turn]);
   (lit "conversation",
    VList [sample_turn; VDict null_role_turn; VDict []; sample_turn]);
   (lit "chosen", VStr (lit "text"))].

(** Five records: English twice, Spanish once, a null and a missing
    language. *)
Definition language_first : list (pystr * value) :=
  [(lit "language", VStr (lit "English"))].

Definition language_rest : list value :=
  [VDict [(lit "language", VStr (lit "Spanish"))];
   VDict [(lit "language", VStr (lit "English"))];
   VDict [(lit "language", VNone)];
   VDict []].

(** The dataset of the specification: 100 records, 60 English, 30 Spanish
    and 10 French. *)
Definition language_record (name : string) : value :=
  VDict [(lit "language", VStr (lit name))].

Definition hundred_records : value :=
  VList (List.repeat (language_record "English") 60
           ++ List.repeat (language_record "Spanish") 30
           ++ List.repeat (language_record "French") 10).

(** A batch of three files; the second one is not valid JSON. *)
Definition broken_file : pystr * res value :=
  (lit "b.json",
   inl (LoadFailure (lit "Expecting value: line 1 column 1 (char 0)"))).

Definition sample_batch_before : list (pystr * res value) :=
  [(lit "a.json", inr (VList []))].

Definition sample_batch_after : list (pystr * res value) :=
  [(lit "c.json", inr (VList [VDict [(lit "chosen", VStr (lit "ok"))]]))].

(** Three chat records, the second with a null [conversation]. *)
Definition null_conversation_record : value :=
  VDict [(lit "conversation", VNone)].

(** A record whose language is a list. *)
Definition list_language_record : value :=
  VDict [(lit "language", VList [VStr (lit "en"); VStr (lit "fr")])].

(** A first record with an identifier only. *)
Definition id_record : list (pystr * value) := [(lit "id", VInt 7)].

End Inspector.

(** ** The download scripts ([download_final_datasets.py],
       [download_datasets.py]) *)

Module Downloader.
Import Normalizer.

(** A dataset row, as [dict(item)] sees it: its entries in order. *)
Definition row := list (pyobj * pyobj).

(** What can go wrong in the script: an exception raised by the dataset
    hub, by the stream, by [open] or by [json.dump], known by its message,
    and the [OverflowError] of [int / int]. *)
Inductive failure :=
| Raised (msg : pystr)
| Overflowed.

(** [str(e)]. *)
Definition failure_str (e : failure) : pystr :=
  match e with
  | Raised msg => msg
  | Overflowed => lit "integer division result too large for a float"
  end.

(** A streamed dataset: the rows it yields, then the end of the stream
    ([None]) or an exception. *)
Record stream := { rows : list row; ending : option failure }.

(** What the script does that can be seen from outside: a [print] call,
    and the writing of [data] into the file [name] of the output directory
    ([open] for writing, then [json.dump]); the event records the attempt,
    [write_outcome] says whether it raised.  Rows are taken to be shallower
    than the interpreter's recursion limit, as [serialize_item] is. *)
Inductive event :=
| Print (s : pystr)
| Dump (name : pystr) (data : list pyobj).

(** What the script gets from outside. *)
Record env := {
  wildchat : failure + stream;          (* load_dataset(..., streaming=True) *)
  oasst : failure + list row;           (* load_dataset("OpenAssistant/oasst1") *)
  hhrlhf : failure + list row;          (* load_dataset("Anthropic/hh-rlhf") *)
  write_outcome : pystr -> list pyobj -> option failure;  (* open + json.dump *)
  path_text : pystr -> pystr;           (* str(output_dir / name) *)
  keys_text : list pyobj -> pystr;      (* str(list(d.keys())) *)
  absolute_text : failure + pystr;      (* str(output_dir.absolute()) *)
  listing : failure + list (pystr * (failure + Z))
    (* sorted(output_dir.glob("*.json")): the files in sorted order, each
       with what file.stat().st_size gives *)
}.

(** *** Traces: events so far, then a result or an exception *)

Definition T (A : Type) : Type := (list event * (failure + A))%type.

Definition t_ret {A : Type} (a : A) : T A := ([], inr a).

Definition t_bind {A B : Type} (m : T A) (f : A -> T B) : T B :=
  match m with
  | (tr, inl e) => (tr, inl e)
  | (tr, inr a) => let (tr', r) := f a in (tr ++ tr', r)
  end.

Definition t_print (s : pystr) : T unit := ([Print s], inr tt).

Definition t_eval {A : Type} (r : failure + A) : T A := ([], r).

(** [try: body / except Exception as e: handler(e)]. *)
Definition t_try {A : Type} (body : T A) (handler : failure -> T A) : T A :=
  match body with
  | (tr, inl e) => let (tr', r) := handler e in (tr ++ tr', r)
  | (tr, inr a) => (tr, inr a)
  end.

Declare Scope trace_scope.
Delimit Scope trace_scope with trace.
Notation "x <- c ;; k" := (t_bind c (fun x => k))
  (at level 61, c at next level, right associativity) : trace_scope.
Notation "c ;; k" := (t_bind c (fun _ => k))
  (at level 61, right associativity) : trace_scope.

Definition rule : pystr := repeat_str (lit "=") 80.
Definition nl : pystr := [10%N].
Definition check_mark : pystr := [10003%N].
Definition cross_mark : pystr := [10007%N].

(** *** The sampling loop (lines 34-38)

    [for i, item in enumerate(stream): if i >= 10000: break;
     sample.append(serialize_item(dict(item)))].  The result comes with the
    number of rows the stream was made to yield. *)
Fixpoint take_rows (i : Z) (rest : list row) (ending : option failure)
         (sample : list pyobj) : Z * (failure + list pyobj) :=
  match rest with
  | [] =>
      (i, match ending with
          | Some e => inl e
          | None => inr sample
          end)
  | item :: more =>
      if 10000 <=? i then (i + 1, inr sample)
      else take_rows (i + 1) more ending (sample ++ [serialize_item (ODict item)])
  end.

Definition sample_stream (s : stream) : failure + list pyobj :=
  snd (take_rows 0 (rows s) (ending s) []).

(** [dataset.select(range(min(10000, len(dataset))))]. *)
Definition select_sample (dataset : list row) : list row :=
  List.firstn (Z.to_nat (Z.min 10000 (Z.of_nat (List.length dataset)))) dataset.

(** *** Formats *)

(** [format(f, '.<d>f')]: the exact value of the double, rounded to [d]
    decimals, ties to even. *)
Definition fmt_fixed (d : nat) (f : spec_float) : pystr :=
  match f with
  | S754_nan => lit "nan"
  | S754_infinity s => if s then lit "-inf" else lit "inf"
  | S754_zero s =>
      (if s then lit "-" else []) ++ lit "0"
        ++ match d with
           | O => []
           | _ => lit "." ++ List.repeat 48%N d
           end
  | S754_finite s m e =>
      let scaled := Inspector.round_half_even (10 ^ Z.of_nat d * Zpos m) e in
      (if s then lit "-" else [])
        ++ digits (Z.to_N (scaled / 10 ^ Z.of_nat d))
        ++ match d with
           | O => []
           | _ => lit "." ++ zero_pad d (Z.to_N (scaled mod 10 ^ Z.of_nat d))
           end
  end.

(** [format(s, '<w')] and [format(s, '>w')]. *)
Definition pad_right (w : nat) (s : pystr) : pystr :=
  s ++ List.repeat 32%N (w - List.length s).

Definition pad_left (w : nat) (s : pystr) : pystr :=
  List.repeat 32%N (w - List.length s) ++ s.

(** [st_size / (1024 * 1024)]. *)
Definition size_mb (st_size : Z) : failure + spec_float :=
  match Inspector.py_truediv st_size (1024 * 1024) with
  | inr f => inr f
  | inl _ => inl Overflowed
  end.

(** The [json.dump] calls of a trace, in order. *)
Fixpoint dumps (tr : list event) : list (pystr * list pyobj) :=
  match tr with
  | [] => []
  | Dump name data :: more => (name, data) :: dumps more
  | Print _ :: more => dumps more
  end.

(** The texts printed by a trace, in order. *)
Fixpoint prints (tr : list event) : list pystr :=
  match tr with
  | [] => []
  | Print s :: more => s :: prints more
  | Dump _ _ :: more => prints more
  end.

Local Open Scope trace_scope.

Section WithEnv.
Variable E : env.

(** [with open(path, 'w') as f: json.dump(data, f, ...)]. *)
Definition dump (name : pystr) (data : list pyobj) : T unit :=
  ([Dump name data],
   match write_outcome E name data with
   | Some e => inl e
   | None => inr tt
   end).

Definition report_error (e : failure) : T unit :=
  t_print (cross_mark ++ lit " Error: " ++ failure_str e).

(** Lines 30-52. *)
Definition wildchat_section : T unit :=
  t_print (nl ++ lit "[1/3] Downloading WildChat (fixed)...") ;;
  t_try
    (wildchat_dataset <- t_eval (wildchat E) ;;
     wildchat_sample <- t_eval (sample_stream wildchat_dataset) ;;
     dump (lit "wildchat_10k_sample.json") wildchat_sample ;;
     t_print (check_mark ++ lit " WildChat downloaded!") ;;
     t_print (lit "  Sample size: "
                ++ fmt_comma (Z.of_nat (List.length wildchat_sample))
                ++ lit " conversations") ;;
     t_print (lit "  Saved to: " ++ path_text E (lit "wildchat_10k_sample.json")) ;;
     (* [if wildchat_sample:]; its elements are dicts *)
     match wildchat_sample with
     | ODict entries :: _ =>
         t_print (lit "  Example fields: " ++ keys_text E (List.map fst entries))
     | _ => t_ret tt
     end)
    report_error.

(** Lines 55-68. *)
Definition oasst_section : T unit :=
  t_print (nl ++ lit "[2/3] Downloading OpenAssistant Conversations...") ;;
  t_try
    (oasst_dataset <- t_eval (oasst E) ;;
     dump (lit "openassistant_conversations.json")
       (List.map (fun item => serialize_item (ODict item)) oasst_dataset) ;;
     t_print (check_mark ++ lit " OpenAssistant downloaded!") ;;
     t_print (lit "  Total conversations: "
                ++ fmt_comma (Z.of_nat (List.length oasst_dataset))) ;;
     t_print (lit "  Saved to: "
                ++ path_text E (lit "openassistant_conversations.json")))
    report_error.

(** Lines 71-87. *)
Definition hhrlhf_section : T unit :=
  t_print (nl ++ lit "[3/3] Downloading Anthropic HH-RLHF...") ;;
  t_try
    (hhrlhf_dataset <- t_eval (hhrlhf E) ;;
     dump (lit "anthropic_hh_rlhf_10k_sample.json")
       (List.map (fun item => serialize_item (ODict item))
          (select_sample hhrlhf_dataset)) ;;
     t_print (check_mark ++ lit " Anthropic HH-RLHF downloaded!") ;;
     t_print (lit "  Total conversations: "
                ++ fmt_comma (Z.of_nat (List.length hhrlhf_dataset))) ;;
     t_print (lit "  Sample saved to: "
                ++ path_text E (lit "anthropic_hh_rlhf_10k_sample.json")))
    report_error.

(** Lines 94-98: the loop over the files, with the running total. *)
Fixpoint list_files (files : list (pystr * (failure + Z)))
         (total_size_mb : spec_float) : T spec_float :=
  match files with
  | [] => t_ret total_size_mb
  | (name, stat) :: more =>
      st_size <- t_eval stat ;;
      mb <- t_eval (size_mb st_size) ;;
      t_print (lit "  - " ++ pad_right 50 name ++ lit " "
                 ++ pad_left 8 (fmt_fixed 2 mb) ++ lit " MB") ;;
      list_files more (SFadd 53 1024 total_size_mb mb)
  end.

(** Lines 89-101. *)
Definition final_summary : T unit :=
  t_print (nl ++ rule) ;;
  t_print (lit "Final Summary - All Downloaded Datasets") ;;
  t_print rule ;;
  location <- t_eval (absolute_text E) ;;
  t_print (lit "Location: " ++ location) ;;
  t_print (nl ++ lit "Files:") ;;
  files <- t_eval (listing E) ;;
  total_size_mb <- list_files files (S754_zero false) ;;
  t_print (nl ++ lit "Total size: " ++ fmt_fixed 2 total_size_mb ++ lit " MB") ;;
  t_print (nl ++ check_mark ++ lit " All downloads complete!").

(** Lines 25-101 of [download_final_datasets.py]. *)
Definition download_final : T unit :=
  t_print rule ;;
  t_print (lit "Downloading More AI Conversation Datasets") ;;
  t_print rule ;;
  wildchat_section ;;
  oasst_section ;;
  hhrlhf_section ;;
  final_summary.

End WithEnv.

(** *** The example of [download_datasets.py] (lines 75-80) *)

Section Example.
(** [str(value)] for a value that is not a string. *)
Variable text_of : pyobj -> pystr.

Definition obj_str (v : pyobj) : pystr :=
  match v with
  | OStr s => s
  | _ => text_of v
  end.

(** One line per field of the first row. *)
Definition example_line (key value : pyobj) : pystr :=
  match value with
  | OList items =>
      lit "    " ++ obj_str key ++ lit ": list with "
        ++ str_int (Z.of_nat (List.length items)) ++ lit " items"
  | ODict entries =>
      lit "    " ++ obj_str key ++ lit ": dict with "
        ++ str_int (Z.of_nat (List.length entries)) ++ lit " items"
  | _ =>
      let preview := List.firstn 100 (obj_str value) in
      lit "    " ++ obj_str key ++ lit ": " ++ preview
        ++ (if (100 <? List.length (obj_str value))%nat then lit "..." else [])
  end.

Definition example_lines (example : row) : list pystr :=
  List.map (fun kv => example_line (fst kv) (snd kv)) example.

End Example.

(** *** Vocabulary of the statements *)

(** [serialize_item(dict(item))]. *)
Definition normalized (item : row) : pyobj := serialize_item (ODict item).

(** The least size in bytes whose quotient by [1024 * 1024] is too large
    for a float. *)
Definition size_limit : Z := (2 ^ 1024 - 2 ^ 970) * (1024 * 1024).

Definition rows_ok (dataset : list row) : bool :=
  List.forallb (fun item => record_value (ODict item)) dataset.

Section Outcomes.
Variable E : env.

(** What each section hands to [json.dump], when it gets that far. *)
Definition wildchat_data : failure + list pyobj :=
  match wildchat E with
  | inl e => inl e
  | inr s => sample_stream s
  end.

Definition oasst_data : failure + list pyobj :=
  match oasst E with
  | inl e => inl e
  | inr dataset => inr (List.map normalized dataset)
  end.

Definition hhrlhf_data : failure + list pyobj :=
  match hhrlhf E with
  | inl e => inl e
  | inr dataset =>
      inr (List.map normalized (List.firstn (Z.to_nat 10000) dataset))
  end.

Definition written (name : pystr) (data : failure + list pyobj)
  : list (pystr * list pyobj) :=
  match data with
  | inl _ => []
  | inr d => [(name, d)]
  end.

(** The first exception of a section, if there is one. *)
Definition outcome (name : pystr) (data : failure + list pyobj)
  : option failure :=
  match data with
  | inl e => Some e
  | inr d => write_outcome E name d
  end.

(** What a section prints: its heading, then the error line of its first
    exception or else its success lines. *)
Definition section_report (heading : pystr) (o : option failure)
           (success : list pystr) : list pystr :=
  heading :: match o with
             | Some e => [cross_mark ++ lit " Error: " ++ failure_str e]
             | None => success
             end.

Definition wildchat_success (data : failure + list pyobj) : list pystr :=
  match data with
  | inl _ => []
  | inr sample =>
      [check_mark ++ lit " WildChat downloaded!";
       lit "  Sample size: " ++ fmt_comma (Z.of_nat (List.length sample))
         ++ lit " conversations";
       lit "  Saved to: " ++ path_text E (lit "wildchat_10k_sample.json")]
        ++ match sample with
           | ODict entries :: _ =>
               [lit "  Example fields: " ++ keys_text E (List.map fst entries)]
           | _ => []
           end
  end.

Definition oasst_success : list pystr :=
  match oasst E with
  | inl _ => []
  | inr dataset =>
      [check_mark ++ lit " OpenAssistant downloaded!";
       lit "  Total conversations: "
         ++ fmt_comma (Z.of_nat (List.length dataset));
       lit "  Saved to: " ++ path_text E (lit "openassistant_conversations.json")]
  end.

Definition hhrlhf_success : list pystr :=
  match hhrlhf E with
  | inl _ => []
  | inr dataset =>
      [check_mark ++ lit " Anthropic HH-RLHF downloaded!";
       lit "  Total conversations: "
         ++ fmt_comma (Z.of_nat (List.length dataset));
       lit "  Sample saved to: "
         ++ path_text E (lit "anthropic_hh_rlhf_10k_sample.json")]
  end.

(** The exception that ends the final summary, if there is one: that of
    [absolute()], else that of the listing of the directory, else that of
    the first file, in sorted order, whose [stat()] fails or whose size
    does not divide into a float. *)
Fixpoint first_failure (files : list (pystr * (failure + Z))) : option failure :=
  match files with
  | [] => None
  | (_, inl e) :: _ => Some e
  | (_, inr st_size) :: more =>
      match size_mb st_size with
      | inl e => Some e
      | inr _ => first_failure more
      end
  end.

Definition summary_failure : option failure :=
  match absolute_text E with
  | inl e => Some e
  | inr _ =>
      match listing E with
      | inl e => Some e
      | inr files => first_failure files
      end
  end.

End Outcomes.

(** The number of [lines] whose first character is [c]. *)
Definition count_starting (c : char) (lines : list pystr) : nat :=
  List.length (List.filter (fun s => match s with
                                     | x :: _ => N.eqb x c
                                     | [] => false
                                     end) lines).

(** A section that does not raise and prints its heading, then either the
    one error line of the exception [o] or the lines [success]: one line
    starts with the cross mark and none with the check mark, or the other
    way round. *)
Definition reports_outcome (section : T unit) (heading : pystr)
           (o : option failure) (success : list pystr) : Prop :=
  snd section = inr tt
  /\ prints (fst section) = section_report heading o success
  /\ count_starting 10007%N (prints (fst section))
     = match o with Some _ => 1%nat | None => 0%nat end
  /\ count_starting 10003%N (prints (fst section))
     = match o with Some _ => 0%nat | None => 1%nat end.

(** *** Sample run *)

Definition sample_keys_text (keys : list pyobj) : pystr :=
  lit "[" ++ join (lit ", ")
               (List.map (fun k => match k with
                                   | OStr s => lit "'" ++ s ++ lit "'"
                                   | _ => lit "?"
                                   end) keys)
    ++ lit "]".

Definition sample_entries : row :=
  match sample_row with
  | ODict entries => entries
  | _ => []
  end.

Definition sample_env : env :=
  {| wildchat := inr {| rows := [sample_entries; sample_entries];
                        ending := Some (Raised (lit "connection reset")) |};
     oasst := inl (Raised (lit "dataset not found"));
     hhrlhf := inr [[(OStr (lit "chosen"), OStr (lit "Human: hi"));
                     (OStr (lit "rejected"), OStr (lit "Human: ho"))]];
     write_outcome := fun _ _ => None;
     path_text := fun name => lit "datasets/" ++ name;
     keys_text := sample_keys_text;
     absolute_text := inr (lit "/data/datasets");
     listing := inr
                [(lit "anthropic_hh_rlhf_10k_sample.json", inr 1572864);
                 (lit "stale_link.json",
                  inl (Raised (lit "[Errno 2] No such file or directory: 'datasets/stale_link.json'")))]
  |}.

Definition sample_text_of (v : pyobj) : pystr :=
  match v with
  | OInt z => str_int z
  | ONone => lit "None"
  | OBool true => lit "True"
  | OBool false => lit "False"
  | _ => lit "<object>"
  end.

End Downloader.

(** * Properties of the normalizer *)

Module NormalizerFacts.
Import Normalizer.

(** Induction over nested objects: the list and dict cases come with the
    property for every element and every entry value; a tuple is a case of
    its own, [serialize_item] does not enter it. *)
Section pyobj_nested_ind.
Variable P : pyobj -> Prop.
Hypothesis P_none : P ONone.
Hypothesis P_bool : forall b, P (OBool b).
Hypothesis P_int : forall z, P (OInt z).
Hypothesis P_float : forall f, P (OFloat f).
Hypothesis P_str : forall s, P (OStr s).
Hypothesis P_datetime : forall d, P (ODatetime d).
Hypothesis P_other : forall t, P (OOther t).
Hypothesis P_tuple : forall items, P (OTuple items).
Hypothesis P_list : forall items, Forall P items -> P (OList items).
Hypothesis P_dict :
  forall entries, Forall (fun kv => P (snd kv)) entries -> P (ODict entries).

Fixpoint pyobj_nested_ind (obj : pyobj) : P obj :=
  match obj with
  | ONone => P_none
  | OBool b => P_bool b
  | OInt z => P_int z
  | OFloat f => P_float f
  | OStr s => P_str s
  | ODatetime d => P_datetime d
  | OOther t => P_other t
  | OTuple items => P_tuple items
  | OList items =>
      P_list items
        ((fix go (l : list pyobj) : Forall P l :=
            match l with
            | [] => Forall_nil P
            | x :: r => Forall_cons x (pyobj_nested_ind x) (go r)
            end) items)
  | ODict entries =>
      P_dict entries
        ((fix go (l : list (pyobj * pyobj)) : Forall (fun kv => P (snd kv)) l :=
            match l with
            | [] => Forall_nil _
            | (k, v) :: r =>
                Forall_cons (P := fun kv => P (snd kv)) (k, v)
                  (pyobj_nested_ind v) (go r)
            end) entries)
  end.
End pyobj_nested_ind.

(** The timestamp of the specification's example. *)
Example isoformat_example :
  serialize_item
    (ODatetime {| year := 2024; month := 1; day := 15; hour := 10;
                  minute := 30; second := 0; microsecond := 0;
                  utcoffset := None |})
  = OStr (lit "2024-01-15T10:30:00").
Proof. reflexivity. Qed.

Example isoformat_offset_example :
  isoformat {| year := 987; month := 12; day := 3; hour := 23;
               minute := 59; second := 7; microsecond := 1500;
               utcoffset := Some (-19800000000) |}
  = lit "0987-12-03T23:59:07.001500-05:30".
Proof. reflexivity. Qed.

(** Already-native input comes back unchanged:
    [{"a": [1, {"b": "x"}]}]. *)
Example structure_preserved :
  let x := ODict [(OStr (lit "a"),
                   OList [OInt 1; ODict [(OStr (lit "b"), OStr (lit "x"))]])] in
  serialize_item x = x.
Proof. reflexivity. Qed.

(** A value of JSON types only comes back as it is. *)
Lemma serialize_item_native_fixed :
  forall obj : pyobj, json_native obj = true -> serialize_item obj = obj.
Proof.
  induction obj as [| | | | | | | elems | items IH | entries IH]
    using pyobj_nested_ind; simpl; intro H; try reflexivity; try discriminate.
  - f_equal. rewrite List.forallb_forall in H. rewrite Forall_forall in IH.
    rewrite <- (List.map_id items) at 2. apply List.map_ext_in.
    intros x Hx. apply IH; auto.
  - f_equal. rewrite List.forallb_forall in H. rewrite Forall_forall in IH.
    rewrite <- (List.map_id entries) at 2. apply List.map_ext_in.
    intros [k v] Hx. specialize (H _ Hx). simpl in H.
    apply andb_true_iff in H as [_ Hv].
    pose proof (IH (k, v) Hx) as Hkv. simpl in Hkv. now rewrite (Hkv Hv).
Qed.



Lemma map_entries_fixed (f : pyobj -> pyobj) (entries : list (pyobj * pyobj)) :
  Forall (fun kv => f (f (snd kv)) = f (snd kv)) entries ->
  List.map (fun kv => match kv with (k, v) => (k, f v) end)
    (List.map (fun kv => match kv with (k, v) => (k, f v) end) entries)
  = List.map (fun kv => match kv with (k, v) => (k, f v) end) entries.
Proof.
  induction 1 as [| [k v] r Hv _ IH]; simpl.
  - reflexivity.
  - simpl in Hv. now rewrite Hv, IH.
Qed.

(** C5. Normalizing twice gives what normalizing once gives, for every
    object: nested dicts and lists, JSON scalars, timestamps, and objects
    of unrecognised types as well. *)
Theorem serialize_item_idempotent :
  forall obj : pyobj,
    serialize_item (serialize_item obj) = serialize_item obj.
Proof.
  induction obj as [| | | | | | | elems | items IH | entries IH]
    using pyobj_nested_ind; try reflexivity.
  - simpl. f_equal. rewrite List.map_map.
    induction IH as [| x r Hx _ IHr]; simpl; [reflexivity |].
    now rewrite Hx, IHr.
  - simpl. f_equal. now apply map_entries_fixed.
Qed.






(** The bound is reached: on CPython 3.11 ten lists around a timestamp need
    22 free levels, 21 are not enough. *)
Example serialize_item_frames_exhausted :
  serialize_item_frames cpython_311 21 (nested 10 (ODatetime sample_timestamp))
  = None
  /\ serialize_item_frames cpython_311 22 (nested 10 (ODatetime sample_timestamp))
     = Some (nested 10 (OStr (lit "2024-01-15T10:30:00"))).
Proof. split; reflexivity. Qed.

Lemma serialize_item_json_native :
  forall obj : pyobj,
    record_value obj = true -> json_native (serialize_item obj) = true.
Proof.
  induction obj as [| | | | | | | elems | items IH | entries IH]
    using pyobj_nested_ind; simpl; intro H; try reflexivity; try discriminate.
  - exact H.
  - rewrite List.forallb_forall in H. apply List.forallb_forall.
    intros y Hy. apply List.in_map_iff in Hy as [x [<- Hx]].
    rewrite Forall_forall in IH. apply IH; auto.
  - rewrite List.forallb_forall in H. apply List.forallb_forall.
    intros y Hy. apply List.in_map_iff in Hy as [[k v] [<- Hx]].
    rewrite Forall_forall in IH. specialize (IH _ Hx). specialize (H _ Hx).
    simpl in IH, H. apply andb_true_iff in H as [Hk Hv].
    now rewrite Hk, IH.
Qed.




End NormalizerFacts.

(** * Binary64 division stays finite on the script's quotients *)

Module FloatFacts.

Lemma fexp_64 (e : Z) : fexp 53 1024 e = Z.max (e - 53) (- 1074).
Proof. reflexivity. Qed.

Lemma digits2_size (p : positive) : digits2_pos p = Pos.size p.
Proof. induction p; simpl; now rewrite ?IHp. Qed.

Lemma Zdigits2_nonneg (m : Z) : 0 <= Zdigits2 m.
Proof. destruct m; simpl; lia. Qed.

(** A number below [2^k] has at most [k] binary digits. *)
Lemma Zdigits2_le (m k : Z) : 0 <= k -> 0 <= m < 2 ^ k -> Zdigits2 m <= k.
Proof.
  intros Hk [Hm Hlt]. destruct m as [| p | p]; simpl; [lia | | lia].
  rewrite digits2_size.
  destruct (Z_le_gt_dec (Zpos (Pos.size p)) k) as [| Hgt]; [assumption | exfalso].
  pose proof (Pos.size_le p) as Hle.
  apply Pos2Z.pos_le_pos in Hle. rewrite Pos2Z.inj_pow in Hle.
  assert (H2 : 2 ^ (k + 1) <= 2 ^ Zpos (Pos.size p))
    by (apply Z.pow_le_mono_r; lia).
  rewrite Z.pow_add_r in H2 by lia.
  change (Zpos p~0) with (2 * Zpos p) in Hle. lia.
Qed.

Lemma shr_1_halves (mrs : shr_record) :
  0 <= shr_m mrs ->
  0 <= shr_m (shr_1 mrs) /\ 2 * shr_m (shr_1 mrs) <= shr_m mrs.
Proof.
  destruct mrs as [m r s]. simpl. intro Hm.
  destruct m as [| [p | p |] | p]; simpl; lia.
Qed.

Lemma pow2_double (p : positive) :
  2 ^ Zpos p~0 = 2 ^ Zpos p * 2 ^ Zpos p.
Proof.
  assert (H : Zpos p~0 = Zpos p + Zpos p) by lia.
  rewrite H. apply Z.pow_add_r; lia.
Qed.

Lemma pow2_double_succ (p : positive) :
  2 ^ Zpos p~1 = 2 * (2 ^ Zpos p * 2 ^ Zpos p).
Proof.
  assert (H : Zpos p~1 = 1 + (Zpos p + Zpos p)) by lia.
  rewrite H, Z.pow_add_r, Z.pow_add_r by lia. reflexivity.
Qed.

(** Shifting right [p] times divides by [2^p], rounding down. *)
Lemma iter_shr_1 (p : positive) (mrs : shr_record) :
  0 <= shr_m mrs ->
  0 <= shr_m (iter_pos shr_1 p mrs)
  /\ shr_m (iter_pos shr_1 p mrs) * 2 ^ Zpos p <= shr_m mrs.
Proof.
  revert mrs. induction p as [p IH | p IH |]; intros mrs Hm; simpl iter_pos.
  - destruct (shr_1_halves mrs Hm) as [H0 H1].
    destruct (IH _ H0) as [H2 H3]. destruct (IH _ H2) as [H4 H5].
    split; [assumption |]. rewrite pow2_double_succ.
    assert (Hp : 0 < 2 ^ Zpos p) by (apply Z.pow_pos_nonneg; lia).
    nia.
  - destruct (IH _ Hm) as [H2 H3]. destruct (IH _ H2) as [H4 H5].
    split; [assumption |]. rewrite pow2_double.
    assert (Hp : 0 < 2 ^ Zpos p) by (apply Z.pow_pos_nonneg; lia).
    nia.
  - destruct (shr_1_halves mrs Hm). simpl. lia.
Qed.

Lemma shr_record_of_loc_m (m : Z) (l : location) :
  shr_m (shr_record_of_loc m l) = m.
Proof. destruct l as [| []]; reflexivity. Qed.

(** Aligning a mantissa below [2^(K - e)] on the binary64 exponent keeps
    it below [2^(K - e')] at the new exponent [e']. *)
Lemma shr_fexp_bound (K m e : Z) (l : location) :
  - 1021 <= K -> e <= K - 53 -> 0 <= m < 2 ^ (K - e) ->
  0 <= shr_m (fst (shr_fexp 53 1024 m e l))
       < 2 ^ (K - snd (shr_fexp 53 1024 m e l))
  /\ snd (shr_fexp 53 1024 m e l) <= K - 53.
Proof.
  intros HK He Hm. unfold shr_fexp, shr.
  pose proof (Zdigits2_le m (K - e) ltac:(lia) Hm) as Hd.
  pose proof (Zdigits2_nonneg m) as Hd0.
  rewrite fexp_64.
  destruct (Z.max (Zdigits2 m + e - 53) (- 1074) - e) as [| p | p] eqn:Hn;
    simpl fst; simpl snd; rewrite ?shr_record_of_loc_m; try (split; [exact Hm | exact He]).
  destruct (iter_shr_1 p (shr_record_of_loc m l)) as [H0 H1].
  { rewrite shr_record_of_loc_m. lia. }
  rewrite shr_record_of_loc_m in H1.
  assert (He' : e + Zpos p <= K - 53) by lia.
  split; [| exact He'].
  split; [exact H0 |].
  assert (Hsplit : 2 ^ (K - e) = 2 ^ (K - (e + Zpos p)) * 2 ^ Zpos p).
  { rewrite <- Z.pow_add_r by lia. f_equal. lia. }
  assert (Hp : 0 < 2 ^ Zpos p) by (apply Z.pow_pos_nonneg; lia).
  rewrite Hsplit in Hm. nia.
Qed.

Lemma round_nearest_even_bounds (m : Z) (l : location) :
  m <= round_nearest_even m l <= m + 1.
Proof.
  unfold round_nearest_even. destruct l as [| []]; try lia.
  destruct (Z.even m); lia.
Qed.

(** Rounding a value below [2^1000] gives a zero or a finite double. *)
Lemma binary_round_aux_finite (s : bool) (m e : Z) (l : location) :
  e <= 0 -> 0 <= m < 2 ^ (1000 - e) ->
  binary_round_aux 53 1024 s m e l = S754_zero s
  \/ exists m' e', binary_round_aux 53 1024 s m e l = S754_finite s m' e'.
Proof.
  intros He Hm. unfold binary_round_aux.
  destruct (shr_fexp_bound 1000 m e l ltac:(lia) ltac:(lia) Hm) as [[H0 H1] H2].
  destruct (shr_fexp 53 1024 m e l) as [mrs1 e1]. simpl fst in *. simpl snd in *.
  pose proof (round_nearest_even_bounds (shr_m mrs1) (loc_of_shr_record mrs1))
    as Hr.
  set (m1 := round_nearest_even (shr_m mrs1) (loc_of_shr_record mrs1)) in *.
  assert (Hm1 : 0 <= m1 < 2 ^ (1001 - e1)).
  { split; [lia |].
    replace (1001 - e1) with (1 + (1000 - e1)) by lia.
    rewrite Z.pow_add_r by lia. change (2 ^ 1) with 2. lia. }
  destruct (shr_fexp_bound 1001 m1 e1 loc_Exact ltac:(lia) ltac:(lia) Hm1)
    as [[H3 H4] H5].
  destruct (shr_fexp 53 1024 m1 e1 loc_Exact) as [mrs2 e2].
  simpl fst in *. simpl snd in *.
  destruct (shr_m mrs2) as [| p | p]; [now left | right | lia].
  replace (e2 <=? 1024 - 53) with true by (symmetry; apply Z.leb_le; lia).
  eauto.
Qed.

Lemma SFdiv_core_bounds (a b : positive) :
  Zpos a < 2 ^ 1000 * Zpos b ->
  snd (fst (SFdiv_core_binary 53 1024 (Zpos a) 0 (Zpos b) 0)) <= 0
  /\ 0 <= fst (fst (SFdiv_core_binary 53 1024 (Zpos a) 0 (Zpos b) 0))
        < 2 ^ (1000 - snd (fst (SFdiv_core_binary 53 1024 (Zpos a) 0 (Zpos b) 0))).
Proof.
  intro Hlt. unfold SFdiv_core_binary.
  set (E := Z.min _ (0 - 0)).
  assert (HE : E <= 0) by (subst E; apply Z.le_min_r).
  set (num := match 0 - 0 - E with
              | 0 => Zpos a
              | Zpos _ => Z.shiftl (Zpos a) (0 - 0 - E)
              | Zneg _ => 0
              end).
  assert (Hnum : num = Zpos a * 2 ^ (- E)).
  { subst num. destruct (0 - 0 - E) as [| p | p] eqn:Hs.
    - assert (HE0 : - E = 0) by lia. rewrite HE0, Z.pow_0_r. lia.
    - rewrite Z.shiftl_mul_pow2 by lia. f_equal. f_equal. lia.
    - lia. }
  pose proof (Z_div_mod num (Zpos b) ltac:(lia)) as Hdiv.
  destruct (Z.div_eucl num (Zpos b)) as [q r]. simpl fst. simpl snd.
  destruct Hdiv as [Heq Hr].
  assert (Hp : 0 < 2 ^ (- E)) by (apply Z.pow_pos_nonneg; lia).
  assert (Hsplit : 2 ^ (1000 - E) = 2 ^ 1000 * 2 ^ (- E)).
  { rewrite <- Z.pow_add_r by lia. reflexivity. }
  split; [exact HE |]. rewrite Hsplit.
  generalize dependent (2 ^ 1000). generalize dependent (2 ^ (- E)).
  intros. split; nia.
Qed.

(** The quotient of two positive integers below [2^1000] is a positive
    zero or a positive finite double. *)
Lemma SFdiv_int_finite (a b : positive) :
  Zpos a < 2 ^ 1000 * Zpos b ->
  SFdiv 53 1024 (S754_finite false a 0) (S754_finite false b 0) = S754_zero false
  \/ exists m e,
      SFdiv 53 1024 (S754_finite false a 0) (S754_finite false b 0)
      = S754_finite false m e.
Proof.
  intro Hlt. unfold SFdiv.
  destruct (SFdiv_core_bounds a b Hlt) as [He Hm].
  destruct (SFdiv_core_binary 53 1024 (Zpos a) 0 (Zpos b) 0) as [[q e] l].
  simpl fst in *. simpl snd in *.
  now apply binary_round_aux_finite.
Qed.

(** [a / b] for a non-negative [a] and a positive [b] with
    [a / b < 2^1000]: no [OverflowError], and a non-negative finite
    double. *)
Lemma py_truediv_small (a b : Z) :
  0 <= a -> 0 < b -> a < 2 ^ 1000 * b ->
  exists f,
    Inspector.py_truediv a b = inr f
    /\ (f = S754_zero false \/ exists m e, f = S754_finite false m e).
Proof.
  intros Ha Hb Hlt. unfold Inspector.py_truediv.
  destruct (b =? 0) eqn:Hb0; [apply Z.eqb_eq in Hb0; lia |].
  replace (b <? 0) with false by (symmetry; apply Z.ltb_ge; lia).
  destruct (a =? 0) eqn:Ha0; [eauto |].
  apply Z.eqb_neq in Ha0.
  replace (a <? 0) with false by (symmetry; apply Z.ltb_ge; lia).
  rewrite (Z.abs_eq a), (Z.abs_eq b) by lia.
  destruct (_ <=? a) eqn:Hov.
  { apply Z.leb_le in Hov.
    assert (Hc : 2 ^ 1000 <= 2 ^ 1024 - 2 ^ 970) by (vm_compute; discriminate).
    generalize dependent (2 ^ 1024 - 2 ^ 970). generalize dependent (2 ^ 1000).
    intros. nia. }
  eexists. split; [reflexivity |].
  apply SFdiv_int_finite. rewrite !Z2Pos.id by lia. exact Hlt.
Qed.

Lemma digits_single (n : N) : (n < 10)%N -> digits n = [(48 + n)%N].
Proof.
  intro Hn.
  assert (H : n = 0%N \/ n = 1%N \/ n = 2%N \/ n = 3%N \/ n = 4%N \/ n = 5%N
              \/ n = 6%N \/ n = 7%N \/ n = 8%N \/ n = 9%N) by lia.
  repeat (destruct H as [-> | H]; [reflexivity |]). now subst.
Qed.

Lemma round_half_even_nonneg (n e : Z) : 0 <= n -> 0 <= Inspector.round_half_even n e.
Proof.
  intro Hn. unfold Inspector.round_half_even.
  destruct (0 <=? e) eqn:He.
  - apply Z.leb_le in He. apply Z.mul_nonneg_nonneg; [lia |].
    apply Z.pow_nonneg. lia.
  - apply Z.leb_gt in He.
    assert (Hd : 0 < 2 ^ (- e)) by (apply Z.pow_pos_nonneg; lia).
    pose proof (Z.div_pos n (2 ^ (- e)) Hn Hd).
    repeat match goal with |- context [if ?c then _ else _] => destruct c end; lia.
Qed.

(** A non-negative double is printed by [.1f] as an integer part, a point
    and exactly one decimal digit. *)
Lemma fmt_f1_one_decimal (f : spec_float) :
  f = S754_zero false \/ (exists m e, f = S754_finite false m e) ->
  exists whole tenth : N,
    (tenth < 10)%N
    /\ Inspector.fmt_f1 f = digits whole ++ lit "." ++ [(48 + tenth)%N].
Proof.
  intros [-> | (m & e & ->)].
  - exists 0%N, 0%N. split; [lia | reflexivity].
  - unfold Inspector.fmt_f1.
    set (tenths := Inspector.round_half_even (10 * Zpos m) e).
    assert (Ht : 0 <= tenths) by (apply round_half_even_nonneg; lia).
    exists (Z.to_N (tenths / 10)), (Z.to_N (tenths mod 10)).
    pose proof (Z.mod_pos_bound tenths 10 ltac:(lia)) as Hmod.
    split; [lia |].
    rewrite (digits_single (Z.to_N (tenths mod 10))) by lia. reflexivity.
Qed.

End FloatFacts.

(** * Counting and ranking *)

Module CounterFacts.
Import Inspector.






Lemma key_eqb_eq (a b : key) : key_eqb a b = true <-> a = b.
Proof. unfold key_eqb. destruct (key_eq_dec a b); split; congruence. Qed.

Lemma key_eqb_refl (a : key) : key_eqb a a = true.
Proof. now apply key_eqb_eq. Qed.

Lemma key_eqb_neq (a b : key) : key_eqb a b = false <-> a <> b.
Proof. unfold key_eqb. destruct (key_eq_dec a b); split; congruence. Qed.

Lemma e_key_bump (k : key) (x : entry) : e_key (bump k x) = e_key x.
Proof. unfold bump. now destruct (key_eqb k (e_key x)). Qed.

(** *** Adding one value *)

Lemma counter_add_absent (k : key) (v : value) (c : list entry) :
  ~ In k (List.map e_key c) ->
  counter_add k v c = c ++ [{| e_key := k; e_val := v; e_count := 1 |}].
Proof.
  induction c as [| x r IH]; simpl; intro Hnot; [reflexivity |].
  destruct (key_eqb k (e_key x)) eqn:Hk.
  - apply key_eqb_eq in Hk. subst. tauto.
  - rewrite IH; tauto.
Qed.

Lemma map_bump_absent (k : key) (c : list entry) :
  ~ In k (List.map e_key c) -> List.map (bump k) c = c.
Proof.
  induction c as [| x r IH]; simpl; intro Hnot; [reflexivity |].
  rewrite IH by tauto. unfold bump.
  destruct (key_eqb k (e_key x)) eqn:Hk; [| reflexivity].
  apply key_eqb_eq in Hk. subst. tauto.
Qed.

Lemma counter_add_present (k : key) (v : value) (c : list entry) :
  NoDup (List.map e_key c) -> In k (List.map e_key c) ->
  counter_add k v c = List.map (bump k) c.
Proof.
  induction c as [| x r IH]; simpl; intros Hnd Hin; [tauto |].
  inversion Hnd as [| ? ? Hx Hr]; subst. unfold bump at 1.
  destruct (key_eqb k (e_key x)) eqn:Hk.
  - apply key_eqb_eq in Hk. subst. now rewrite map_bump_absent.
  - apply key_eqb_neq in Hk. rewrite IH; [reflexivity | assumption |].
    destruct Hin as [Heq | Hin]; [congruence | assumption].
Qed.

Lemma counter_of_snoc (kvs : list (key * value)) (k : key) (v : value) :
  counter_of (kvs ++ [(k, v)]) = counter_add k v (counter_of kvs).
Proof. unfold counter_of. now rewrite List.fold_left_app. Qed.

(** *** First occurrences *)

Lemma first_index_lt (k : key) (ks : list key) :
  In k ks -> (first_index k ks < List.length ks)%nat.
Proof.
  induction ks as [| k' r IH]; simpl; [tauto |]. intro Hin.
  destruct (key_eqb k k') eqn:Hk; [lia |].
  apply key_eqb_neq in Hk. destruct Hin as [Heq | Hin]; [congruence |].
  specialize (IH Hin). lia.
Qed.

Lemma first_index_app_in (k : key) (ks more : list key) :
  In k ks -> first_index k (ks ++ more) = first_index k ks.
Proof.
  induction ks as [| k' r IH]; simpl; [tauto |]. intro Hin.
  destruct (key_eqb k k') eqn:Hk; [reflexivity |].
  apply key_eqb_neq in Hk. destruct Hin as [Heq | Hin]; [congruence |].
  now rewrite IH.
Qed.

Lemma first_index_new (k : key) (ks : list key) :
  ~ In k ks -> first_index k (ks ++ [k]) = List.length ks.
Proof.
  induction ks as [| k' r IH]; simpl; intro Hnot.
  - now rewrite key_eqb_refl.
  - destruct (key_eqb k k') eqn:Hk.
    + apply key_eqb_eq in Hk. subst. tauto.
    + rewrite IH; tauto.
Qed.

Lemma first_index_nth (k : key) (ks : list key) :
  In k ks -> List.nth_error ks (first_index k ks) = Some k.
Proof.
  induction ks as [| k' r IH]; simpl; [tauto |]. intro Hin.
  destruct (key_eqb k k') eqn:Hk.
  - apply key_eqb_eq in Hk. now subst.
  - apply key_eqb_neq in Hk. destruct Hin as [Heq | Hin]; [congruence |].
    now apply IH.
Qed.

Lemma occurrences_snoc (k k' : key) (ks : list key) :
  occurrences k (ks ++ [k'])
  = occurrences k ks + (if key_eqb k k' then 1 else 0).
Proof.
  unfold occurrences. rewrite List.count_occ_app. simpl.
  destruct (key_eq_dec k' k) as [-> | Hne].
  - rewrite key_eqb_refl. lia.
  - replace (key_eqb k k') with false; [lia |].
    symmetry. apply key_eqb_neq. congruence.
Qed.

Lemma occurrences_le_length (k : key) (ks : list key) :
  0 <= occurrences k ks <= Z.of_nat (List.length ks).
Proof.
  unfold occurrences. pose proof (List.count_occ_bound key_eq_dec k ks). lia.
Qed.

Lemma occurrences_absent (k : key) (ks : list key) :
  ~ In k ks -> occurrences k ks = 0.
Proof.
  intro Hnot. unfold occurrences.
  now rewrite (proj1 (List.count_occ_not_In key_eq_dec ks k) Hnot).
Qed.

(** *** What a counter holds *)


Lemma sorted_positions_nodup (f : key -> nat) (c : list entry) :
  StronglySorted lt (List.map (fun x => f (e_key x)) c) ->
  NoDup (List.map e_key c).
Proof.
  induction c as [| x r IH]; simpl; intro Hs; [constructor |].
  inversion Hs as [| ? ? Hr Hx]; subst. constructor; [| now apply IH].
  intro Hin. apply List.in_map_iff in Hin as (y & Hy & Hyin).
  rewrite Forall_forall in Hx.
  specialize (Hx (f (e_key y))
                (List.in_map (fun z => f (e_key z)) r y Hyin)).
  rewrite Hy in Hx. lia.
Qed.

Lemma sorted_snoc (l : list nat) (n : nat) :
  StronglySorted lt l -> Forall (fun m => (m < n)%nat) l ->
  StronglySorted lt (l ++ [n]).
Proof.
  induction 1 as [| m r Hr IH Hm]; simpl; intro Hall.
  - repeat constructor.
  - inversion Hall; subst. constructor; [now apply IH |].
    apply Forall_app. split; [assumption | now repeat constructor].
Qed.

Lemma counts_nil : counts [] [].
Proof. split; simpl; [tauto | tauto | constructor]. Qed.

Lemma counts_snoc (kvs : list (key * value)) (c : list entry) (k : key)
      (v : value) :
  counts kvs c -> counts (kvs ++ [(k, v)]) (counter_add k v c).
Proof.
  intros [Hkeys Hentries Horder].
  pose proof (sorted_positions_nodup
                (fun k0 => first_index k0 (List.map fst kvs)) c Horder) as Hnd.
  assert (Hks : List.map fst (kvs ++ [(k, v)]) = List.map fst kvs ++ [k])
    by now rewrite List.map_app.
  assert (Hvs : List.map snd (kvs ++ [(k, v)]) = List.map snd kvs ++ [v])
    by now rewrite List.map_app.
  set (ks := List.map fst kvs) in *. set (vs := List.map snd kvs) in *.
  assert (Hlen : List.length vs = List.length ks)
    by (subst ks vs; now rewrite !List.length_map).
  destruct (List.in_dec key_eq_dec k ks) as [Hin | Hnot].
  - (* a key already met: its count goes up *)
    rewrite counter_add_present by (try apply Hkeys; assumption).
    assert (Hmapkey : List.map e_key (List.map (bump k) c) = List.map e_key c).
    { rewrite List.map_map. apply List.map_ext. apply e_key_bump. }
    split; rewrite ?Hks, ?Hvs.
    + intro k0. rewrite Hmapkey, Hkeys, List.in_app_iff. simpl.
      intuition (subst; assumption).
    + intros x' Hx'. apply List.in_map_iff in Hx' as (x & <- & Hx).
      destruct (Hentries x Hx) as [Hcount Hval].
      assert (Hkx : In (e_key x) ks) by (apply Hkeys; now apply List.in_map).
      rewrite e_key_bump, occurrences_snoc, first_index_app_in by assumption.
      rewrite List.nth_error_app1
        by (rewrite Hlen; now apply first_index_lt).
      unfold bump.
      destruct (key_eqb k (e_key x)) eqn:Hk; simpl.
      * apply key_eqb_eq in Hk. subst k. rewrite key_eqb_refl.
        split; [lia | assumption].
      * replace (key_eqb (e_key x) k) with false.
        -- split; [lia | assumption].
        -- symmetry. apply key_eqb_neq. apply key_eqb_neq in Hk. congruence.
    + rewrite List.map_map.
      erewrite List.map_ext_in; [exact Horder |].
      intros x Hx. simpl. rewrite e_key_bump. apply first_index_app_in.
      apply Hkeys. now apply List.in_map.
  - (* a new key: a new entry at the end *)
    rewrite counter_add_absent by (rewrite Hkeys; assumption).
    split; rewrite ?Hks, ?Hvs.
    + intro k0. rewrite List.map_app, !List.in_app_iff, Hkeys. reflexivity.
    + intros x Hx. apply List.in_app_iff in Hx as [Hx | [<- | []]].
      * destruct (Hentries x Hx) as [Hcount Hval].
        assert (Hkx : In (e_key x) ks) by (apply Hkeys; now apply List.in_map).
        rewrite occurrences_snoc, first_index_app_in by assumption.
        rewrite List.nth_error_app1
          by (rewrite Hlen; now apply first_index_lt).
        replace (key_eqb (e_key x) k) with false; [split; [lia | assumption] |].
        symmetry. apply key_eqb_neq. congruence.
      * simpl. rewrite occurrences_snoc, key_eqb_refl, occurrences_absent,
          first_index_new by assumption.
        rewrite List.nth_error_app2 by lia.
        rewrite Hlen, Nat.sub_diag. split; reflexivity.
    + rewrite List.map_app. simpl. rewrite first_index_new by assumption.
      erewrite List.map_ext_in.
      * apply sorted_snoc; [exact Horder |].
        apply Forall_forall. intros n Hn.
        apply List.in_map_iff in Hn as (x & <- & Hx).
        apply first_index_lt, Hkeys. now apply List.in_map.
      * intros x Hx. simpl. apply first_index_app_in, Hkeys.
        now apply List.in_map.
Qed.

Lemma counter_of_counts (kvs : list (key * value)) :
  counts kvs (counter_of kvs).
Proof.
  induction kvs as [| [k v] kvs IH] using List.rev_ind.
  - apply counts_nil.
  - rewrite counter_of_snoc. now apply counts_snoc.
Qed.

(** *** The stable descending sort *)

Section Ranking.
Variable pos : entry -> nat.


Lemma insert_desc_perm (x : entry) (l : list entry) :
  Permutation (insert_desc x l) (x :: l).
Proof.
  induction l as [| y r IH]; simpl; [reflexivity |].
  destruct (e_count y <=? e_count x); [reflexivity |].
  rewrite IH. apply perm_swap.
Qed.

Lemma sort_desc_perm (c : list entry) : Permutation (sort_desc c) c.
Proof.
  induction c as [| x r IH]; simpl; [reflexivity |].
  rewrite insert_desc_perm. now constructor.
Qed.

Lemma insert_desc_sorted (x : entry) (l : list entry) :
  StronglySorted (before pos) l ->
  Forall (fun y => (pos x < pos y)%nat) l ->
  StronglySorted (before pos) (insert_desc x l).
Proof.
  induction 1 as [| y r Hr IH Hy]; simpl; intro Hpos.
  - repeat constructor.
  - inversion Hpos as [| ? ? Hxy Hxr]; subst.
    destruct (e_count y <=? e_count x) eqn:Hle.
    + apply Z.leb_le in Hle. constructor; [now constructor |].
      constructor.
      * unfold before. lia.
      * rewrite Forall_forall in Hy, Hxr |- *. intros z Hz.
        specialize (Hy z Hz). specialize (Hxr z Hz). unfold before in *. lia.
    + apply Z.leb_gt in Hle. constructor; [now apply IH |].
      eapply Permutation_Forall; [symmetry; apply insert_desc_perm |].
      constructor; [unfold before; lia | assumption].
Qed.

Lemma sort_desc_sorted (c : list entry) :
  StronglySorted lt (List.map pos c) -> StronglySorted (before pos) (sort_desc c).
Proof.
  induction c as [| x r IH]; simpl; intro Hs; [constructor |].
  inversion Hs as [| ? ? Hr Hx]; subst.
  apply insert_desc_sorted; [now apply IH |].
  eapply Permutation_Forall; [symmetry; apply sort_desc_perm |].
  apply Forall_forall. intros y Hy. rewrite Forall_forall in Hx.
  apply Hx. now apply List.in_map.
Qed.

End Ranking.

(** The ranking of a counter: every entry of the counter, most frequent
    first, equal counts in the order in which the keys were first met. *)
Lemma sort_desc_ranked (kvs : list (key * value)) :
  StronglySorted (ranked_before (List.map fst kvs)) (sort_desc (counter_of kvs))
  /\ Permutation (sort_desc (counter_of kvs)) (counter_of kvs).
Proof.
  split; [| apply sort_desc_perm].
  apply (sort_desc_sorted (fun x => first_index (e_key x) (List.map fst kvs))).
  apply counter_of_counts.
Qed.

End CounterFacts.

(** * Properties of the inspector *)

Module InspectorFacts.
Import Inspector.
Local Open Scope py_scope.

Section Facts.
Context {I : Interp}.

(** *** The output monad *)

Lemma bind_print {B : Type} (s : pystr) (f : unit -> M B) :
  bind (print s) f = (s :: fst (f tt), snd (f tt)).
Proof. unfold bind, print. destruct (f tt); reflexivity. Qed.

Lemma bind_eval_ok {A B : Type} (a : A) (f : A -> M B) :
  bind (eval (inr a)) f = f a.
Proof. unfold bind, eval. destruct (f a); reflexivity. Qed.

Lemma print_then {B : Type} (s : pystr) (f : unit -> M B) (o : list pystr)
      (r : res B) :
  f tt = (o, r) -> bind (print s) f = (s :: o, r).
Proof. unfold bind, print. now intros ->. Qed.

(** Runs straight-line code made of successful expressions and prints. *)
Ltac run_prints :=
  repeat first [rewrite bind_eval_ok | apply print_then].

Lemma fst_bind {A B : Type} (m : M A) (f : A -> M B) :
  fst (bind m f)
  = fst m ++ match snd m with
             | inr a => fst (f a)
             | inl _ => []
             end.
Proof.
  destruct m as [o [e | a]]; simpl.
  - now rewrite List.app_nil_r.
  - destruct (f a); reflexivity.
Qed.

Lemma bind_ok {A B : Type} (m : M A) (f : A -> M B) (o : list pystr) (a : A) :
  m = (o, inr a) -> bind m f = (o ++ fst (f a), snd (f a)).
Proof. intros ->. simpl. destruct (f a); reflexivity. Qed.

(** A loop whose body prints one line per element and never raises. *)
Lemma for_each_lines {A : Type} (body : A -> M unit) (l : list A)
      (lines : list pystr) :
  Forall2 (fun x line => body x = ([line], inr tt)) l lines ->
  for_each l body = (lines, inr tt).
Proof.
  induction 1 as [| x line r lines' Hx _ IH]; simpl; [reflexivity |].
  now rewrite Hx, IH.
Qed.

Lemma for_each_output {A : Type} (P : pystr -> Prop) (body : A -> M unit)
      (l : list A) :
  (forall x, Forall P (fst (body x))) -> Forall P (fst (for_each l body)).
Proof.
  intro Hbody. induction l as [| x r IH]; simpl; [constructor |].
  rewrite fst_bind. apply Forall_app. split; [apply Hbody |].
  destruct (snd (body x)); [constructor | exact IH].
Qed.

(** *** Empty datasets *)

(** C8. For an empty dataset [inspect_dataset] prints its heading, a count
    of 0 and the emptiness notice, and returns normally: no field list, no
    turn statistics, no language table and no example follow, and [min] and
    [max] are not evaluated. *)
Theorem empty_dataset_summary :
  forall name : pystr,
    summarize (VList []) = ([lit "Total items: 0"; lit "Empty dataset!"], inr tt)
    /\ inspect_dataset name (inr (VList []))
       = ([nl ++ rule; [128202%N] ++ lit " " ++ name; rule;
           lit "Total items: 0"; lit "Empty dataset!"], inr tt).
Proof. intro name. split; reflexivity. Qed.

(** The same holds for the other empty documents, [{}] and [""]. *)
Example empty_dict_summary :
  summarize (VDict []) = ([lit "Total items: 0"; lit "Empty dataset!"], inr tt)
  /\ summarize (VStr []) = ([lit "Total items: 0"; lit "Empty dataset!"], inr tt).
Proof. split; reflexivity. Qed.

(** *** The example preview *)



Lemma conversation_line_dict (t : list (pystr * value)) :
  conversation_line (VDict t)
  = match py_slice 100 (first_present t (lit "content") (lit "utterance") (VStr [])) with
    | inr c =>
        ([labelled (first_present t (lit "role") (lit "speaker_role")
                      (VStr (lit "unknown"))) c], inr tt)
    | inl e => ([], inl e)
    end.
Proof.
  unfold conversation_line, first_present, labelled. simpl.
  destruct (lookup (lit "content") t) as [c |];
    [| destruct (lookup (lit "utterance") t) as [c |]];
    (destruct (lookup (lit "role") t);
     [| destruct (lookup (lit "speaker_role") t)]);
    simpl; try (destruct (py_slice 100 c)); reflexivity.
Qed.

Lemma message_line_dict (t : list (pystr * value)) :
  message_line (VDict t)
  = match py_slice 100 (match lookup (lit "content") t with
                        | Some c => c
                        | None => VStr []
                        end) with
    | inr c =>
        ([labelled (match lookup (lit "role") t with
                    | Some r => r
                    | None => VStr (lit "unknown")
                    end) c], inr tt)
    | inl e => ([], inl e)
    end.
Proof.
  unfold message_line, labelled. simpl.
  destruct (lookup (lit "content") t) as [c |]; destruct (lookup (lit "role") t);
    simpl; try (destruct (py_slice 100 c)); reflexivity.
Qed.

Lemma conversation_line_not_dict (turn : value) :
  (forall t, turn <> VDict t) ->
  conversation_line turn = ([], inl (NoAttribute turn "get")).
Proof. intro H. destruct turn; try reflexivity. now destruct (H entries). Qed.

Lemma message_line_not_dict (msg : value) :
  (forall t, msg <> VDict t) ->
  message_line msg = ([], inl (NoAttribute msg "get")).
Proof. intro H. destruct msg; try reflexivity. now destruct (H entries). Qed.


Lemma labelled_ends_with_dots (role content : value) :
  ends_with (lit "...") (labelled role content).
Proof.
  exists (lit "  [" ++ py_str role ++ lit "]: " ++ py_str content).
  unfold labelled. now rewrite <- !List.app_assoc.
Qed.

Lemma conversation_line_dots (turn : value) :
  Forall (ends_with (lit "...")) (fst (conversation_line turn)).
Proof.
  destruct turn as [| | | | | | t]; try (simpl; constructor).
  rewrite conversation_line_dict.
  destruct (py_slice 100 _); simpl; constructor;
    [apply labelled_ends_with_dots | constructor].
Qed.

Lemma message_line_dots (msg : value) :
  Forall (ends_with (lit "...")) (fst (message_line msg)).
Proof.
  destruct msg as [| | | | | | t]; try (simpl; constructor).
  rewrite message_line_dict.
  destruct (py_slice 100 _); simpl; constructor;
    [apply labelled_ends_with_dots | constructor].
Qed.

Lemma loop_after_slice_dots (n : nat) (v : value) (body : value -> M unit) :
  (forall x, Forall (ends_with (lit "...")) (fst (body x))) ->
  Forall (ends_with (lit "..."))
    (fst (sliced <- eval (py_slice n v) ;;
          elems <- eval (py_iter sliced) ;;
          for_each elems body)).
Proof.
  intro Hbody.
  destruct (py_slice n v) as [e | sliced]; [constructor |].
  rewrite bind_eval_ok.
  destruct (py_iter sliced) as [e | elems]; [constructor |].
  rewrite bind_eval_ok. now apply for_each_output.
Qed.

(** C10. Every line of the example preview ends with ["..."], whichever
    branch printed it and however short the content is: a two-character
    content is printed with the same suffix as a truncated one. *)
Theorem preview_lines_end_with_dots :
  (forall d : list (pystr * value),
      Forall (ends_with (lit "...")) (fst (preview d)))
  /\ preview [(lit "conversation",
               VList [VDict [(lit "role", VStr (lit "user"));
                             (lit "content", VStr (lit "hi"))]])]
     = ([lit "  [user]: hi..."], inr tt)
  /\ preview [(lit "messages",
               VList [VDict [(lit "role", VStr (lit "user"));
                             (lit "content", VStr (lit "hi"))]])]
     = ([lit "  [user]: hi..."], inr tt)
  /\ preview [(lit "chosen", VStr (lit "ok"))]
     = ([lit "  [chosen]: ok..."], inr tt)
  /\ preview [(lit "id", VInt 7)]
     = ([lit "  Structure: "
           ++ List.firstn 300 (json_dumps (VDict [(lit "id", VInt 7)]))
           ++ lit "..."], inr tt).
Proof.
  repeat split.
  - intro d. unfold preview.
    destruct (lookup (lit "conversation") d) as [c |].
    { apply loop_after_slice_dots, conversation_line_dots. }
    destruct (lookup (lit "messages") d) as [m |].
    { apply loop_after_slice_dots, message_line_dots. }
    destruct (lookup (lit "chosen") d) as [ch |].
    + rewrite fst_bind. simpl. destruct (py_slice 150 ch) as [e | text]; simpl;
        constructor; [| constructor].
      exists (lit "  [chosen]: " ++ py_str text).
      now rewrite <- List.app_assoc.
    + simpl. constructor; [| constructor].
      exists (lit "  Structure: " ++ List.firstn 300 (json_dumps (VDict d))).
      now rewrite <- List.app_assoc.
Qed.

(** C4. The example follows a priority chain on the first record:
    [conversation] first (three turns at most, one line each, content cut
    at 100 characters), else [messages] (two elements at most, content cut
    at 100 characters), else [chosen] (one labelled line with a prefix of at
    most 150 characters, exactly 150 when the text is longer), else the
    indented serialization of the record cut at 300 characters. *)
Theorem preview_priority_chain :
  forall d : list (pystr * value),
    (forall c lines,
        lookup (lit "conversation") d = Some (VList c) ->
        Forall2 (fun turn line =>
                   exists t s,
                     turn = VDict t
                     /\ first_present t (lit "content") (lit "utterance") (VStr [])
                        = VStr s
                     /\ line = lit "  ["
                                 ++ py_str (first_present t (lit "role")
                                              (lit "speaker_role")
                                              (VStr (lit "unknown")))
                                 ++ lit "]: " ++ List.firstn 100 s ++ lit "...")
          (List.firstn 3 c) lines ->
        preview d = (lines, inr tt))
    /\ (forall m lines,
           lookup (lit "conversation") d = None ->
           lookup (lit "messages") d = Some (VList m) ->
           Forall2 (fun msg line =>
                      exists t s,
                        msg = VDict t
                        /\ match lookup (lit "content") t with
                           | Some x => x
                           | None => VStr []
                           end = VStr s
                        /\ line = lit "  ["
                                    ++ py_str (match lookup (lit "role") t with
                                               | Some r => r
                                               | None => VStr (lit "unknown")
                                               end)
                                    ++ lit "]: " ++ List.firstn 100 s ++ lit "...")
             (List.firstn 2 m) lines ->
           preview d = (lines, inr tt))
    /\ (forall s,
           lookup (lit "conversation") d = None ->
           lookup (lit "messages") d = None ->
           lookup (lit "chosen") d = Some (VStr s) ->
           preview d = ([lit "  [chosen]: " ++ List.firstn 150 s ++ lit "..."], inr tt)
           /\ (List.length (List.firstn 150 s) <= 150)%nat
           /\ ((150 < List.length s)%nat ->
               List.length (List.firstn 150 s) = 150%nat))
    /\ (lookup (lit "conversation") d = None ->
        lookup (lit "messages") d = None ->
        lookup (lit "chosen") d = None ->
        preview d = ([lit "  Structure: " ++ List.firstn 300 (json_dumps (VDict d))
                        ++ lit "..."], inr tt)
        /\ (List.length (List.firstn 300 (json_dumps (VDict d))) <= 300)%nat).
Proof.
  intro d. unfold preview. split; [| split; [| split]].
  - intros c lines -> Hlines.
    cbn [py_slice]. rewrite bind_eval_ok. cbn [py_iter]. rewrite bind_eval_ok.
    apply for_each_lines.
    eapply Forall2_impl; [| exact Hlines].
    intros turn line (t & s & -> & Hs & ->).
    rewrite conversation_line_dict, Hs. reflexivity.
  - intros m lines -> -> Hlines.
    cbn [py_slice]. rewrite bind_eval_ok. cbn [py_iter]. rewrite bind_eval_ok.
    apply for_each_lines.
    eapply Forall2_impl; [| exact Hlines].
    intros msg line (t & s & -> & Hs & ->).
    rewrite message_line_dict, Hs. reflexivity.
  - intros s -> -> ->. split; [reflexivity | split].
    + apply List.firstn_le_length.
    + intro Hlen. rewrite List.length_firstn. lia.
  - intros -> -> ->. split; [reflexivity |].
    apply List.firstn_le_length.
Qed.

(** *** The batch *)





Lemma inspect_guarded_failed (file : pystr * res value) (out : list pystr)
      (e : exn) :
  inspect_dataset (fst file) (snd file) = (out, inl e) ->
  inspect_guarded file = (out ++ [error_line (fst file) e], inr tt).
Proof. unfold inspect_guarded. intros ->. reflexivity. Qed.

Lemma inspect_guarded_passed (file : pystr * res value) (out : list pystr) :
  inspect_dataset (fst file) (snd file) = (out, inr tt) ->
  inspect_guarded file = (out, inr tt).
Proof. unfold inspect_guarded. intros ->. reflexivity. Qed.

Lemma inspect_guarded_returns (file : pystr * res value) :
  snd (inspect_guarded file) = inr tt.
Proof.
  unfold inspect_guarded.
  destruct (inspect_dataset (fst file) (snd file)) as [out [e | []]]; reflexivity.
Qed.

Lemma loop_returns (files : list (pystr * res value)) :
  for_each files inspect_guarded = (reports files, inr tt).
Proof.
  induction files as [| file rest IH]; [reflexivity |].
  simpl. rewrite IH.
  pose proof (inspect_guarded_returns file) as Hret.
  destruct (inspect_guarded file) as [out r]. simpl in Hret. subst r.
  reflexivity.
Qed.

Lemma main_output (files : list (pystr * res value)) :
  main files = (banner (List.length files) ++ reports files ++ footer, inr tt).
Proof.
  unfold main. rewrite !bind_print.
  rewrite (bind_ok _ _ _ _ (loop_returns files)).
  reflexivity.
Qed.

(** A file that cannot be opened or parsed fails right after the heading. *)
Lemma inspect_dataset_load_failure (name : pystr) (e : exn) :
  inspect_dataset name (inl e)
  = ([nl ++ rule; [128202%N] ++ lit " " ++ name; rule], inl e).
Proof. reflexivity. Qed.

(** C7. A failure while inspecting one file of the batch is caught for that
    file: what the file had printed is followed by one error line carrying
    the message of the exception, the files after it are inspected as if
    nothing had happened, and the script returns normally after printing
    its closing section, whatever the files are. *)
Theorem batch_survives_failures :
  (forall files : list (pystr * res value),
      main files
      = (banner (List.length files) ++ reports files ++ footer, inr tt))
  /\ (forall before file after out e,
         inspect_dataset (fst file) (snd file) = (out, inl e) ->
         main (before ++ file :: after)
         = (banner (List.length (before ++ file :: after))
              ++ reports before
              ++ (out ++ [nl ++ [10060%N] ++ lit " Error inspecting " ++ fst file
                            ++ lit ": " ++ exn_str e])
              ++ reports after
              ++ footer,
            inr tt))
  /\ (forall file out,
         inspect_dataset (fst file) (snd file) = (out, inr tt) ->
         reports [file] = out)
  /\ (forall name msg,
         inspect_dataset name (inl (LoadFailure msg))
         = ([nl ++ rule; [128202%N] ++ lit " " ++ name; rule],
            inl (LoadFailure msg))).
Proof.
  repeat split.
  - apply main_output.
  - intros before file after out e Hfail. rewrite main_output.
    unfold reports. rewrite List.flat_map_app. simpl.
    rewrite (inspect_guarded_failed file out e Hfail). simpl.
    now rewrite <- !List.app_assoc.
  - intros file out Hok. unfold reports. simpl.
    rewrite (inspect_guarded_passed file out Hok). apply List.app_nil_r.
Qed.

(** *** Turn statistics *)


Lemma turn_count_get (item : value) (n : Z) :
  turn_count item = Some n ->
  res_bind (py_get item (lit "conversation") (VList [])) py_len = inr n.
Proof.
  destruct item as [| | | | | | t]; try discriminate. simpl.
  destruct (lookup (lit "conversation") t) as [[| | | | | |] |]; simpl;
    intro H; now inversion H.
Qed.

Lemma turn_count_nonneg (item : value) (n : Z) :
  turn_count item = Some n -> 0 <= n.
Proof.
  destruct item as [| | | | | | t]; try discriminate. simpl.
  destruct (lookup (lit "conversation") t) as [[| | | | | |] |];
    intro H; inversion H; lia.
Qed.

Lemma res_map_ok {A B : Type} (f : A -> res B) (l : list A) (ys : list B) :
  Forall2 (fun x y => f x = inr y) l ys -> res_map f l = inr ys.
Proof.
  induction 1 as [| x y r ys' Hx _ IH]; simpl; [reflexivity |].
  now rewrite Hx, IH.
Qed.

Lemma fold_min_spec (r : list Z) (x : Z) :
  In (List.fold_left Z.min r x) (x :: r)
  /\ Forall (fun n => List.fold_left Z.min r x <= n) (x :: r).
Proof.
  revert x. induction r as [| y r IH]; intro x; simpl.
  - split; [now left | constructor; [lia | constructor]].
  - destruct (IH (Z.min x y)) as [Hin Hall]. split.
    + destruct Hin as [Heq | Hin]; [| now right; right].
      rewrite <- Heq. destruct (Z.min_spec x y) as [[_ ->] | [_ ->]]; auto.
    + inversion Hall as [| ? ? Hhd Htl]; subst.
      constructor; [lia | constructor; [lia | exact Htl]].
Qed.

Lemma fold_max_spec (r : list Z) (x : Z) :
  In (List.fold_left Z.max r x) (x :: r)
  /\ Forall (fun n => n <= List.fold_left Z.max r x) (x :: r).
Proof.
  revert x. induction r as [| y r IH]; intro x; simpl.
  - split; [now left | constructor; [lia | constructor]].
  - destruct (IH (Z.max x y)) as [Hin Hall]. split.
    + destruct Hin as [Heq | Hin]; [| now right; right].
      rewrite <- Heq. destruct (Z.max_spec x y) as [[_ ->] | [_ ->]]; auto.
    + inversion Hall as [| ? ? Hhd Htl]; subst.
      constructor; [lia | constructor; [lia | exact Htl]].
Qed.

Lemma py_sum_shift (l : list Z) (a : Z) :
  List.fold_left Z.add l a = a + py_sum l.
Proof.
  unfold py_sum. revert a. induction l as [| x r IH]; intro a; simpl; [lia |].
  rewrite (IH (a + x)), (IH x). lia.
Qed.

Lemma py_sum_cons (x : Z) (l : list Z) : py_sum (x :: l) = x + py_sum l.
Proof. unfold py_sum at 1. simpl. apply py_sum_shift. Qed.

Lemma py_sum_bounds (l : list Z) (b : Z) :
  Forall (fun n => 0 <= n < b) l ->
  0 <= py_sum l <= (b - 1) * Z.of_nat (List.length l).
Proof.
  induction 1 as [| x r Hx _ IH].
  - unfold py_sum. simpl. lia.
  - rewrite py_sum_cons. simpl List.length. lia.
Qed.


Lemma conversation_stats_ok (items : list value) (lengths : list Z) :
  items <> [] ->
  Forall2 (fun item n => turn_count item = Some n) items lengths ->
  Forall (fun n => n < 2 ^ 63) lengths ->
  exists lo hi mean,
    conversation_stats (VList items) = (stats_lines lo hi mean, inr tt)
    /\ In lo lengths /\ Forall (fun n => lo <= n) lengths
    /\ In hi lengths /\ Forall (fun n => n <= hi) lengths
    /\ py_truediv (py_sum lengths) (Z.of_nat (List.length lengths)) = inr mean
    /\ (mean = S754_zero false \/ exists m e, mean = S754_finite false m e).
Proof.
  intros Hne Hcount Hsmall.
  assert (Hget : Forall2 (fun item n =>
                            res_bind (py_get item (lit "conversation") (VList []))
                              py_len = inr n) items lengths).
  { eapply Forall2_impl; [| exact Hcount]. intros. now apply turn_count_get. }
  assert (Hrange : Forall (fun n => 0 <= n < 2 ^ 63) lengths).
  { clear Hget Hne. induction Hcount as [| item n r ns Hn _ IH]; [constructor |].
    inversion Hsmall; subst. constructor; [| now apply IH].
    split; [eapply turn_count_nonneg; eauto | assumption]. }
  destruct lengths as [| x r].
  { inversion Hcount; subst. now destruct Hne. }
  destruct (FloatFacts.py_truediv_small (py_sum (x :: r))
              (Z.of_nat (List.length (x :: r))))
    as [mean [Hmean Hfinite]].
  { apply (py_sum_bounds _ _ Hrange). }
  { simpl List.length. lia. }
  { pose proof (py_sum_bounds _ _ Hrange) as Hb.
    assert (Hc : 2 ^ 63 <= 2 ^ 1000) by (vm_compute; discriminate).
    assert (Hl : 0 < Z.of_nat (List.length (x :: r))) by (simpl List.length; lia).
    generalize dependent (2 ^ 1000). generalize dependent (2 ^ 63).
    intros. nia. }
  exists (List.fold_left Z.min r x), (List.fold_left Z.max r x), mean.
  split; [| split; [apply fold_min_spec | split; [apply fold_min_spec |
             split; [apply fold_max_spec | split; [apply fold_max_spec |
                                                     split; [exact Hmean |
                                                              exact Hfinite]]]]]].
  unfold conversation_stats. cbn [py_iter]. rewrite bind_eval_ok.
  rewrite (res_map_ok _ _ _ Hget). rewrite bind_eval_ok. cbn [py_min py_max].
  unfold stats_lines. run_prints. rewrite Hmean. now run_prints.
Qed.

(** C1 (amended). When the first record has a [conversation] field, and
    every record is a dict whose [conversation], if any, has a length below
    [2^63], [summarize] prints, right after the field list, the smallest
    and the largest of the lengths taken over all records (0 for a record
    without the field) and their mean, the correctly rounded quotient of
    their sum by their number, with exactly one decimal digit; for the
    lengths 2, 5, 3 the mean is printed as 3.3. *)
Theorem turn_statistics_report :
  forall (first : list (pystr * value)) (rest : list value) (lengths : list Z),
    has_key (lit "conversation") first = true ->
    Forall2 (fun item n => turn_count item = Some n) (VDict first :: rest) lengths ->
    Forall (fun n => n < 2 ^ 63) lengths ->
    (exists lo hi mean whole tenth tail r,
        summarize (VList (VDict first :: rest))
        = ([lit "Total items: " ++ fmt_comma (Z.of_nat (S (List.length rest)));
            nl ++ lit "Fields: " ++ repr_keys first;
            nl ++ lit "Conversation turn statistics:";
            lit "  Min turns: " ++ str_int lo;
            lit "  Max turns: " ++ str_int hi;
            lit "  Avg turns: " ++ digits whole ++ lit "." ++ [(48 + tenth)%N]]
             ++ tail, r)
        /\ In lo lengths /\ Forall (fun n => lo <= n) lengths
        /\ In hi lengths /\ Forall (fun n => n <= hi) lengths
        /\ py_truediv (py_sum lengths) (Z.of_nat (List.length lengths)) = inr mean
        /\ fmt_f1 mean = digits whole ++ lit "." ++ [(48 + tenth)%N]
        /\ (tenth < 10)%N)
    /\ (exists mean,
           py_truediv (py_sum [2; 5; 3]) 3 = inr mean /\ fmt_f1 mean = lit "3.3").
Proof.
  intros first rest lengths Hhas Hcount Hsmall. split.
  - destruct (conversation_stats_ok (VDict first :: rest) lengths
                ltac:(discriminate) Hcount Hsmall)
      as (lo & hi & mean & Hstats & Hlo1 & Hlo2 & Hhi1 & Hhi2 & Hmean & Hfin).
    destruct (FloatFacts.fmt_f1_one_decimal mean Hfin) as (whole & tenth & Ht & Hfmt).
    exists lo, hi, mean, whole, tenth.
    do 2 eexists. split; [| now repeat split].
    unfold summarize. cbn [py_len truthy negb getitem0 List.length].
    rewrite bind_eval_ok. cbn [app]. apply print_then.
    rewrite bind_eval_ok. apply print_then. rewrite Hhas.
    rewrite (bind_ok _ _ _ _ Hstats). unfold stats_lines. rewrite Hfmt.
    cbn [app]. reflexivity.
  - eexists. split; reflexivity.
Qed.

(** *** The language table *)



Lemma counter_ok (langs : list value) (ks : list key) :
  Forall2 (fun v k => hash_key v = inr k) langs ks ->
  counter langs = inr (counter_of (List.combine ks langs))
  /\ List.map fst (List.combine ks langs) = ks
  /\ List.map snd (List.combine ks langs) = langs.
Proof.
  intro Hhash. unfold counter.
  rewrite (res_map_ok _ langs (List.combine ks langs)).
  - split; [reflexivity |].
    induction Hhash as [| v k r ks' _ _ IH]; simpl; [now split |].
    destruct IH as [-> ->]. now split.
  - induction Hhash as [| v k r ks' Hv _ IH]; simpl; constructor; [| exact IH].
    now rewrite Hv.
Qed.

Lemma for_each_map {A : Type} (body : A -> M unit) (line : A -> pystr)
      (l : list A) :
  (forall x, In x l -> body x = ([line x], inr tt)) ->
  for_each l body = (List.map line l, inr tt).
Proof.
  intro Hbody. apply for_each_lines.
  induction l as [| x r IH]; simpl; constructor.
  - apply Hbody. now left.
  - apply IH. intros y Hy. apply Hbody. now right.
Qed.

Lemma in_firstn {A : Type} (n : nat) (l : list A) (x : A) :
  In x (List.firstn n l) -> In x l.
Proof.
  intro H. rewrite <- (List.firstn_skipn n l). apply List.in_app_iff. now left.
Qed.

Lemma language_row_ok (items : list value) (x : entry) :
  0 <= e_count x <= Z.of_nat (List.length items) ->
  items <> [] ->
  language_row (VList items) x
  = ([language_line (Z.of_nat (List.length items)) x], inr tt)
  /\ exists pct,
      py_truediv (100 * e_count x) (Z.of_nat (List.length items)) = inr pct.
Proof.
  intros Hcount Hne.
  assert (Hlen : 0 < Z.of_nat (List.length items)).
  { destruct items; [congruence | simpl List.length; lia]. }
  destruct (FloatFacts.py_truediv_small (100 * e_count x)
              (Z.of_nat (List.length items))) as [pct [Hpct _]]; [lia .. |].
  split; [| now exists pct].
  unfold language_row, language_line, percent. cbn [py_len].
  rewrite bind_eval_ok, Hpct, bind_eval_ok. reflexivity.
Qed.

Lemma language_stats_ok (items found : list value) (ks : list key) :
  items <> [] ->
  Forall2 (fun item v => py_get item (lit "language") VNone = inr v) items found ->
  Forall2 (fun v k => hash_key v = inr k) (List.filter truthy found) ks ->
  let table :=
    sort_desc (counter_of
                 (List.combine ks (List.filter truthy found))) in
  language_stats (VList items)
  = ((nl ++ lit "Top 5 languages:")
       :: List.map (language_line (Z.of_nat (List.length items)))
            (List.firstn 5 table), inr tt)
  /\ forall x, In x table ->
       0 <= e_count x <= Z.of_nat (List.length items).
Proof.
  intros Hne Hfound Hhash table.
  destruct (counter_ok _ _ Hhash) as (Hcounter & Hfst & Hsnd).
  pose proof (CounterFacts.counter_of_counts
                (List.combine ks (List.filter truthy found))) as Hcounts.
  assert (Hbound : forall x, In x table ->
                     0 <= e_count x <= Z.of_nat (List.length items)).
  { intros x Hx.
    apply (Permutation_in _ (CounterFacts.sort_desc_perm _)) in Hx.
    destruct (counts_entries _ _ Hcounts x Hx) as [-> _].
    rewrite Hfst.
    pose proof (CounterFacts.occurrences_le_length (e_key x) ks) as Hocc.
    pose proof (Forall2_length Hhash) as Hl1.
    pose proof (Forall2_length Hfound) as Hl2.
    pose proof (List.filter_length_le truthy found) as Hl3.
    lia. }
  split; [| exact Hbound].
  unfold language_stats. cbn [py_iter]. rewrite bind_eval_ok.
  rewrite (res_map_ok _ _ _ Hfound). rewrite bind_eval_ok.
  rewrite Hcounter. rewrite bind_eval_ok.
  apply print_then. unfold most_common. apply for_each_map.
  intros x Hx. apply language_row_ok; [| exact Hne].
  apply Hbound. eapply in_firstn. exact Hx.
Qed.

(** C3. When the first record has a [language] field (every record being
    a dict and the values kept being hashable), [summarize] prints, after
    what the earlier steps printed, a table made from the [language] values
    that are present and truthy: one entry per distinct value, with the
    number of records carrying it and the first value met; the entries are
    ranked by decreasing count, equal counts in the order in which the
    values were first met, and the first five, no more, are printed, each
    with its count and with [100 * count / len(data)] as percentage, the
    denominator being the number of records of the dataset; the heading of
    the example and the example follow the last row. *)
Theorem language_table_report :
  forall (first : list (pystr * value)) (rest found : list value)
         (ks : list key) (earlier : list pystr),
    has_key (lit "language") first = true ->
    Forall2 (fun item v => py_get item (lit "language") VNone = inr v)
      (VDict first :: rest) found ->
    Forall2 (fun v k => hash_key v = inr k) (List.filter truthy found) ks ->
    (if has_key (lit "conversation") first
     then conversation_stats (VList (VDict first :: rest))
     else ret tt) = (earlier, inr tt) ->
    exists table : list entry,
      summarize (VList (VDict first :: rest))
      = ([lit "Total items: " ++ fmt_comma (Z.of_nat (S (List.length rest)));
          nl ++ lit "Fields: " ++ repr_keys first]
           ++ earlier
           ++ [nl ++ lit "Top 5 languages:"]
           ++ List.map (language_line (Z.of_nat (S (List.length rest))))
                (List.firstn 5 table)
           ++ (nl ++ [128221%N] ++ lit " Example conversation:")
           :: fst (preview first),
         snd (preview first))
      /\ (List.length (List.firstn 5 table) <= 5)%nat
      /\ (forall k, In k (List.map e_key table) <-> In k ks)
      /\ NoDup (List.map e_key table)
      /\ (forall x, In x table ->
            e_count x = occurrences (e_key x) ks
            /\ List.nth_error (List.filter truthy found)
                 (first_index (e_key x) ks) = Some (e_val x)
            /\ exists pct,
                py_truediv (100 * e_count x) (Z.of_nat (S (List.length rest)))
                = inr pct
                /\ percent (e_count x) (Z.of_nat (S (List.length rest)))
                   = fmt_f1 pct)
      /\ StronglySorted (ranked_before ks) table.
Proof.
  intros first rest found ks earlier Hhas Hfound Hhash Hearlier.
  set (items := VDict first :: rest) in *.
  assert (Hne : items <> []) by discriminate.
  destruct (language_stats_ok items found ks Hne Hfound Hhash) as [Hstats Hbound].
  destruct (counter_ok _ _ Hhash) as (_ & Hfst & Hsnd).
  set (kvs := List.combine ks (List.filter truthy found)) in *.
  pose proof (CounterFacts.counter_of_counts kvs) as Hcounts.
  destruct (CounterFacts.sort_desc_ranked kvs) as [Hsorted Hperm].
  set (table := sort_desc (counter_of kvs)) in *.
  change (List.length items) with (S (List.length rest)) in *.
  exists table. split; [| split; [| split; [| split; [| split]]]].
  - subst items.
    unfold summarize. cbn [py_len truthy negb getitem0 List.length].
    rewrite bind_eval_ok. cbn [app]. apply print_then.
    rewrite bind_eval_ok. apply print_then.
    rewrite (bind_ok _ _ _ _ Hearlier). rewrite Hhas.
    rewrite (bind_ok _ _ _ _ Hstats). rewrite bind_print.
    cbn [fst snd]. reflexivity.
  - apply List.firstn_le_length.
  - intro k. rewrite <- Hfst. rewrite <- (counts_keys _ _ Hcounts k).
    split; intro Hk.
    + eapply Permutation_in; [apply Permutation_map; exact Hperm | exact Hk].
    + eapply Permutation_in;
        [apply Permutation_map; symmetry; exact Hperm | exact Hk].
  - apply (Permutation_NoDup (l := List.map e_key (counter_of kvs))).
    + symmetry. now apply Permutation_map.
    + exact (CounterFacts.sorted_positions_nodup
               (fun k => first_index k (List.map fst kvs)) _
               (counts_order _ _ Hcounts)).
  - intros x Hx.
    destruct (language_row_ok items x (Hbound x Hx) Hne) as [_ [pct Hpct]].
    apply (Permutation_in _ Hperm) in Hx.
    destruct (counts_entries _ _ Hcounts x Hx) as [Hc Hv].
    rewrite Hfst in Hc, Hv. rewrite Hsnd in Hv.
    change (List.length items) with (S (List.length rest)) in Hpct.
    repeat split; try assumption.
    exists pct. split; [exact Hpct |]. unfold percent. now rewrite Hpct.
  - now rewrite Hfst in Hsorted.
Qed.

End Facts.

(** *** Concrete runs *)

(** C1, as stated, fails: on records with 2, 5 and 3 turns the mean is
    printed as [3.3], with one decimal, and no line shows [3.33]. *)
Lemma mean_printed_with_one_decimal :
  summarize (I := sample_interp) three_chats
  = ([lit "Total items: 3";
      nl ++ lit "Fields: ['conversation']";
      nl ++ lit "Conversation turn statistics:";
      lit "  Min turns: 2";
      lit "  Max turns: 5";
      lit "  Avg turns: 3.3";
      nl ++ [128221%N] ++ lit " Example conversation:";
      lit "  [user]: hi...";
      lit "  [user]: hi..."], inr tt)
  /\ ~ (exists suffix,
           In (lit "  Avg turns: 3.33" ++ suffix)
             (fst (summarize (I := sample_interp) three_chats))).
Proof.
  split; [vm_compute; reflexivity |].
  intros [suffix Hin]. vm_compute in Hin.
  repeat (destruct Hin as [Heq | Hin]; [discriminate Heq |]).
  exact Hin.
Qed.

Lemma turn_statistics_report_witness :
  has_key (lit "conversation")
    [(lit "conversation", VList (List.repeat sample_turn 2))] = true
  /\ Forall2 (fun item n => turn_count item = Some n)
       [chat_record 2; chat_record 5; chat_record 3] [2; 5; 3]
  /\ Forall (fun n => n < 2 ^ 63) [2; 5; 3]
  /\ exists lo hi mean whole tenth tail r,
      summarize (I := sample_interp) three_chats
      = ([lit "Total items: " ++ fmt_comma (Z.of_nat 3);
          nl ++ lit "Fields: "
             ++ repr_keys (I := sample_interp)
                  [(lit "conversation", VList (List.repeat sample_turn 2))];
          nl ++ lit "Conversation turn statistics:";
          lit "  Min turns: " ++ str_int lo;
          lit "  Max turns: " ++ str_int hi;
          lit "  Avg turns: " ++ digits whole ++ lit "." ++ [(48 + tenth)%N]]
           ++ tail, r)
      /\ In lo [2; 5; 3] /\ Forall (fun n => lo <= n) [2; 5; 3]
      /\ In hi [2; 5; 3] /\ Forall (fun n => n <= hi) [2; 5; 3]
      /\ py_truediv (py_sum [2; 5; 3]) (Z.of_nat 3) = inr mean
      /\ fmt_f1 mean = digits whole ++ lit "." ++ [(48 + tenth)%N]
      /\ (tenth < 10)%N.
Proof.
  assert (H1 : has_key (lit "conversation")
                 [(lit "conversation", VList (List.repeat sample_turn 2))] = true)
    by reflexivity.
  assert (H2 : Forall2 (fun item n => turn_count item = Some n)
                 [chat_record 2; chat_record 5; chat_record 3] [2; 5; 3])
    by (repeat constructor).
  assert (H3 : Forall (fun n => n < 2 ^ 63) [2; 5; 3])
    by (repeat constructor).
  split; [exact H1 | split; [exact H2 | split; [exact H3 |]]].
  exact (proj1 (turn_statistics_report (I := sample_interp) _ _ _ H1 H2 H3)).
Defined.

(** The table of the specification's example. *)
Example language_table_example :
  summarize (I := sample_interp) hundred_records
  = ([lit "Total items: 100";
      nl ++ lit "Fields: ['language']";
      nl ++ lit "Top 5 languages:";
      lit "  English: 60 (60.0%)";
      lit "  Spanish: 30 (30.0%)";
      lit "  French: 10 (10.0%)";
      nl ++ [128221%N] ++ lit " Example conversation:";
      lit "  Structure: {" ++ nl ++ lit "  " ++ [34%N] ++ lit "language"
        ++ [34%N] ++ lit ": " ++ [34%N] ++ lit "English" ++ [34%N] ++ nl
        ++ lit "}..."], inr tt).
Proof. vm_compute. reflexivity. Qed.

(** Equal counts keep the order of first occurrence; [1], [True] and [1.0]
    are one key, shown as first met; the percentages are over all seven
    records, the one without a language included. *)
Example language_ties_example :
  fst (language_stats (I := sample_interp)
         (VList [language_record "b"; language_record "a";
                 VDict [(lit "language", VInt 1)];
                 language_record "a"; language_record "b";
                 VDict [(lit "language", VBool true)];
                 VDict [(lit "language", VStr [])]]))
  = [nl ++ lit "Top 5 languages:";
     lit "  b: 2 (28.6%)";
     lit "  a: 2 (28.6%)";
     lit "  1: 2 (28.6%)"].
Proof. vm_compute. reflexivity. Qed.

(** Seven languages: the five most frequent are printed, the two others
    are not. *)
Example language_cut_example :
  fst (language_stats (I := sample_interp)
         (VList [language_record "a"; language_record "b";
                 language_record "c"; language_record "d";
                 language_record "e"; language_record "f";
                 language_record "g"; language_record "g"]))
  = [nl ++ lit "Top 5 languages:";
     lit "  g: 2 (25.0%)";
     lit "  a: 1 (12.5%)";
     lit "  b: 1 (12.5%)";
     lit "  c: 1 (12.5%)";
     lit "  d: 1 (12.5%)"].
Proof. vm_compute. reflexivity. Qed.

(** A list as language value cannot be counted: the table is not printed. *)
Example language_unhashable_example :
  language_stats (I := sample_interp)
    (VList [VDict [(lit "language", VList [VStr (lit "en")])]])
  = ([], inl (Unhashable (VList [VStr (lit "en")]))).
Proof. reflexivity. Qed.

Lemma language_table_report_witness :
  has_key (lit "language") language_first = true
  /\ Forall2 (fun item v => py_get item (lit "language") VNone = inr v)
       (VDict language_first :: language_rest)
       [VStr (lit "English"); VStr (lit "Spanish"); VStr (lit "English");
        VNone; VNone]
  /\ Forall2 (fun v k => hash_key v = inr k)
       (List.filter truthy
          [VStr (lit "English"); VStr (lit "Spanish"); VStr (lit "English");
           VNone; VNone])
       [KStr (lit "English"); KStr (lit "Spanish"); KStr (lit "English")]
  /\ exists table : list entry,
      summarize (I := sample_interp) (VList (VDict language_first :: language_rest))
      = ([lit "Total items: " ++ fmt_comma 5;
          nl ++ lit "Fields: " ++ repr_keys (I := sample_interp) language_first]
           ++ []
           ++ [nl ++ lit "Top 5 languages:"]
           ++ List.map (language_line (I := sample_interp) 5)
                (List.firstn 5 table)
           ++ (nl ++ [128221%N] ++ lit " Example conversation:")
           :: fst (preview (I := sample_interp) language_first),
         snd (preview (I := sample_interp) language_first))
      /\ StronglySorted
           (ranked_before
              [KStr (lit "English"); KStr (lit "Spanish"); KStr (lit "English")])
           table.
Proof.
  assert (H1 : has_key (lit "language") language_first = true) by reflexivity.
  assert (H2 : Forall2 (fun item v => py_get item (lit "language") VNone = inr v)
                 (VDict language_first :: language_rest)
                 [VStr (lit "English"); VStr (lit "Spanish");
                  VStr (lit "English"); VNone; VNone])
    by (repeat constructor).
  assert (H3 : Forall2 (fun v k => hash_key v = inr k)
                 (List.filter truthy
                    [VStr (lit "English"); VStr (lit "Spanish");
                     VStr (lit "English"); VNone; VNone])
                 [KStr (lit "English"); KStr (lit "Spanish");
                  KStr (lit "English")])
    by (repeat constructor).
  split; [exact H1 | split; [exact H2 | split; [exact H3 |]]].
  destruct (language_table_report (I := sample_interp) language_first
              language_rest _ _ [] H1 H2 H3 eq_refl)
    as (table & Hout & _ & _ & _ & _ & Hsorted).
  exists table. split; [exact Hout | exact Hsorted].
Defined.

Lemma preview_priority_chain_witness :
  lookup (lit "conversation") four_turn_record
  = Some (VList [sample_turn; VDict null_role_turn; VDict []; sample_turn])
  /\ preview (I := sample_interp) four_turn_record
     = ([lit "  [user]: hi..."; lit "  [None]: hello..."; lit "  [unknown]: ..."],
        inr tt).
Proof.
  split; [reflexivity |].
  apply (proj1 (preview_priority_chain (I := sample_interp) four_turn_record)
           [sample_turn; VDict null_role_turn; VDict []; sample_turn]);
    [reflexivity |].
  repeat constructor; do 2 eexists; repeat split; reflexivity.
Defined.


Lemma batch_survives_failures_witness :
  inspect_dataset (I := sample_interp) (fst broken_file) (snd broken_file)
  = ([nl ++ rule; [128202%N] ++ lit " b.json"; rule],
     inl (LoadFailure (lit "Expecting value: line 1 column 1 (char 0)")))
  /\ main (I := sample_interp)
       (sample_batch_before ++ broken_file :: sample_batch_after)
     = (banner 3
          ++ reports (I := sample_interp) sample_batch_before
          ++ ([nl ++ rule; [128202%N] ++ lit " b.json"; rule]
                ++ [nl ++ [10060%N] ++ lit " Error inspecting b.json"
                      ++ lit ": Expecting value: line 1 column 1 (char 0)"])
          ++ reports (I := sample_interp) sample_batch_after
          ++ footer,
        inr tt).
Proof.
  assert (H : inspect_dataset (I := sample_interp) (fst broken_file)
                (snd broken_file)
              = ([nl ++ rule; [128202%N] ++ lit " b.json"; rule],
                 inl (LoadFailure
                        (lit "Expecting value: line 1 column 1 (char 0)"))))
    by reflexivity.
  split; [exact H |].
  exact (proj1 (proj2 (batch_survives_failures (I := sample_interp)))
           sample_batch_before broken_file sample_batch_after _ _ H).
Defined.

End InspectorFacts.

(** * Further properties of the normalizer *)

Module NormalizerExtras.
Import Normalizer NormalizerFacts.

(** X1. A value made of JSON types only is returned as it is: the
    normalizer changes nothing in a row that is already serializable. *)
Theorem serialize_item_fixes_json_native :
  forall obj : pyobj,
    json_native obj = true -> serialize_item obj = obj.
Proof.
  induction obj as [| | | | | | | elems | items IH | entries IH]
    using pyobj_nested_ind; simpl; intro H; try reflexivity; try discriminate.
  - f_equal. rewrite List.forallb_forall in H. rewrite Forall_forall in IH.
    rewrite <- (List.map_id items) at 2. apply List.map_ext_in.
    intros x Hx. apply IH; auto.
  - f_equal. rewrite List.forallb_forall in H. rewrite Forall_forall in IH.
    rewrite <- (List.map_id entries) at 2. apply List.map_ext_in.
    intros [k v] Hx. specialize (H _ Hx). simpl in H.
    apply andb_true_iff in H as [_ Hv].
    pose proof (IH (k, v) Hx) as Hkv. simpl in Hkv. now rewrite (Hkv Hv).
Qed.

Lemma serialize_item_fixes_json_native_witness :
  json_native (serialize_item sample_row) = true
  /\ serialize_item (serialize_item sample_row) = serialize_item sample_row.
Proof.
  assert (H : json_native (serialize_item sample_row) = true) by reflexivity.
  split; [exact H |].
  exact (serialize_item_fixes_json_native (serialize_item sample_row) H).
Defined.

Lemma forallb_map_ext {A B : Type} (p : B -> bool) (q : A -> bool)
      (f : A -> B) (l : list A) :
  (forall x, In x l -> p (f x) = q x) ->
  List.forallb p (List.map f l) = List.forallb q l.
Proof.
  induction l as [| x r IH]; simpl; intro H; [reflexivity |].
  rewrite H by now left. rewrite IH; [reflexivity |].
  intros y Hy. apply H. now right.
Qed.

(** X2. The result holds JSON types only exactly when the input is made of
    string-keyed dicts, lists, strings, numbers, booleans, null and
    timestamps (and of tuples that hold JSON types already): an object of
    an unrecognised type, or a dict key that is not a string, anywhere in
    the input, is still there in the result. *)
Theorem serialize_item_json_native_iff :
  forall obj : pyobj,
    json_native (serialize_item obj) = record_value obj.
Proof.
  induction obj as [| | | | | | | elems | items IH | entries IH]
    using pyobj_nested_ind; simpl; try reflexivity.
  - apply forallb_map_ext. rewrite Forall_forall in IH. exact IH.
  - apply forallb_map_ext. rewrite Forall_forall in IH. intros [k v] Hx.
    pose proof (IH (k, v) Hx) as Hkv. simpl in Hkv. now rewrite Hkv.
Qed.


Lemma fold_max_map (f : pyobj -> pyobj) (m : pyobj -> nat) (l : list pyobj) :
  (forall x, In x l -> m (f x) = m x) ->
  List.fold_right (fun x acc => Nat.max (m x) acc) 0%nat (List.map f l)
  = List.fold_right (fun x acc => Nat.max (m x) acc) 0%nat l.
Proof.
  induction l as [| x r IH]; simpl; intro H; [reflexivity |].
  rewrite H by now left. rewrite IH; [reflexivity |].
  intros y Hy. apply H. now right.
Qed.

Lemma fold_max_map_entries (f : pyobj -> pyobj) (m : pyobj -> nat)
      (l : list (pyobj * pyobj)) :
  (forall k v, In (k, v) l -> m (f v) = m v) ->
  List.fold_right (fun kv acc => match kv with (_, v) => Nat.max (m v) acc end)
    0%nat (List.map (fun kv => match kv with (k, v) => (k, f v) end) l)
  = List.fold_right (fun kv acc => match kv with (_, v) => Nat.max (m v) acc end)
      0%nat l.
Proof.
  induction l as [| [k v] r IH]; simpl; intro H; [reflexivity |].
  rewrite (H k v) by now left. rewrite IH; [reflexivity |].
  intros k' v' Hy. apply (H k' v'). now right.
Qed.

(** X4. Normalization keeps the nesting depth of every object. *)
Theorem serialize_item_depth :
  forall obj : pyobj, depth (serialize_item obj) = depth obj.
Proof.
  induction obj as [| | | | | | | elems | items IH | entries IH]
    using pyobj_nested_ind; simpl; try reflexivity.
  - f_equal. apply fold_max_map. rewrite Forall_forall in IH. exact IH.
  - f_equal. apply fold_max_map_entries. rewrite Forall_forall in IH.
    intros k v Hin. exact (IH (k, v) Hin).
Qed.






Lemma at_path_serialize_item (path : list nat) :
  forall obj : pyobj,
    at_path path (serialize_item obj)
    = option_map serialize_item (at_path path obj).
Proof.
  induction path as [| i rest IH]; intro obj; [reflexivity |].
  destruct obj as [| b | z | f | s | d | t | elems | items | entries];
    try reflexivity.
  - cbn [serialize_item at_path]. rewrite List.nth_error_map.
    destruct (List.nth_error items i) as [x |]; [apply IH | reflexivity].
  - cbn [serialize_item at_path]. rewrite List.nth_error_map.
    destruct (List.nth_error entries i) as [[k v] |]; [apply IH | reflexivity].
Qed.

(** X6. Whatever is found in the input at a position reached through list
    elements and dict values, the result holds its normalized form at the
    same position: a timestamp there has become its ISO text, a value of
    JSON types only is as it was, and at no such position does the result
    hold a timestamp. *)
Theorem serialize_item_timestamp_free :
  forall (obj : pyobj) (path : list nat),
    at_path path (serialize_item obj)
    = option_map serialize_item (at_path path obj)
    /\ (forall d, at_path path obj = Some (ODatetime d) ->
                  at_path path (serialize_item obj) = Some (OStr (isoformat d)))
    /\ (forall x, at_path path obj = Some x -> json_native x = true ->
                  at_path path (serialize_item obj) = Some x)
    /\ (forall d, at_path path (serialize_item obj) <> Some (ODatetime d)).
Proof.
  intros obj path. rewrite at_path_serialize_item.
  split; [reflexivity | split; [| split]].
  - intros d ->. reflexivity.
  - intros x -> Hx. simpl. f_equal. now apply serialize_item_native_fixed.
  - intros d H. destruct (at_path path obj) as [x |]; [| discriminate].
    simpl in H. injection H as H. destruct x; discriminate.
Qed.

(** A timestamp used as a dict key is not converted, nor is one held by a
    tuple. *)
Example timestamp_key_kept :
  serialize_item
    (ODict [(ODatetime sample_timestamp,
             OTuple [ODatetime sample_timestamp]);
            (OStr (lit "at"), ODatetime sample_timestamp)])
  = ODict [(ODatetime sample_timestamp,
            OTuple [ODatetime sample_timestamp]);
           (OStr (lit "at"), OStr (lit "2024-01-15T10:30:00"))].
Proof. reflexivity. Qed.

End NormalizerExtras.

(** * Further properties of the inspector *)

Module InspectorExtras.
Import Inspector InspectorFacts.
Local Open Scope py_scope.

Section Extras.
Context {I : Interp}.

(** *** Results and outputs of sequenced code *)

Lemma snd_bind {A B : Type} (m : M A) (f : A -> M B) :
  snd (bind m f) = res_bind (snd m) (fun a => snd (f a)).
Proof.
  destruct m as [o [e | a]]; simpl; [reflexivity |].
  now destruct (f a).
Qed.

Lemma res_bind_unit_iff (r : res unit) (k : unit -> res unit) :
  res_bind r k = inr tt <-> r = inr tt /\ k tt = inr tt.
Proof.
  destruct r as [e | []]; simpl; split.
  - discriminate.
  - intros [H _]. discriminate.
  - intro H. now split.
  - now intros [_ H].
Qed.

Lemma snd_for_each_iff {A : Type} (body : A -> M unit) (ok : A -> bool)
      (l : list A) :
  (forall x, snd (body x) = inr tt <-> ok x = true) ->
  (snd (for_each l body) = inr tt <-> List.forallb ok l = true).
Proof.
  intro Hbody. induction l as [| x r IH]; simpl.
  - now split.
  - rewrite snd_bind, res_bind_unit_iff, andb_true_iff, Hbody, IH. reflexivity.
Qed.

Lemma length_fst_bind {A B : Type} (m : M A) (f : A -> M B) (k : nat) :
  (forall a, (List.length (fst (f a)) <= k)%nat) ->
  (List.length (fst (bind m f)) <= List.length (fst m) + k)%nat.
Proof.
  intro Hf. rewrite fst_bind, List.length_app.
  destruct (snd m) as [e | a]; simpl; [lia |].
  specialize (Hf a). lia.
Qed.

Lemma length_for_each {A : Type} (body : A -> M unit) (l : list A) :
  (forall x, (List.length (fst (body x)) <= 1)%nat) ->
  (List.length (fst (for_each l body)) <= List.length l)%nat.
Proof.
  intro Hbody. induction l as [| x r IH]; simpl; [lia |].
  pose proof (length_fst_bind (body x) (fun _ => for_each r body)
                (List.length r) (fun _ => IH)) as H.
  specialize (Hbody x). lia.
Qed.

(** *** The example *)

Lemma conversation_line_returns_iff (turn : value) :
  snd (conversation_line turn) = inr tt <-> turn_ok turn = true.
Proof.
  destruct turn as [| | | | | | t]; try (simpl; split; discriminate).
  rewrite conversation_line_dict. unfold turn_ok.
  destruct (first_present t (lit "content") (lit "utterance") (VStr []));
    simpl; split; (reflexivity || discriminate).
Qed.

Lemma message_line_returns_iff (msg : value) :
  snd (message_line msg) = inr tt <-> message_ok msg = true.
Proof.
  destruct msg as [| | | | | | t]; try (simpl; split; discriminate).
  rewrite message_line_dict. unfold message_ok.
  destruct (match lookup (lit "content") t with Some c => c | None => VStr [] end);
    simpl; split; (reflexivity || discriminate).
Qed.

Lemma elements_returns_iff (body : value -> M unit) (ok : value -> bool)
      (n : nat) (c : value) :
  (forall x, snd (body x) = inr tt <-> ok x = true) ->
  (forall x, ok x = true -> exists t, x = VDict t) ->
  (snd (sliced <- eval (py_slice (S n) c) ;;
        elems <- eval (py_iter sliced) ;;
        for_each elems body) = inr tt
   <-> elements_ok ok (S n) c = true).
Proof.
  intros Hbody Hdict.
  destruct c as [| | | | s | l |]; try (simpl; split; discriminate).
  - (* a string: its characters are not dicts *)
    destruct s as [| ch s]; [simpl; now split |].
    cbn [py_slice List.firstn]. rewrite bind_eval_ok.
    cbn [py_iter List.map]. rewrite bind_eval_ok.
    cbn [for_each elements_ok]. rewrite snd_bind.
    split; [| discriminate].
    destruct (snd (body (VStr [ch]))) as [e | []] eqn:Hb; [discriminate |].
    apply Hbody, Hdict in Hb. destruct Hb as [t Ht]. discriminate.
  - cbn [py_slice]. rewrite bind_eval_ok. cbn [py_iter]. rewrite bind_eval_ok.
    now apply snd_for_each_iff.
Qed.

Lemma turn_ok_dict (x : value) : turn_ok x = true -> exists t, x = VDict t.
Proof. destruct x; try discriminate. eauto. Qed.

Lemma message_ok_dict (x : value) : message_ok x = true -> exists t, x = VDict t.
Proof. destruct x; try discriminate. eauto. Qed.

Lemma preview_runs (d : list (pystr * value)) :
  snd (preview d) = inr tt <-> preview_ok d = true.
Proof.
  unfold preview, preview_ok.
  destruct (lookup (lit "conversation") d) as [c |].
  { apply elements_returns_iff;
      [apply conversation_line_returns_iff | apply turn_ok_dict]. }
  destruct (lookup (lit "messages") d) as [m |].
  { apply elements_returns_iff;
      [apply message_line_returns_iff | apply message_ok_dict]. }
  destruct (lookup (lit "chosen") d) as [ch |]; [| simpl; now split].
  destruct ch; simpl; split; (reflexivity || discriminate).
Qed.

Lemma shown_all (encodable : pystr -> bool) (texts : list pystr) :
  List.forallb encodable texts = true -> shown encodable texts = (texts, None).
Proof.
  induction texts as [| t more IH]; simpl; [reflexivity |].
  destruct (encodable t); [| discriminate]. intro H. now rewrite (IH H).
Qed.

Lemma shown_some (encodable : pystr -> bool) (texts : list pystr) :
  List.forallb encodable texts = false ->
  exists before bad,
    shown encodable texts = (before, Some bad) /\ encodable bad = false.
Proof.
  induction texts as [| t more IH]; simpl; [discriminate |].
  destruct (encodable t) eqn:Ht.
  - intro H. destruct (IH H) as (before & bad & -> & Hbad). eauto.
  - eauto.
Qed.

(** On a terminal a run returns exactly when it returns in itself and
    every text it prints can be encoded; all its texts are then shown. *)
Lemma on_stdout_returns_iff {A : Type} (encodable : pystr -> bool) (m : M A)
      (a : A) :
  (snd (on_stdout encodable m) = Returns a
   <-> snd m = inr a /\ List.forallb encodable (fst m) = true)
  /\ (snd (on_stdout encodable m) = Returns a ->
      fst (on_stdout encodable m) = fst m).
Proof.
  unfold on_stdout.
  destruct (List.forallb encodable (fst m)) eqn:Henc.
  - rewrite (shown_all _ _ Henc). cbn [fst snd].
    destruct (snd m) as [e | a']; split; try split;
      try (intros [H _]); try intro H; try discriminate; try reflexivity.
    + now injection H as ->.
    + now injection H as ->.
  - destruct (shown_some _ _ Henc) as (before & bad & -> & _). cbn [fst snd].
    split; [split |]; try (intros [_ H]); try intro H; discriminate.
Qed.

(** X7. On a terminal, the example of the first record is printed without
    an exception exactly when the record passes [preview_ok] and every line
    of the example can be encoded for the terminal; the lines are then all
    shown.  [preview_ok]: its [conversation] (else its [messages]) is the
    empty string or a list whose first three (two) elements are dicts with
    a string or list as content; else its [chosen] is a string or a list; a
    record with none of the three fields always passes. *)
Theorem preview_returns_iff :
  forall (encodable : pystr -> bool) (d : list (pystr * value)),
    (snd (on_stdout encodable (preview d)) = Returns tt
     <-> preview_ok d = true
         /\ List.forallb encodable (fst (preview d)) = true)
    /\ (snd (on_stdout encodable (preview d)) = Returns tt ->
        fst (on_stdout encodable (preview d)) = fst (preview d)).
Proof.
  intros encodable d.
  destruct (on_stdout_returns_iff encodable (preview d) tt) as [Hiff Hall].
  split; [| exact Hall]. rewrite Hiff. now rewrite preview_runs.
Qed.

(** A lone surrogate in [chosen] passes [preview_ok] and still ends the
    example with [UnicodeEncodeError] on a UTF-8 terminal. *)
Example preview_lone_surrogate :
  preview_ok [(lit "chosen", VStr [55296%N])] = true
  /\ on_stdout utf8_encodable (preview [(lit "chosen", VStr [55296%N])])
     = ([], EncodeFails (lit "  [chosen]: " ++ [55296%N] ++ lit "...")).
Proof. split; reflexivity. Qed.

(** *** How much is printed *)

Lemma conversation_line_length (turn : value) :
  (List.length (fst (conversation_line turn)) <= 1)%nat.
Proof.
  destruct turn as [| | | | | | t]; try (simpl; lia).
  rewrite conversation_line_dict. destruct (py_slice 100 _); simpl; lia.
Qed.

Lemma message_line_length (msg : value) :
  (List.length (fst (message_line msg)) <= 1)%nat.
Proof.
  destruct msg as [| | | | | | t]; try (simpl; lia).
  rewrite message_line_dict. destruct (py_slice 100 _); simpl; lia.
Qed.

Lemma sliced_loop_length (n : nat) (v : value) (body : value -> M unit) :
  (forall x, (List.length (fst (body x)) <= 1)%nat) ->
  (List.length (fst (sliced <- eval (py_slice n v) ;;
                     elems <- eval (py_iter sliced) ;;
                     for_each elems body)) <= n)%nat.
Proof.
  intro Hbody.
  destruct v as [| | | | s | l |]; try (simpl; lia);
    cbn [py_slice]; rewrite bind_eval_ok; cbn [py_iter]; rewrite bind_eval_ok.
  - pose proof (length_for_each body
                  (List.map (fun c => VStr [c]) (List.firstn n s)) Hbody) as H.
    rewrite List.length_map in H.
    pose proof (List.firstn_le_length n s). lia.
  - pose proof (length_for_each body (List.firstn n l) Hbody) as H.
    pose proof (List.firstn_le_length n l). lia.
Qed.

Lemma preview_length (d : list (pystr * value)) :
  (List.length (fst (preview d)) <= 3)%nat.
Proof.
  unfold preview.
  destruct (lookup (lit "conversation") d) as [c |].
  { apply sliced_loop_length, conversation_line_length. }
  destruct (lookup (lit "messages") d) as [m |].
  { pose proof (sliced_loop_length 2 m message_line message_line_length). lia. }
  destruct (lookup (lit "chosen") d) as [ch |]; [| simpl; lia].
  destruct (py_slice 150 ch); simpl; lia.
Qed.

Lemma language_row_length (data : value) (x : entry) :
  (List.length (fst (language_row data x)) <= 1)%nat.
Proof.
  unfold language_row.
  destruct (py_len data) as [e | total]; [simpl; lia |].
  rewrite bind_eval_ok.
  destruct (py_truediv (100 * e_count x) total) as [e | pct]; simpl; lia.
Qed.

Lemma language_stats_length (data : value) :
  (List.length (fst (language_stats data)) <= 6)%nat.
Proof.
  unfold language_stats.
  destruct (py_iter data) as [e | items]; [simpl; lia |]. rewrite bind_eval_ok.
  destruct (res_map _ items) as [e | found]; [simpl; lia |]. rewrite bind_eval_ok.
  destruct (counter _) as [e | c]; [simpl; lia |]. rewrite bind_eval_ok.
  rewrite bind_print. cbn [fst List.length].
  pose proof (length_for_each (language_row data) (most_common 5 c)
                (language_row_length data)) as H.
  unfold most_common in H at 2.
  pose proof (List.firstn_le_length 5 (sort_desc c)). lia.
Qed.

Lemma conversation_stats_length (data : value) :
  (List.length (fst (conversation_stats data)) <= 4)%nat.
Proof.
  unfold conversation_stats.
  destruct (py_iter data) as [e | items]; [simpl; lia |]. rewrite bind_eval_ok.
  destruct (res_map _ items) as [e | lengths]; [simpl; lia |].
  rewrite bind_eval_ok, bind_print. cbn [fst List.length].
  destruct (py_min lengths) as [e | lo]; [simpl; lia |].
  rewrite bind_eval_ok, bind_print. cbn [fst List.length].
  destruct (py_max lengths) as [e | hi]; [simpl; lia |].
  rewrite bind_eval_ok, bind_print. cbn [fst List.length].
  destruct (py_truediv _ _) as [e | avg]; simpl; lia.
Qed.

Lemma summarize_length (data : value) :
  (List.length (fst (summarize data)) <= 16)%nat.
Proof.
  unfold summarize.
  destruct (py_len data) as [e | count]; [simpl; lia |].
  rewrite bind_eval_ok, bind_print. cbn [fst List.length].
  destruct (negb (truthy data)); [simpl; lia |].
  destruct (getitem0 data) as [e | first_item]; [simpl; lia |].
  rewrite bind_eval_ok.
  destruct first_item as [| | | | | | d]; try (simpl; lia).
  rewrite bind_print. cbn [fst List.length].
  assert (Hc : (List.length
                  (fst (if has_key (lit "conversation") d
                        then conversation_stats data else ret tt)) <= 4)%nat).
  { destruct (has_key (lit "conversation") d);
      [apply conversation_stats_length | simpl; lia]. }
  assert (Hl : (List.length
                  (fst (if has_key (lit "language") d
                        then language_stats data else ret tt)) <= 6)%nat).
  { destruct (has_key (lit "language") d);
      [apply language_stats_length | simpl; lia]. }
  apply Nat.le_trans
    with (S (S (List.length
                  (fst (if has_key (lit "conversation") d
                        then conversation_stats data else ret tt)) + 10)));
    [| lia].
  do 2 apply le_n_S. apply length_fst_bind. intros _.
  apply Nat.le_trans
    with (List.length
            (fst (if has_key (lit "language") d
                  then language_stats data else ret tt)) + 4)%nat;
    [| lia].
  apply length_fst_bind. intros _.
  rewrite bind_print. cbn [fst List.length].
  pose proof (preview_length d). lia.
Qed.

Lemma inspect_guarded_length (file : pystr * res value) :
  (List.length (fst (inspect_guarded file)) <= 20)%nat.
Proof.
  unfold inspect_guarded, try_except, inspect_dataset.
  rewrite !bind_print.
  destruct (snd file) as [e | data]; [simpl; lia |].
  rewrite bind_eval_ok. pose proof (summarize_length data) as H.
  destruct (summarize data) as [out [e | []]]; simpl in *;
    rewrite ?List.length_app; simpl; lia.
Qed.

(** X8. The number of [print] calls does not grow with the number of
    records: the example makes at most 3, the summary of a loaded dataset
    at most 16, and a batch at most 7 plus 20 per file.  (A text printed
    by one call may hold several lines, and names and roles are printed
    uncut: it is the calls that are bounded, not the characters.) *)
Theorem print_calls_bounded :
  (forall d : list (pystr * value), (List.length (fst (preview d)) <= 3)%nat)
  /\ (forall data : value, (List.length (fst (summarize data)) <= 16)%nat)
  /\ (forall files : list (pystr * res value),
         (List.length (fst (main files)) <= 7 + 20 * List.length files)%nat).
Proof.
  split; [exact preview_length | split; [exact summarize_length |]].
  intro files. rewrite main_output. cbn [fst].
  rewrite !List.length_app. cbn [banner footer List.length].
  enough (List.length (reports files) <= 20 * List.length files)%nat by lia.
  unfold reports. induction files as [| file rest IH]; simpl; [lia |].
  rewrite List.length_app. pose proof (inspect_guarded_length file). lia.
Qed.

(** *** When the report is printed to the end *)

Lemma snd_bind_print {B : Type} (s : pystr) (f : unit -> M B) :
  snd (bind (print s) f) = snd (f tt).
Proof. now rewrite snd_bind. Qed.

Lemma turn_count_missing (item : value) :
  turn_count item = None ->
  exists e,
    res_bind (py_get item (lit "conversation") (VList [])) py_len = inl e
    /\ ((forall t, item <> VDict t) -> e = NoAttribute item "get")
    /\ (forall t c, item = VDict t ->
                    lookup (lit "conversation") t = Some c -> e = NoLen c).
Proof.
  destruct item as [| | | | | | t];
    try (intros _; eexists; split; [reflexivity |];
         split; [reflexivity | intros t' c H; discriminate H]).
  simpl. destruct (lookup (lit "conversation") t) as [c |] eqn:Hc; [| discriminate].
  destruct c; try discriminate; intros _; eexists; (split; [reflexivity |]);
    (split; [intro H; now destruct (H t) |]);
    intros t' c' Ht Hc'; injection Ht as <-; rewrite Hc in Hc'; now injection Hc' as <-.
Qed.

Lemma turn_counts_run (items : list value) :
  (List.forallb (fun item => match turn_count item with
                             | Some _ => true
                             | None => false
                             end) items = true ->
   res_map (fun item => res_bind (py_get item (lit "conversation") (VList []))
                          py_len) items
   = inr (List.map turn_count_or_zero items))
  /\ (List.forallb (fun item => match turn_count item with
                                | Some _ => true
                                | None => false
                                end) items = false ->
      exists e,
        res_map (fun item => res_bind (py_get item (lit "conversation") (VList []))
                               py_len) items = inl e).
Proof.
  induction items as [| item rest [IHok IHbad]]; simpl.
  - split; [reflexivity | discriminate].
  - unfold turn_count_or_zero at 1.
    destruct (turn_count item) as [n |] eqn:Hn; simpl.
    + rewrite (turn_count_get item n Hn). simpl. split.
      * intro H. rewrite (IHok H). reflexivity.
      * intro H. destruct (IHbad H) as [e ->]. simpl. eauto.
    + destruct (turn_count_missing item Hn) as [e [-> _]].
      split; [discriminate | intros _; simpl; eauto].
Qed.

Lemma turns_total_sum (items : list value) :
  py_sum (List.map turn_count_or_zero items) = turns_total items.
Proof.
  induction items as [| item rest IH]; [reflexivity |].
  simpl List.map. rewrite py_sum_cons, IH. simpl.
  unfold turn_count_or_zero. destruct (turn_count item); lia.
Qed.

Lemma turns_total_nonneg (items : list value) : 0 <= turns_total items.
Proof.
  induction items as [| item rest IH]; simpl; [lia |].
  destruct (turn_count item) as [n |] eqn:Hn; [| exact IH].
  pose proof (turn_count_nonneg item n Hn). lia.
Qed.

(** [a / b] with [a] non-negative and [b] positive raises exactly at the
    overflow threshold. *)
Lemma py_truediv_returns_iff (a b : Z) :
  0 <= a -> 0 < b ->
  (res_bind (py_truediv a b) (fun _ => inr tt) = inr tt
   <-> (a <? (2 ^ 1024 - 2 ^ 970) * b) = true).
Proof.
  intros Ha Hb. unfold py_truediv.
  assert (HT : 0 < 2 ^ 1024 - 2 ^ 970) by (vm_compute; reflexivity).
  destruct (b =? 0) eqn:Hb0; [apply Z.eqb_eq in Hb0; lia |].
  rewrite (Z.abs_eq a), (Z.abs_eq b) by lia.
  generalize dependent (2 ^ 1024 - 2 ^ 970). intros T HT.
  destruct (a =? 0) eqn:Ha0.
  - apply Z.eqb_eq in Ha0. subst a. simpl. split; [| reflexivity].
    intros _. apply Z.ltb_lt. nia.
  - destruct (T * b <=? a) eqn:Hov; simpl.
    + apply Z.leb_le in Hov. split; [discriminate |].
      intro H. apply Z.ltb_lt in H. lia.
    + apply Z.leb_gt in Hov. split; [| reflexivity].
      intros _. now apply Z.ltb_lt.
Qed.

Lemma conversation_stats_returns_iff (items : list value) :
  items <> [] ->
  (snd (conversation_stats (VList items)) = inr tt <-> stats_ok items = true).
Proof.
  intro Hne. unfold conversation_stats, stats_ok.
  cbn [py_iter]. rewrite bind_eval_ok.
  destruct (turn_counts_run items) as [Hok Hbad].
  destruct (List.forallb _ items) eqn:Hall.
  - rewrite (Hok eq_refl), bind_eval_ok, snd_bind_print.
    destruct items as [| item rest]; [congruence |].
    cbn [List.map py_min py_max]. rewrite bind_eval_ok, snd_bind_print.
    rewrite bind_eval_ok, snd_bind_print, snd_bind.
    change (turn_count_or_zero item :: List.map turn_count_or_zero rest)
      with (List.map turn_count_or_zero (item :: rest)).
    rewrite turns_total_sum, List.length_map. cbn [eval snd andb].
    apply py_truediv_returns_iff.
    + apply turns_total_nonneg.
    + simpl List.length. lia.
  - destruct (Hbad eq_refl) as [e ->]. simpl. split; discriminate.
Qed.

Lemma language_values_run (items : list value) :
  (List.forallb is_dict items = true ->
   res_map (fun item => py_get item (lit "language") VNone) items
   = inr (List.map language_value items))
  /\ (List.forallb is_dict items = false ->
      exists e,
        res_map (fun item => py_get item (lit "language") VNone) items = inl e).
Proof.
  induction items as [| item rest [IHok IHbad]]; simpl.
  - split; [reflexivity | discriminate].
  - destruct item as [| | | | | | t]; simpl; try (split; [discriminate | eauto]).
    split.
    + intro H. rewrite (IHok H). reflexivity.
    + intro H. destruct (IHbad H) as [e ->]. simpl. eauto.
Qed.

Lemma hash_keys_run (langs : list value) :
  (List.forallb hashable langs = true ->
   exists ks, Forall2 (fun v k => hash_key v = inr k) langs ks)
  /\ (List.forallb hashable langs = false ->
      exists e, counter langs = inl e).
Proof.
  induction langs as [| v rest [IHok IHbad]]; simpl.
  - split; [exists []; constructor | discriminate].
  - assert (Hv : (hashable v = true /\ exists k, hash_key v = inr k)
                 \/ (hashable v = false /\ hash_key v = inl (Unhashable v))).
    { destruct v as [| | | [| | |] | | |]; simpl; eauto. }
    destruct Hv as [[-> [k Hk]] | [-> Hv]]; simpl.
    + split.
      * intro H. destruct (IHok H) as [ks Hks]. exists (k :: ks). now constructor.
      * intro H. destruct (IHbad H) as [e He]. unfold counter in *. simpl.
        rewrite Hk. simpl.
        destruct (res_map _ rest) as [e' | kvs]; [eauto | discriminate].
    + split; [discriminate |]. intros _. unfold counter. simpl.
      rewrite Hv. simpl. eauto.
Qed.

Lemma language_ok_split (items : list value) :
  List.forallb language_ok items
  = List.forallb is_dict items
    && List.forallb hashable (List.filter truthy (List.map language_value items)).
Proof.
  induction items as [| item rest IH]; [reflexivity |].
  cbn [List.forallb List.map List.filter]. rewrite IH.
  destruct item as [| | | | | | t]; try reflexivity.
  cbn [language_ok is_dict language_value andb].
  destruct (lookup (lit "language") t) as [v |]; [| reflexivity].
  destruct (truthy v); cbn [negb orb List.forallb]; [| reflexivity].
  destruct (hashable v), (List.forallb is_dict rest); reflexivity.
Qed.

Lemma forall2_map_l {A B : Type} (f : A -> res B) (g : A -> B) (l : list A) :
  (forall x, In x l -> f x = inr (g x)) ->
  Forall2 (fun x y => f x = inr y) l (List.map g l).
Proof.
  induction l as [| x r IH]; simpl; intro H; constructor.
  - apply H. now left.
  - apply IH. intros y Hy. apply H. now right.
Qed.

Lemma language_stats_returns_iff (items : list value) :
  items <> [] ->
  (snd (language_stats (VList items)) = inr tt
   <-> List.forallb language_ok items = true).
Proof.
  intro Hne. rewrite language_ok_split.
  destruct (language_values_run items) as [Hok Hbad].
  destruct (List.forallb is_dict items) eqn:Hdicts.
  - destruct (hash_keys_run (List.filter truthy (List.map language_value items)))
      as [Hkeys Hnokeys].
    destruct (List.forallb hashable _) eqn:Hhash.
    + destruct (Hkeys eq_refl) as [ks Hks].
      assert (Hfound : Forall2 (fun item v =>
                                  py_get item (lit "language") VNone = inr v)
                         items (List.map language_value items)).
      { apply forall2_map_l. intros x Hx.
        rewrite List.forallb_forall in Hdicts. specialize (Hdicts x Hx).
        destruct x; try discriminate. reflexivity. }
      destruct (language_stats_ok items _ ks Hne Hfound Hks) as [-> _].
      now split.
    + destruct (Hnokeys eq_refl) as [e He].
      unfold language_stats. cbn [py_iter]. rewrite bind_eval_ok.
      rewrite (Hok eq_refl), bind_eval_ok, He. simpl. split; discriminate.
  - destruct (Hbad eq_refl) as [e He].
    unfold language_stats. cbn [py_iter]. rewrite bind_eval_ok, He.
    simpl. split; discriminate.
Qed.

Lemma summarize_runs (data : value) :
  snd (summarize data) = inr tt <-> dataset_ok data = true.
Proof.
  unfold summarize.
  destruct data as [| | | | s | l | d];
    try (simpl; split; discriminate).
  - destruct s; simpl; split; (reflexivity || discriminate).
  - destruct l as [| first rest]; [simpl; now split |].
    cbn [py_len]. rewrite bind_eval_ok, snd_bind_print.
    cbn [truthy negb getitem0]. rewrite bind_eval_ok.
    destruct first as [| | | | | | d]; try (simpl; split; discriminate).
    rewrite snd_bind_print, snd_bind, res_bind_unit_iff.
    rewrite snd_bind, res_bind_unit_iff, snd_bind_print.
    cbn [dataset_ok]. rewrite !andb_true_iff, <- and_assoc.
    rewrite (preview_runs d).
    assert (Hne : VDict d :: rest <> []) by discriminate.
    destruct (has_key (lit "conversation") d), (has_key (lit "language") d);
      rewrite ?(conversation_stats_returns_iff _ Hne),
        ?(language_stats_returns_iff _ Hne);
      cbn [ret snd]; tauto.
  - destruct d; simpl; split; (reflexivity || discriminate).
Qed.

(** X9. On a terminal, [summarize] runs to its end without an exception
    exactly on the documents that pass [dataset_ok] and whose report can be
    encoded for the terminal, line by line; the whole report is then
    shown.  [dataset_ok]: the empty list, dict and string, and the lists
    whose first record is a dict, where (a) if that record has a
    [conversation], every record is a dict whose [conversation], if any,
    has a length, (b) if it has a [language], every record is a dict whose
    truthy [language], if any, is hashable, and (c) its example passes
    [preview_ok].  Every other document ends in an exception. *)
Theorem summarize_returns_iff :
  forall (encodable : pystr -> bool) (data : value),
    (snd (on_stdout encodable (summarize data)) = Returns tt
     <-> dataset_ok data = true
         /\ List.forallb encodable (fst (summarize data)) = true)
    /\ (snd (on_stdout encodable (summarize data)) = Returns tt ->
        fst (on_stdout encodable (summarize data)) = fst (summarize data))
    /\ (dataset_ok data = false ->
        exists e, snd (summarize data) = inl e).
Proof.
  intros encodable data.
  destruct (on_stdout_returns_iff encodable (summarize data) tt) as [Hiff Hall].
  split; [| split; [exact Hall |]].
  - rewrite Hiff. now rewrite summarize_runs.
  - intro Hbad. pose proof (summarize_runs data) as Hruns.
    destruct (snd (summarize data)) as [e | []]; [eauto |].
    rewrite (proj1 Hruns eq_refl) in Hbad. discriminate.
Qed.

(** *** Where the report stops *)

Lemma res_map_first_failure {A B : Type} (f : A -> res B) (good : list A)
      (bad : A) (more : list A) (e : exn) :
  Forall (fun x => exists y, f x = inr y) good ->
  f bad = inl e ->
  res_map f (good ++ bad :: more) = inl e.
Proof.
  intros Hgood Hbad. induction Hgood as [| x r [y Hy] _ IH]; simpl.
  - now rewrite Hbad.
  - now rewrite Hy, IH.
Qed.

(** X10. When the first record has a [conversation], the first record, in
    file order, that is not a dict or whose [conversation] has no length
    (null, a number, a boolean) stops the report: only the count and the
    field list have been printed, no statistics line, and the exception is
    the [AttributeError] or [TypeError] of that record. *)
Theorem statistics_stop_at_first_bad_record :
  forall (first : list (pystr * value)) (rest good more : list value)
         (bad : value),
    has_key (lit "conversation") first = true ->
    VDict first :: rest = good ++ bad :: more ->
    Forall (fun item => turn_count item <> None) good ->
    turn_count bad = None ->
    exists e : exn,
      summarize (VList (VDict first :: rest))
      = ([lit "Total items: " ++ fmt_comma (Z.of_nat (S (List.length rest)));
          nl ++ lit "Fields: " ++ repr_keys first], inl e)
      /\ ((forall t, bad <> VDict t) -> e = NoAttribute bad "get")
      /\ (forall t c, bad = VDict t ->
                      lookup (lit "conversation") t = Some c -> e = NoLen c).
Proof.
  intros first rest good more bad Hhas Hsplit Hgood Hbad.
  destruct (turn_count_missing bad Hbad) as (e & He & Hnodict & Hnolen).
  exists e. split; [| split; assumption].
  assert (Hstats : conversation_stats (VList (VDict first :: rest)) = ([], inl e)).
  { unfold conversation_stats. cbn [py_iter]. rewrite bind_eval_ok, Hsplit.
    rewrite (res_map_first_failure _ good bad more e); [reflexivity | | exact He].
    eapply Forall_impl; [| exact Hgood]. intros item Hitem.
    destruct (turn_count item) as [n |] eqn:Hn; [| congruence].
    exists n. now apply turn_count_get. }
  unfold summarize. cbn [py_len truthy negb getitem0 List.length].
  rewrite bind_eval_ok. apply print_then. rewrite bind_eval_ok. apply print_then.
  rewrite Hhas, Hstats. reflexivity.
Qed.

(** X11. When the first record has a [language] and every record is a dict,
    the first truthy [language] value that is a list or a dict stops the
    report with the [TypeError] of that value, before the heading of the
    language table is printed. *)
Theorem language_table_stops_at_unhashable :
  forall (first : list (pystr * value)) (rest : list value)
         (earlier : list pystr) (counted more : list value) (v : value),
    has_key (lit "language") first = true ->
    (if has_key (lit "conversation") first
     then conversation_stats (VList (VDict first :: rest))
     else ret tt) = (earlier, inr tt) ->
    List.forallb is_dict (VDict first :: rest) = true ->
    List.filter truthy (List.map language_value (VDict first :: rest))
    = counted ++ v :: more ->
    List.forallb hashable counted = true ->
    hashable v = false ->
    summarize (VList (VDict first :: rest))
    = ([lit "Total items: " ++ fmt_comma (Z.of_nat (S (List.length rest)));
        nl ++ lit "Fields: " ++ repr_keys first] ++ earlier,
       inl (Unhashable v)).
Proof.
  intros first rest earlier counted more v Hhas Hearlier Hdicts Hsplit Hcounted Hv.
  assert (Hstats : language_stats (VList (VDict first :: rest))
                   = ([], inl (Unhashable v))).
  { unfold language_stats. cbn [py_iter]. rewrite bind_eval_ok.
    rewrite (proj1 (language_values_run _) Hdicts), bind_eval_ok, Hsplit.
    unfold counter.
    rewrite (res_map_first_failure _ counted v more (Unhashable v));
      [reflexivity | |].
    - apply Forall_forall. intros x Hx.
      rewrite List.forallb_forall in Hcounted. specialize (Hcounted x Hx).
      destruct x as [| | | [| | |] | | |]; try discriminate; simpl; eauto.
    - destruct v; try discriminate; reflexivity. }
  unfold summarize. cbn [py_len truthy negb getitem0 List.length].
  rewrite bind_eval_ok. cbn [app]. apply print_then.
  rewrite bind_eval_ok. apply print_then.
  rewrite (bind_ok _ _ _ _ Hearlier), Hhas, Hstats.
  cbn [bind fst snd]. now rewrite List.app_nil_r.
Qed.

Lemma summarize_first_dict (first : list (pystr * value)) (rest : list value) :
  summarize (VList (VDict first :: rest))
  = ((lit "Total items: " ++ fmt_comma (Z.of_nat (S (List.length rest))))
       :: (nl ++ lit "Fields: " ++ repr_keys first)
       :: fst ((if has_key (lit "conversation") first
                then conversation_stats (VList (VDict first :: rest))
                else ret tt) ;;
               (if has_key (lit "language") first
                then language_stats (VList (VDict first :: rest))
                else ret tt) ;;
               print (nl ++ [128221%N] ++ lit " Example conversation:") ;;
               preview first),
     snd ((if has_key (lit "conversation") first
           then conversation_stats (VList (VDict first :: rest))
           else ret tt) ;;
          (if has_key (lit "language") first
           then language_stats (VList (VDict first :: rest))
           else ret tt) ;;
          print (nl ++ [128221%N] ++ lit " Example conversation:") ;;
          preview first)).
Proof.
  unfold summarize. cbn [py_len truthy negb getitem0 List.length].
  rewrite bind_eval_ok. apply print_then.
  rewrite bind_eval_ok. apply print_then.
  now destruct (bind _ _).
Qed.

(** X12. When the first record has neither a [conversation] nor a
    [language], the records after it are not looked at: with the same
    number of records the report is the same, whatever the other records
    are, malformed ones included. *)
Theorem later_records_ignored :
  forall (first : list (pystr * value)) (rest rest' : list value),
    has_key (lit "conversation") first = false ->
    has_key (lit "language") first = false ->
    List.length rest = List.length rest' ->
    summarize (VList (VDict first :: rest))
    = summarize (VList (VDict first :: rest')).
Proof.
  intros first rest rest' Hconv Hlang Hlen.
  rewrite !summarize_first_dict, Hconv, Hlang, Hlen. reflexivity.
Qed.

(** *** The counts of the table *)








End Extras.

(** *** The properties on sample data *)

Lemma statistics_stop_at_first_bad_record_witness :
  exists e : exn,
    summarize (I := sample_interp)
      (VList (VDict [(lit "conversation", VList (List.repeat sample_turn 2))]
                :: [null_conversation_record; chat_record 3]))
    = ([lit "Total items: "
          ++ fmt_comma
               (Z.of_nat (S (List.length [null_conversation_record; chat_record 3])));
        nl ++ lit "Fields: "
          ++ repr_keys (I := sample_interp)
               [(lit "conversation", VList (List.repeat sample_turn 2))]],
       inl e)
    /\ ((forall t, null_conversation_record <> VDict t) ->
        e = NoAttribute null_conversation_record "get")
    /\ (forall t c, null_conversation_record = VDict t ->
                    lookup (lit "conversation") t = Some c -> e = NoLen c).
Proof.
  apply (statistics_stop_at_first_bad_record (I := sample_interp)
           [(lit "conversation", VList (List.repeat sample_turn 2))]
           [null_conversation_record; chat_record 3]
           [chat_record 2] [chat_record 3] null_conversation_record).
  - reflexivity.
  - reflexivity.
  - repeat constructor. discriminate.
  - reflexivity.
Defined.

Lemma language_table_stops_at_unhashable_witness :
  summarize (I := sample_interp)
    (VList (VDict [(lit "language", VStr (lit "en"))]
              :: [list_language_record; language_record "fr"]))
  = ([lit "Total items: "
        ++ fmt_comma
             (Z.of_nat (S (List.length [list_language_record; language_record "fr"])));
      nl ++ lit "Fields: "
        ++ repr_keys (I := sample_interp) [(lit "language", VStr (lit "en"))]]
       ++ [],
     inl (Unhashable (VList [VStr (lit "en"); VStr (lit "fr")]))).
Proof.
  apply (language_table_stops_at_unhashable (I := sample_interp)
           [(lit "language", VStr (lit "en"))]
           [list_language_record; language_record "fr"]
           [] [VStr (lit "en")] [VStr (lit "fr")]
           (VList [VStr (lit "en"); VStr (lit "fr")])).
  - reflexivity.
  - reflexivity.
  - reflexivity.
  - reflexivity.
  - reflexivity.
  - reflexivity.
Defined.

Lemma later_records_ignored_witness :
  summarize (I := sample_interp) (VList (VDict id_record :: [VInt 1; VNone]))
  = summarize (I := sample_interp)
      (VList (VDict id_record :: [chat_record 1; list_language_record])).
Proof.
  apply (later_records_ignored (I := sample_interp) id_record
           [VInt 1; VNone] [chat_record 1; list_language_record]).
  - reflexivity.
  - reflexivity.
  - reflexivity.
Defined.


End InspectorExtras.

(** * Properties of the download scripts *)

Module DownloaderFacts.
Import Normalizer Downloader.
Local Open Scope trace_scope.

(** *** The sampling loop *)

Lemma take_rows_spec (rest : list row) :
  forall (i : Z) (ending : option failure) (sample : list pyobj),
    0 <= i <= 10000 ->
    take_rows i rest ending sample
    = if (Z.to_nat (10000 - i) <? List.length rest)%nat
      then (10001,
            inr (sample ++ List.map normalized
                             (List.firstn (Z.to_nat (10000 - i)) rest)))
      else (i + Z.of_nat (List.length rest),
            match ending with
            | Some e => inl e
            | None => inr (sample ++ List.map normalized rest)
            end).
Proof.
  induction rest as [| item more IH]; intros i ending sample Hi.
  - simpl. rewrite Z.add_0_r, List.app_nil_r. reflexivity.
  - cbn [take_rows].
    destruct (10000 <=? i) eqn:Hfull.
    + apply Z.leb_le in Hfull. assert (i = 10000) by lia. subst i.
      simpl. now rewrite List.app_nil_r.
    + apply Z.leb_gt in Hfull. rewrite IH by lia.
      replace (Z.to_nat (10000 - i)) with (S (Z.to_nat (10000 - (i + 1)))) by lia.
      set (k := Z.to_nat (10000 - (i + 1))).
      cbn [List.length List.firstn List.map].
      change (S k <? S (List.length more))%nat with (k <? List.length more)%nat.
      rewrite <- !List.app_assoc. cbn [app].
      replace (i + 1 + Z.of_nat (List.length more))
        with (i + Z.of_nat (S (List.length more))) by lia.
      reflexivity.
Qed.

Lemma sample_stream_returns (s : stream) :
  forall sample,
    sample_stream s = inr sample ->
    sample = List.map normalized (List.firstn (Z.to_nat 10000) (rows s)).
Proof.
  intro sample. unfold sample_stream.
  rewrite (take_rows_spec (rows s) 0 (ending s) [] ltac:(lia)).
  change (10000 - 0) with 10000. cbn [app].
  generalize (Z.to_nat 10000); intro n.
  destruct (n <? List.length (rows s))%nat eqn:Hlong; cbn [snd].
  - intro H. now injection H as <-.
  - apply Nat.ltb_ge in Hlong. destruct (ending s); [discriminate |].
    intro H. injection H as <-. now rewrite List.firstn_all2 by exact Hlong.
Qed.

(** X14. The sampling loop returns the normalized first 10000 rows of the
    stream, in order; it asks the stream for at most 10001 rows.  An
    exception of the stream is raised only when it comes within the first
    10001 requests: a stream that yields more than 10000 rows and then
    fails gives the sample all the same. *)
Theorem sample_stream_first_rows :
  forall s : stream,
    (fst (take_rows 0 (rows s) (ending s) []) <= 10001)
    /\ (forall sample,
           sample_stream s = inr sample ->
           sample = List.map normalized (List.firstn (Z.to_nat 10000) (rows s))
           /\ (List.length sample <= Z.to_nat 10000)%nat)
    /\ ((Z.to_nat 10000 < List.length (rows s))%nat ->
        sample_stream s
        = inr (List.map normalized (List.firstn (Z.to_nat 10000) (rows s))))
    /\ ((List.length (rows s) <= Z.to_nat 10000)%nat ->
        sample_stream s
        = match ending s with
          | Some e => inl e
          | None => inr (List.map normalized (rows s))
          end).
Proof.
  intro s. unfold sample_stream.
  rewrite (take_rows_spec (rows s) 0 (ending s) [] ltac:(lia)).
  change (10000 - 0) with 10000. cbn [app].
  pose proof (Z2Nat.id 10000 ltac:(lia)) as Hn. revert Hn.
  generalize (Z.to_nat 10000); intros n Hn.
  destruct (n <? List.length (rows s))%nat eqn:Hlong.
  - apply Nat.ltb_lt in Hlong. cbn [fst snd].
    split; [lia | split; [| split]].
    + intros sample H. injection H as <-. split; [reflexivity |].
      rewrite List.length_map. apply List.firstn_le_length.
    + reflexivity.
    + lia.
  - apply Nat.ltb_ge in Hlong. cbn [fst snd].
    split; [lia | split; [| split]].
    + intros sample H. destruct (ending s); [discriminate |].
      injection H as <-.
      rewrite List.firstn_all2 by exact Hlong.
      split; [reflexivity |]. now rewrite List.length_map.
    + lia.
    + reflexivity.
Qed.

(** *** Traces *)

Lemma dumps_app (tr tr' : list event) :
  dumps (tr ++ tr') = dumps tr ++ dumps tr'.
Proof.
  induction tr as [| [s | name data] tr IH]; simpl; [reflexivity | exact IH |].
  now rewrite IH.
Qed.

Lemma prints_app (tr tr' : list event) :
  prints (tr ++ tr') = prints tr ++ prints tr'.
Proof.
  induction tr as [| [s | name data] tr IH]; simpl; [reflexivity | | exact IH].
  now rewrite IH.
Qed.

Lemma fst_t_bind {A B : Type} (m : T A) (f : A -> T B) :
  fst (t_bind m f)
  = fst m ++ match snd m with
             | inl _ => []
             | inr a => fst (f a)
             end.
Proof.
  destruct m as [tr [e | a]]; simpl.
  - now rewrite List.app_nil_r.
  - now destruct (f a).
Qed.

Lemma snd_t_bind {A B : Type} (m : T A) (f : A -> T B) :
  snd (t_bind m f)
  = match snd m with
    | inl e => inl e
    | inr a => snd (f a)
    end.
Proof.
  destruct m as [tr [e | a]]; simpl; [reflexivity |]. now destruct (f a).
Qed.

Lemma select_sample_firstn (dataset : list row) :
  select_sample dataset = List.firstn (Z.to_nat 10000) dataset.
Proof.
  unfold select_sample.
  destruct (Z.le_gt_cases 10000 (Z.of_nat (List.length dataset))) as [H | H].
  - now rewrite Z.min_l by exact H.
  - rewrite Z.min_r by lia. rewrite Nat2Z.id.
    rewrite List.firstn_all. symmetry. apply List.firstn_all2. lia.
Qed.

Section Script.
Variable E : env.

(** *** The three sections *)

Lemma wildchat_section_run :
  snd (wildchat_section E) = inr tt
  /\ dumps (fst (wildchat_section E))
     = written (lit "wildchat_10k_sample.json") (wildchat_data E)
  /\ reports_outcome (wildchat_section E)
       (nl ++ lit "[1/3] Downloading WildChat (fixed)...")
       (outcome E (lit "wildchat_10k_sample.json") (wildchat_data E))
       (wildchat_success E (wildchat_data E)).
Proof.
  unfold reports_outcome, section_report, wildchat_success.
  unfold wildchat_section, wildchat_data, outcome, written.
  destruct (wildchat E) as [e | s].
  - repeat split; reflexivity.
  - cbv beta iota delta [t_bind t_eval t_try t_print dump report_error].
    destruct (sample_stream s) as [e | sample].
    + repeat split; reflexivity.
    + destruct (write_outcome E (lit "wildchat_10k_sample.json") sample)
        as [e |] eqn:Hw.
      * repeat split; reflexivity.
      * destruct sample as [| first more]; [repeat split; reflexivity |].
        destruct first; repeat split; reflexivity.
Qed.

Lemma oasst_section_run :
  snd (oasst_section E) = inr tt
  /\ dumps (fst (oasst_section E))
     = written (lit "openassistant_conversations.json") (oasst_data E)
  /\ reports_outcome (oasst_section E)
       (nl ++ lit "[2/3] Downloading OpenAssistant Conversations...")
       (outcome E (lit "openassistant_conversations.json") (oasst_data E))
       (oasst_success E).
Proof.
  unfold reports_outcome, section_report, oasst_success.
  unfold oasst_section, oasst_data, outcome, written.
  destruct (oasst E) as [e | dataset].
  - repeat split; reflexivity.
  - cbv beta iota delta [t_bind t_eval t_try t_print dump report_error].
    change (List.map (fun item => serialize_item (ODict item)) dataset)
      with (List.map normalized dataset).
    destruct (write_outcome E (lit "openassistant_conversations.json")
                (List.map normalized dataset)) as [e |];
      repeat split; reflexivity.
Qed.

Lemma hhrlhf_section_run :
  snd (hhrlhf_section E) = inr tt
  /\ dumps (fst (hhrlhf_section E))
     = written (lit "anthropic_hh_rlhf_10k_sample.json") (hhrlhf_data E)
  /\ reports_outcome (hhrlhf_section E)
       (nl ++ lit "[3/3] Downloading Anthropic HH-RLHF...")
       (outcome E (lit "anthropic_hh_rlhf_10k_sample.json") (hhrlhf_data E))
       (hhrlhf_success E).
Proof.
  unfold reports_outcome, section_report, hhrlhf_success.
  unfold hhrlhf_section, hhrlhf_data, outcome, written.
  destruct (hhrlhf E) as [e | dataset].
  - repeat split; reflexivity.
  - cbv beta iota delta [t_bind t_eval t_try t_print dump report_error].
    change (List.map (fun item => serialize_item (ODict item))
              (select_sample dataset))
      with (List.map normalized (select_sample dataset)).
    rewrite select_sample_firstn.
    destruct (write_outcome E (lit "anthropic_hh_rlhf_10k_sample.json")
                (List.map normalized (List.firstn (Z.to_nat 10000) dataset)))
      as [e |]; repeat split; reflexivity.
Qed.

Lemma normalized_keys (item : row) :
  exists entries, normalized item = ODict entries
                  /\ List.map fst entries = List.map fst item.
Proof.
  unfold normalized. cbn [serialize_item]. eexists. split; [reflexivity |].
  rewrite List.map_map. apply List.map_ext. now intros [k v].
Qed.

(** After a successful WildChat section the field list is that of the
    first row of the stream. *)
Lemma wildchat_example_fields (s : stream) (item : row) (more : list row) :
  wildchat E = inr s ->
  rows s = item :: more ->
  outcome E (lit "wildchat_10k_sample.json") (wildchat_data E) = None ->
  In (lit "  Example fields: " ++ keys_text E (List.map fst item))
    (prints (fst (wildchat_section E))).
Proof.
  intros Hs Hrows Hout.
  destruct wildchat_section_run as (_ & _ & _ & -> & _).
  unfold section_report. rewrite Hout.
  unfold wildchat_success, outcome, wildchat_data in *. rewrite Hs in *.
  pose proof (sample_stream_returns s) as Hshape.
  destruct (sample_stream s) as [e | sample]; [discriminate |].
  rewrite (Hshape sample eq_refl), Hrows.
  replace (Z.to_nat 10000) with (S (Z.to_nat 9999)) by lia.
  cbn [List.firstn List.map].
  destruct (normalized_keys item) as (entries & -> & ->).
  right. apply List.in_app_iff. right. now left.
Qed.

(** *** The final summary *)

Lemma size_mb_returns_iff (st_size : Z) :
  (exists mb, size_mb st_size = inr mb) <-> Z.abs st_size < size_limit.
Proof.
  unfold size_mb, Inspector.py_truediv, size_limit.
  change (1024 * 1024 =? 0) with false. cbv iota.
  change (Z.abs (1024 * 1024)) with (1024 * 1024).
  set (big := 2 ^ 1024 - 2 ^ 970).
  assert (Hbig : 0 < big) by reflexivity.
  destruct (st_size =? 0) eqn:Hz.
  - apply Z.eqb_eq in Hz. subst st_size. split; [| eauto].
    intros _. simpl Z.abs. lia.
  - destruct (big * (1024 * 1024) <=? Z.abs st_size) eqn:Hle.
    + apply Z.leb_le in Hle. split; [intros [mb H]; discriminate | lia].
    + apply Z.leb_gt in Hle. split; [intros _; exact Hle | eauto].
Qed.

Lemma list_files_dumps (files : list (pystr * (failure + Z))) :
  forall total, dumps (fst (list_files files total)) = [].
Proof.
  induction files as [| [name [e | st_size]] more IH]; intro total;
    [reflexivity | reflexivity |].
  cbn [list_files]. rewrite fst_t_bind. unfold t_eval at 1 2. cbn [fst snd app].
  rewrite fst_t_bind. unfold t_eval at 1 2. cbn [fst snd app].
  destruct (size_mb st_size) as [e | mb]; [reflexivity |].
  rewrite fst_t_bind. cbn [t_print fst snd app dumps]. apply IH.
Qed.

Lemma list_files_outcome (files : list (pystr * (failure + Z))) :
  forall total,
    match snd (list_files files total) with
    | inl e => first_failure files = Some e
    | inr _ => first_failure files = None
    end.
Proof.
  induction files as [| [name [e | st_size]] more IH]; intro total;
    [reflexivity | reflexivity |].
  cbn [list_files first_failure]. rewrite snd_t_bind.
  unfold t_eval at 1. cbn [snd]. rewrite snd_t_bind.
  unfold t_eval at 1. cbn [snd].
  destruct (size_mb st_size) as [e | mb]; [reflexivity |].
  rewrite snd_t_bind. cbn [t_print snd]. apply IH.
Qed.

Lemma final_summary_dumps : dumps (fst (final_summary E)) = [].
Proof.
  unfold final_summary. cbn [t_bind t_print].
  destruct (absolute_text E) as [e | location]; [reflexivity |].
  cbn [t_eval t_bind t_print].
  destruct (listing E) as [e | files]; [reflexivity |].
  cbn [t_eval t_bind t_print].
  destruct (list_files files (S754_zero false)) as [tr [e | total]] eqn:Hl;
    pose proof (list_files_dumps files (S754_zero false)) as Hd;
    rewrite Hl in Hd; cbn [fst] in Hd; cbn [t_bind t_print fst app dumps].
  - exact Hd.
  - change (dumps (tr ++ [Print (nl ++ lit "Total size: "
                                   ++ fmt_fixed 2 total ++ lit " MB");
                          Print (nl ++ check_mark
                                   ++ lit " All downloads complete!")]) = []).
    rewrite dumps_app, Hd. reflexivity.
Qed.

Lemma final_summary_outcome :
  snd (final_summary E)
  = match summary_failure E with
    | Some e => inl e
    | None => inr tt
    end.
Proof.
  unfold final_summary, summary_failure. cbn [t_bind t_print].
  destruct (absolute_text E) as [e | location]; [reflexivity |].
  cbn [t_eval t_bind t_print].
  destruct (listing E) as [e | files]; [reflexivity |].
  cbn [t_eval t_bind t_print].
  pose proof (list_files_outcome files (S754_zero false)) as Hl.
  destruct (list_files files (S754_zero false)) as [tr [e | total]];
    cbn [snd] in Hl; cbn [t_bind t_print fst snd app]; now rewrite Hl.
Qed.

Lemma final_summary_last_line :
  snd (final_summary E) = inr tt ->
  exists before,
    prints (fst (final_summary E))
    = before ++ [nl ++ check_mark ++ lit " All downloads complete!"].
Proof.
  unfold final_summary. cbn [t_bind t_print].
  destruct (absolute_text E) as [e | location]; [discriminate |].
  cbn [t_eval t_bind t_print].
  destruct (listing E) as [e | files]; [discriminate |].
  cbn [t_eval t_bind t_print].
  destruct (list_files files (S754_zero false)) as [tr [e | total]];
    cbn [t_bind t_print fst snd app]; [discriminate |].
  intros _. rewrite !prints_app. cbn [prints].
  exists ([nl ++ rule] ++ [lit "Final Summary - All Downloaded Datasets"]
            ++ [rule] ++ [lit "Location: " ++ location]
            ++ [nl ++ lit "Files:"] ++ prints tr
            ++ [nl ++ lit "Total size: " ++ fmt_fixed 2 total ++ lit " MB"]).
  rewrite <- !List.app_assoc. reflexivity.
Qed.

Lemma download_final_trace :
  fst (download_final E)
  = [Print rule; Print (lit "Downloading More AI Conversation Datasets");
     Print rule]
      ++ fst (wildchat_section E) ++ fst (oasst_section E)
      ++ fst (hhrlhf_section E) ++ fst (final_summary E)
  /\ snd (download_final E) = snd (final_summary E).
Proof.
  destruct wildchat_section_run as [Hw _].
  destruct oasst_section_run as [Ho _].
  destruct hhrlhf_section_run as [Hh _].
  unfold download_final. cbn [t_bind t_print].
  destruct (wildchat_section E) as [tw rw]. cbn [snd] in Hw. subst rw.
  destruct (oasst_section E) as [to ro]. cbn [snd] in Ho. subst ro.
  destruct (hhrlhf_section E) as [th rh]. cbn [snd] in Hh. subst rh.
  destruct (final_summary E) as [tf rf].
  cbn [t_bind fst snd app]. split; reflexivity.
Qed.

End Script.

(** X15. What the script writes: at most three files, in the order
    WildChat, OpenAssistant, HH-RLHF; each holds the normalized rows of its
    dataset (all rows for OpenAssistant, the first 10000 for the other
    two).  A section whose load or stream fails writes nothing, and neither
    a failure nor the final summary changes what the other sections
    write. *)
Theorem download_final_writes :
  forall E : env,
    dumps (fst (download_final E))
    = written (lit "wildchat_10k_sample.json") (wildchat_data E)
        ++ written (lit "openassistant_conversations.json") (oasst_data E)
        ++ written (lit "anthropic_hh_rlhf_10k_sample.json") (hhrlhf_data E).
Proof.
  intro E.
  destruct (download_final_trace E) as [-> _].
  rewrite !dumps_app. rewrite final_summary_dumps.
  destruct (wildchat_section_run E) as (_ & -> & _).
  destruct (oasst_section_run E) as (_ & -> & _).
  destruct (hhrlhf_section_run E) as (_ & -> & _).
  cbn [dumps app]. now rewrite List.app_nil_r.
Qed.

(** X16. Printing apart, no section raises, whatever the hub, the stream
    or the file system do.  A section prints its heading and then either
    one line, the cross mark with the message of its first exception (load,
    stream or write), or its success lines, the check-mark line first: one
    line starts with the cross mark and none with the check mark, or the
    other way round, so success and error are never reported together.
    After a successful WildChat section the field list shown is that of the
    first row of the stream. *)
Theorem sections_report_one_outcome :
  forall E : env,
    reports_outcome (wildchat_section E)
      (nl ++ lit "[1/3] Downloading WildChat (fixed)...")
      (outcome E (lit "wildchat_10k_sample.json") (wildchat_data E))
      (wildchat_success E (wildchat_data E))
    /\ reports_outcome (oasst_section E)
         (nl ++ lit "[2/3] Downloading OpenAssistant Conversations...")
         (outcome E (lit "openassistant_conversations.json") (oasst_data E))
         (oasst_success E)
    /\ reports_outcome (hhrlhf_section E)
         (nl ++ lit "[3/3] Downloading Anthropic HH-RLHF...")
         (outcome E (lit "anthropic_hh_rlhf_10k_sample.json") (hhrlhf_data E))
         (hhrlhf_success E)
    /\ (forall (s : stream) (item : row) (more : list row),
           wildchat E = inr s ->
           rows s = item :: more ->
           outcome E (lit "wildchat_10k_sample.json") (wildchat_data E) = None ->
           In (lit "  Example fields: " ++ keys_text E (List.map fst item))
             (prints (fst (wildchat_section E)))).
Proof.
  intro E.
  destruct (wildchat_section_run E) as (_ & _ & Hw).
  destruct (oasst_section_run E) as (_ & _ & Ho).
  destruct (hhrlhf_section_run E) as (_ & _ & Hh).
  split; [exact Hw | split; [exact Ho | split; [exact Hh |]]].
  apply wildchat_example_fields.
Qed.

(** X17. From its first [print] on (lines 25-101), and printing apart,
    only the final listing can end the script with an exception: the
    script raises the exception of [output_dir.absolute()], else that of
    the listing of the directory, else that of the first file, in sorted
    order, whose [stat()] fails or whose size does not divide into a float,
    and otherwise it ends normally, whatever the loads, the stream and the
    writes did.  When it ends normally its last line is the completion
    message. *)
Theorem download_final_outcome :
  forall E : env,
    snd (download_final E)
    = match summary_failure E with
      | Some e => inl e
      | None => inr tt
      end
    /\ (summary_failure E = None ->
        exists before,
          prints (fst (download_final E))
          = before ++ [nl ++ check_mark ++ lit " All downloads complete!"]).
Proof.
  intro E. destruct (download_final_trace E) as [Htr ->].
  split; [apply final_summary_outcome |].
  intro Hnone.
  assert (Hret : snd (final_summary E) = inr tt).
  { rewrite final_summary_outcome, Hnone. reflexivity. }
  destruct (final_summary_last_line E Hret) as [before Hlast].
  rewrite Htr. rewrite !prints_app. rewrite Hlast.
  exists (prints [Print rule;
                  Print (lit "Downloading More AI Conversation Datasets");
                  Print rule]
            ++ prints (fst (wildchat_section E))
            ++ prints (fst (oasst_section E))
            ++ prints (fst (hhrlhf_section E)) ++ before).
  rewrite <- !List.app_assoc. reflexivity.
Qed.

(** The sample run ends with the [FileNotFoundError] of the dangling link,
    after the three sections and the line of the first file. *)
Example download_final_stale_link :
  snd (download_final sample_env)
  = inl (Raised (lit "[Errno 2] No such file or directory: 'datasets/stale_link.json'"))
  /\ List.last (prints (fst (download_final sample_env))) []
     = lit "  - anthropic_hh_rlhf_10k_sample.json"
         ++ List.repeat 32%N 17 ++ lit "     1.50 MB".
Proof. split; vm_compute; reflexivity. Qed.

Lemma normalized_rows_native (dataset : list row) :
  rows_ok dataset = true ->
  json_native (OList (List.map normalized dataset)) = true.
Proof.
  unfold rows_ok. cbn [json_native].
  induction dataset as [| item more IH]; [reflexivity |].
  cbn [List.forallb List.map]. intro H. apply andb_prop in H as [Hitem Hmore].
  apply andb_true_intro. split; [| exact (IH Hmore)].
  unfold normalized. now apply NormalizerFacts.serialize_item_json_native.
Qed.

Lemma rows_ok_firstn (n : nat) (dataset : list row) :
  rows_ok dataset = true -> rows_ok (List.firstn n dataset) = true.
Proof.
  unfold rows_ok. revert n.
  induction dataset as [| item more IH]; intros [| n] H; try reflexivity.
  cbn [List.firstn List.forallb] in *. apply andb_prop in H as [Hitem Hmore].
  rewrite Hitem. exact (IH n Hmore).
Qed.

(** X18. When the rows of the three datasets hold only JSON types and
    timestamps under string keys, every value the script hands to
    [json.dump] is made of JSON types only, and the two sampled files hold
    at most 10000 rows. *)
Theorem dumped_data_json_native :
  forall E : env,
    (forall s, wildchat E = inr s -> rows_ok (rows s) = true) ->
    (forall dataset, oasst E = inr dataset -> rows_ok dataset = true) ->
    (forall dataset, hhrlhf E = inr dataset -> rows_ok dataset = true) ->
    List.Forall
      (fun file =>
         json_native (OList (snd file)) = true
         /\ (fst file <> lit "openassistant_conversations.json" ->
             (List.length (snd file) <= Z.to_nat 10000)%nat))
      (dumps (fst (download_final E))).
Proof.
  intros E Hw Ho Hh.
  destruct (download_final_trace E) as [-> _].
  rewrite !dumps_app. rewrite final_summary_dumps.
  destruct (wildchat_section_run E) as (_ & -> & _).
  destruct (oasst_section_run E) as (_ & -> & _).
  destruct (hhrlhf_section_run E) as (_ & -> & _).
  cbn [dumps]. rewrite List.app_nil_r.
  unfold wildchat_data, oasst_data, hhrlhf_data.
  apply List.Forall_app. split; [constructor |].
  apply List.Forall_app. split; [| apply List.Forall_app; split].
  - destruct (wildchat E) as [e | s]; [constructor |].
    specialize (Hw s eq_refl). cbv beta iota.
    pose proof (sample_stream_returns s) as Hshape.
    destruct (sample_stream s) as [e | sample]; [constructor |].
    cbn [written]. constructor; [| constructor]. cbn [fst snd].
    rewrite (Hshape sample eq_refl). split.
    + apply normalized_rows_native. now apply rows_ok_firstn.
    + intros _. rewrite List.length_map. apply List.firstn_le_length.
  - destruct (oasst E) as [e | dataset]; [constructor |].
    cbn [written]. constructor; [| constructor]. cbn [fst snd]. split.
    + apply normalized_rows_native. now apply Ho.
    + intro H. now contradiction H.
  - destruct (hhrlhf E) as [e | dataset]; [constructor |].
    cbn [written]. constructor; [| constructor]. cbn [fst snd]. split.
    + apply normalized_rows_native. apply rows_ok_firstn. now apply Hh.
    + intros _. rewrite List.length_map. apply List.firstn_le_length.
Qed.

Lemma dumped_data_json_native_witness :
  List.Forall
    (fun file =>
       json_native (OList (snd file)) = true
       /\ (fst file <> lit "openassistant_conversations.json" ->
           (List.length (snd file) <= Z.to_nat 10000)%nat))
    (dumps (fst (download_final sample_env))).
Proof.
  apply (dumped_data_json_native sample_env).
  - intros s H. injection H as <-. reflexivity.
  - intros dataset H. discriminate H.
  - intros dataset H. injection H as <-. reflexivity.
Defined.

(** *** The example of [download_datasets.py] *)

(** X19. A field that is neither a list nor a dict is shown on one line,
    after four spaces, its key and a colon: in full when its text has at
    most 100 characters (100 included), and otherwise cut to its first 100
    characters followed by three dots, 103 characters in all. *)
Theorem example_line_truncates :
  forall (text_of : pyobj -> pystr) (key value : pyobj),
    (forall items, value <> OList items) ->
    (forall entries, value <> ODict entries) ->
    exists shown,
      example_line text_of key value
      = lit "    " ++ obj_str text_of key ++ lit ": " ++ shown
      /\ ((List.length (obj_str text_of value) <= 100)%nat ->
          shown = obj_str text_of value)
      /\ ((100 < List.length (obj_str text_of value))%nat ->
          shown = List.firstn 100 (obj_str text_of value) ++ lit "..."
          /\ List.length shown = 103%nat).
Proof.
  intros text_of key value Hlist Hdict.
  exists (List.firstn 100 (obj_str text_of value)
            ++ (if (100 <? List.length (obj_str text_of value))%nat
                then lit "..." else [])).
  split; [| split].
  - destruct value; try reflexivity.
    + now contradiction (Hlist items).
    + now contradiction (Hdict entries).
  - intro Hshort.
    destruct (Nat.ltb_spec 100 (List.length (obj_str text_of value)));
      [lia |].
    rewrite List.app_nil_r. now apply List.firstn_all2.
  - intro Hlong.
    destruct (Nat.ltb_spec 100 (List.length (obj_str text_of value)));
      [| lia].
    split; [reflexivity |].
    rewrite List.length_app, List.length_firstn.
    rewrite Nat.min_l by lia. reflexivity.
Qed.

Lemma example_line_truncates_witness :
  exists shown,
    example_line sample_text_of (OStr (lit "sample_id")) (OInt 42)
    = lit "    " ++ obj_str sample_text_of (OStr (lit "sample_id"))
        ++ lit ": " ++ shown
    /\ ((List.length (obj_str sample_text_of (OInt 42)) <= 100)%nat ->
        shown = obj_str sample_text_of (OInt 42))
    /\ ((100 < List.length (obj_str sample_text_of (OInt 42)))%nat ->
        shown = List.firstn 100 (obj_str sample_text_of (OInt 42)) ++ lit "..."
        /\ List.length shown = 103%nat).
Proof.
  apply (example_line_truncates sample_text_of (OStr (lit "sample_id")) (OInt 42)).
  - intros items H. discriminate H.
  - intros entries H. discriminate H.
Defined.

End DownloaderFacts.
